(** * silentjack: silence / dead-air detector for JACK

    A shallow embedding of [silentjack.c]: the peak cell shared with the
    JACK process callback ([process_peak], [read_peak]), the trigger
    ([run_command]) and the body of the main loop of [main] with its two
    debounce counters and the grace counter; further down, the option
    loop of [main], [init_jack] with [connect_jack_port], and [main] as a
    whole with its exit status.

    Conventions.
    - A C [float] is an IEEE-754 binary32 value, modelled by the Standard
      Library's [spec_float] at precision 24 and maximal exponent 128;
      comparisons and [fabs] are exact, subtraction rounds to nearest even.
    - A C [int] is modelled by [Z].  Signed overflow has no defined
      wrap-around in C; [state_ok_iteration] shows that the counters of the
      main loop stay inside the [int] range, so that no increment or
      decrement of the model ever leaves it.
    - [lin2db] comes from [db.h], which is not part of the sources at hand;
      every definition that calls it takes it as a section variable.
    - Console output ([printf]) is not modelled; the point where the code
      prints a banner and calls [run_command] is the fire event. *)

From Stdlib Require Import ZArith List Bool String Lia.
From Stdlib Require Import Sorting.Permutation.
From Stdlib Require Import Floats.SpecFloat.
Import ListNotations.

Local Open Scope Z_scope.

(** ** C floats *)

Module Float32.

Definition prec : Z := 24.
Definition emax : Z := 128.

Definition float : Type := spec_float.

(** The literal [0.0f]. *)
Definition zero : float := S754_zero false.

(** Conversion of an integer constant, as in [float silence_theshold = -40]. *)
Definition of_Z (z : Z) : float := binary_normalize prec emax z 0 false.

(** [m * 2^e], rounded to the format. *)
Definition of_scaled (m e : Z) : float := binary_normalize prec emax m e false.

Definition ltb (x y : float) : bool := SFltb x y.
Definition leb (x y : float) : bool := SFleb x y.
Definition eqb (x y : float) : bool := SFeqb x y.
Definition sub (x y : float) : float := SFsub prec emax x y.
Definition fabs (x : float) : float := SFabs x.

(** The truth value of a float used as a C condition: [x != 0].  Both
    zeros are false, a NaN is true. *)
Definition is_nonzero (x : float) : bool := negb (eqb x zero).

Definition is_nan (x : float) : bool :=
  match x with
  | S754_nan => true
  | _ => false
  end.

End Float32.

Import Float32.

(** ** Globals and the locals of [main] *)

(** A registered JACK port; the handle itself is never inspected. *)
Definition jack_port_t : Type := nat.

Record state : Type := mkState {
  input_port : option jack_port_t;  (* global: NULL until registered *)
  peak : float;                     (* global: current peak (linear) *)
  peakdb : float;                   (* current peak signal level (dB) *)
  last_peakdb : float;              (* previous peak signal level (dB) *)
  silence_count : Z;                (* seconds of silence detected *)
  nodynamic_count : Z;              (* seconds of no-dynamic detected *)
  in_grace : Z                      (* seconds left in grace *)
}.

(** The option values, fixed once the command line has been parsed, and
    the remaining arguments [argv] that form the command to run. *)
Record config : Type := mkConfig {
  silence_period : Z;
  nodynamic_period : Z;
  grace_period : Z;
  silence_theshold : float;
  nodynamic_theshold : float;
  argv : list string
}.

(** The initial values of the declarations in [main]. *)
Definition default_config (args : list string) : config :=
  {| silence_period := 1;
     nodynamic_period := 10;
     grace_period := 0;
     silence_theshold := of_Z (-40);
     nodynamic_theshold := of_Z 0;
     argv := args |}.

(** The state when the main loop is entered: [init_jack] has registered
    the port (it exits otherwise). *)
Definition initial_state (port : jack_port_t) : state :=
  {| input_port := Some port;
     peak := zero;
     peakdb := zero;
     last_peakdb := zero;
     silence_count := 0;
     nodynamic_count := 0;
     in_grace := 0 |}.

Definition set_peak (v : float) (st : state) : state :=
  mkState (input_port st) v (peakdb st) (last_peakdb st)
          (silence_count st) (nodynamic_count st) (in_grace st).

Definition set_readings (prev cur : float) (st : state) : state :=
  mkState (input_port st) (peak st) cur prev
          (silence_count st) (nodynamic_count st) (in_grace st).

Definition set_silence_count (n : Z) (st : state) : state :=
  mkState (input_port st) (peak st) (peakdb st) (last_peakdb st)
          n (nodynamic_count st) (in_grace st).

Definition set_nodynamic_count (n : Z) (st : state) : state :=
  mkState (input_port st) (peak st) (peakdb st) (last_peakdb st)
          (silence_count st) n (in_grace st).

Definition set_in_grace (n : Z) (st : state) : state :=
  mkState (input_port st) (peak st) (peakdb st) (last_peakdb st)
          (silence_count st) (nodynamic_count st) n.

(** The limits of [int]. *)
Definition INT_MAX : Z := 2147483647.
Definition INT_MIN : Z := -2147483648.

(** ** The process callback *)

(** One round of the [for] loop of [process_peak]:
    [s = fabs(in[i]); if (s > peak) peak = s]. *)
Definition process_sample (pk : float) (x : float) : float :=
  let s := fabs x in
  if ltb pk s then s else pk.

(** [process_peak]: nothing happens while the port is not registered;
    otherwise the [nframes] samples of the buffer are scanned in order. *)
Definition process_peak (buf : list float) (st : state) : state :=
  match input_port st with
  | None => st
  | Some _ => set_peak (fold_left process_sample buf (peak st)) st
  end.

(** ** The trigger *)

Inductive cmd_result : Type :=
  | CmdReturned
  | CmdExited (code : Z).

(** [run_command]: no command, the command [exit], or fork-and-wait.
    [fork_ok] tells whether [fork] succeeded; the child is another
    process, and a failing [waitpid] only prints. *)
Definition run_command (args : list string) (fork_ok : bool) : cmd_result :=
  match args with
  | [] => CmdReturned
  | a :: rest =>
      if (match rest with [] => String.eqb a "exit" | _ => false end)
      then CmdExited 0
      else if fork_ok then CmdReturned else CmdExited (-1)
  end.

(** ** One round of the main loop *)

Inductive fire : Type :=
  | SILENCE
  | NO_DYNAMIC.

Definition fire_eq_dec (a b : fire) : {a = b} + {a <> b}.
Proof. decide equality. Defined.

Inductive status : Type :=
  | Running (st : state)
  | Exited (code : Z).

(** What the operating system answers during one round: the outcome of
    [fork] in the [run_command] call of either detector. *)
Record os_result : Type := mkOs {
  fork_silence : bool;
  fork_nodynamic : bool
}.

(** What one round of the loop receives from outside: the buffers that
    JACK hands to [process_peak] since the previous round read the peak,
    the answer of [jack_port_connected], and the operating system. *)
Record tick_input : Type := mkInput {
  blocks : list (list float);
  jack_port_connected : Z;
  os : os_result
}.

(** "Do silence detection?" *)
Definition silence_detection (cfg : config) (o : os_result) (st : state)
  : list fire * status :=
  if is_nonzero (silence_theshold cfg) then
    let st1 :=
      if ltb (peakdb st) (silence_theshold cfg)
      then set_silence_count (silence_count st + 1) st
      else set_silence_count 0 st in
    if silence_period cfg <=? silence_count st1 then
      match run_command (argv cfg) (fork_silence o) with
      | CmdExited c => ([SILENCE], Exited c)
      | CmdReturned =>
          ([SILENCE],
           Running (set_in_grace (grace_period cfg) (set_silence_count 0 st1)))
      end
    else ([], Running st1)
  else ([], Running st).

(** "Do no-dynamic detection" *)
Definition nodynamic_detection (cfg : config) (o : os_result) (st : state)
  : list fire * status :=
  if is_nonzero (nodynamic_theshold cfg) then
    let st1 :=
      if ltb (fabs (sub (last_peakdb st) (peakdb st))) (nodynamic_theshold cfg)
      then set_nodynamic_count (nodynamic_count st + 1) st
      else set_nodynamic_count 0 st in
    if nodynamic_period cfg <=? nodynamic_count st1 then
      match run_command (argv cfg) (fork_nodynamic o) with
      | CmdExited c => ([NO_DYNAMIC], Exited c)
      | CmdReturned =>
          ([NO_DYNAMIC],
           Running (set_in_grace (grace_period cfg) (set_nodynamic_count 0 st1)))
      end
    else ([], Running st1)
  else ([], Running st).

(** The loop body from [last_peakdb = peakdb] on, given the value that
    [read_peak ()] returned. *)
Definition evaluate (cfg : config) (o : os_result) (reading : float)
  (st : state) : list fire * status :=
  let st0 := set_readings (peakdb st) reading st in
  match silence_detection cfg o st0 with
  | (ev1, Exited c) => (ev1, Exited c)
  | (ev1, Running st1) =>
      let (ev2, r) := nodynamic_detection cfg o st1 in
      (ev1 ++ ev2, r)
  end.

(** The evaluated rounds alone: each element is the value returned by
    [read_peak] in one round that got past both [continue]s.  Such a round
    starts with [in_grace] at zero: the grace rounds in between, which
    read nothing, have counted it down. *)
Fixpoint run_readings (cfg : config) (rs : list (float * os_result))
  (st : state) : list (list fire) * status :=
  match rs with
  | [] => ([], Running st)
  | (r, o) :: rest =>
      match evaluate cfg o r (set_in_grace 0 st) with
      | (ev, Exited c) => ([ev], Exited c)
      | (ev, Running st1) =>
          let (tr, fin) := run_readings cfg rest st1 in
          (ev :: tr, fin)
      end
  end.

(** The JACK callbacks that arrive before the body of a round runs:
    during its second of sleep, or earlier while the previous round was
    waiting for its command (nothing looks at [peak] in between). *)
Definition usleep (bufs : list (list float)) (st : state) : state :=
  fold_left (fun s buf => process_peak buf s) bufs st.

Section WithLin2db.

(** [lin2db] of [db.h]. *)
Variable lin2db : float -> float.

(** [read_peak]: "Read and reset the recent peak sample". *)
Definition read_peak (st : state) : float * state :=
  let peakdb := lin2db (peak st) in
  (peakdb, set_peak zero st).

(** The loop body after the sleep. *)
Definition loop_body (cfg : config) (inp : tick_input) (st : state)
  : list fire * status :=
  if negb (in_grace st =? 0) then
    ([], Running (set_in_grace (in_grace st - 1) st))
  else if jack_port_connected inp =? 0 then
    ([], Running st)
  else
    let (reading, st1) := read_peak st in
    evaluate cfg (os inp) reading st1.

(** One round: sleep, then the body. *)
Definition iteration (cfg : config) (inp : tick_input) (st : state)
  : list fire * status :=
  loop_body cfg inp (usleep (blocks inp) st).

(** The rounds of [while (running)], one per element of [inps]; the
    list ends where the shutdown callback clears [running].  The result
    is the fire events of each round and the status reached. *)
Fixpoint main_loop (cfg : config) (inps : list tick_input) (st : state)
  : list (list fire) * status :=
  match inps with
  | [] => ([], Running st)
  | inp :: rest =>
      match iteration cfg inp st with
      | (ev, Exited c) => ([ev], Exited c)
      | (ev, Running st1) =>
          let (tr, fin) := main_loop cfg rest st1 in
          (ev :: tr, fin)
      end
  end.

End WithLin2db.

(** ** Vocabulary of the properties *)

(** The trigger comes back from both of its possible calls in this round:
    the command is not [exit] and [fork] succeeds. *)
Definition trigger_returns (cfg : config) (o : os_result) : Prop :=
  run_command (argv cfg) (fork_silence o) = CmdReturned /\
  run_command (argv cfg) (fork_nodynamic o) = CmdReturned.

(** Number of fire events of one kind in the output of a round. *)
Definition fired (k : fire) (evs : list fire) : nat :=
  count_occ fire_eq_dec evs k.

(** The counter value a detector reaches in a round before the test
    against its period: one more when the condition holds, else zero. *)
Definition counted (cond : bool) (count : Z) : Z :=
  if cond then count + 1 else 0.

(** The condition of the silence detector on a reading. *)
Definition silent (cfg : config) (cur : float) : bool :=
  ltb cur (silence_theshold cfg).

(** The condition of the no-dynamic detector on two successive readings. *)
Definition flat (cfg : config) (prev cur : float) : bool :=
  ltb (fabs (sub prev cur)) (nodynamic_theshold cfg).

(** [m] is a greatest element of [l]; NaNs, which compare with nothing,
    are left aside. *)
Definition is_maximum (m : float) (l : list float) : Prop :=
  In m l /\ forall x, In x l -> is_nan x = false -> leb x m = true.

(** Values of the configuration that the option parser can produce:
    [-p] and [-g] go through [fabs], [-P] does not. *)
Definition config_ok (cfg : config) : Prop :=
  0 <= silence_period cfg <= INT_MAX /\
  INT_MIN <= nodynamic_period cfg <= INT_MAX /\
  0 <= grace_period cfg <= INT_MAX.

(** The counters are non-negative and leave room for one increment. *)
Definition state_ok (st : state) : Prop :=
  0 <= silence_count st < INT_MAX /\
  0 <= nodynamic_count st < INT_MAX /\
  0 <= in_grace st <= INT_MAX.

(** A round is skipped when it leaves through one of the two [continue]s. *)
Definition skipped (inp : tick_input) (st : state) : Prop :=
  in_grace st <> 0 \/ jack_port_connected inp = 0.

(** The state a skipped round leaves behind. *)
Definition skip_round (inp : tick_input) (st : state) : state :=
  let st1 := usleep (blocks inp) st in
  if negb (in_grace st1 =? 0) then set_in_grace (in_grace st1 - 1) st1 else st1.

(** Every round of [inps], run in order from [st], is skipped. *)
Fixpoint all_skipped (inps : list tick_input) (st : state) : Prop :=
  match inps with
  | [] => True
  | inp :: rest => skipped inp st /\ all_skipped rest (skip_round inp st)
  end.

(** All samples delivered during the rounds [inps], oldest first. *)
Definition samples_of (inps : list tick_input) : list float :=
  List.concat (List.concat (map blocks inps)).

(** A coarse stand-in for [lin2db], used to run the model on concrete
    inputs only: -90 for a zero peak, otherwise 6 dB per binary order of
    magnitude. *)
Definition lin2db_coarse (x : float) : float :=
  match x with
  | S754_zero _ => of_Z (-90)
  | S754_finite _ m e => of_Z (6 * (Z.pos (digits2_pos m) + e - 1))
  | S754_infinity _ => S754_infinity false
  | S754_nan => S754_nan
  end.

(** ** The two threads, step by step

    [read_peak] is two memory accesses: a load of [peak] (followed by the
    local computation of [lin2db]) and a store of [0.0f].  The JACK thread
    runs the rounds of the loop of [process_peak].  A schedule says which
    thread moves next. *)

Inductive read_peak_pc : Type :=
  | RP_load                       (* before [peakdb = lin2db(peak)] *)
  | RP_store (peakdb : float)     (* before [peak = 0.0f] *)
  | RP_return (peakdb : float).   (* [read_peak] has returned [peakdb] *)

Record threads : Type := mkThreads {
  t_peak : float;            (* the shared cell *)
  t_main : read_peak_pc;     (* the main thread, inside [read_peak] *)
  t_jack : list float        (* samples the callback has yet to scan *)
}.

Inductive thread : Type :=
  | MainThread
  | JackThread.

Section Interleaving.

Variable lin2db : float -> float.

Definition thread_step (c : threads) (t : thread) : threads :=
  match t with
  | MainThread =>
      match t_main c with
      | RP_load => mkThreads (t_peak c) (RP_store (lin2db (t_peak c))) (t_jack c)
      | RP_store v => mkThreads zero (RP_return v) (t_jack c)
      | RP_return _ => c
      end
  | JackThread =>
      match t_jack c with
      | [] => c
      | x :: rest => mkThreads (process_sample (t_peak c) x) (t_main c) rest
      end
  end.

Definition run_schedule (sched : list thread) (c : threads) : threads :=
  fold_left thread_step sched c.

End Interleaving.

(** The reading a round takes when the cell was at zero before its
    buffers arrived. *)
Definition reading_of (lin2db : float -> float) (inp : tick_input) : float :=
  lin2db (fold_left process_sample (List.concat (blocks inp)) zero).

(** The state after a run of skipped rounds. *)
Definition skip_rounds (inps : list tick_input) (st : state) : state :=
  fold_left (fun s inp => skip_round inp s) inps st.

(** A round that moves none of the three counters. *)
Definition keeps_counters (st st' : state) : Prop :=
  silence_count st' = silence_count st /\
  nodynamic_count st' = nodynamic_count st /\
  in_grace st' = in_grace st.

(** The reading of the [k]-th evaluated round and what that round fired. *)
Definition reading_at (rs : list (float * os_result)) (k : nat) : float :=
  fst (nth k rs (zero, mkOs true true)).

Definition fired_at (k : fire) (tr : list (list fire)) (n : nat) : nat :=
  fired k (nth n tr []).

(** The silence detector fires for the first time in round [k] of the
    evaluated rounds [rs], where [k] is the first round with a silent
    reading. *)
Definition fires_first_when_silent (cfg : config)
  (rs : list (float * os_result)) (st : state) (k : nat) : Prop :=
  (k < List.length rs)%nat ->
  silent cfg (reading_at rs k) = true ->
  (forall j, (j < k)%nat -> silent cfg (reading_at rs j) = false) ->
  fired_at SILENCE (fst (run_readings cfg rs st)) k = 1%nat /\
  (forall j, (j < k)%nat -> fired_at SILENCE (fst (run_readings cfg rs st)) j = 0%nat).

(** ** Concrete scenarios *)

(** Threshold -40 dB, period 3, no grace, no-dynamic detection off. *)
Definition debounce_config (args : list string) : config :=
  {| silence_period := 3;
     nodynamic_period := 10;
     grace_period := 0;
     silence_theshold := of_Z (-40);
     nodynamic_theshold := of_Z 0;
     argv := args |}.

Definition debounce_readings : list float :=
  map of_Z [-50; -50; -45; -50; -50; -50].

(** Silence below -40 dB at once (period 0). *)
Definition zero_period_config : config :=
  {| silence_period := 0;
     nodynamic_period := 10;
     grace_period := 0;
     silence_theshold := of_Z (-40);
     nodynamic_theshold := of_Z 0;
     argv := [] |}.

(** Both detectors on, each with period 1, grace period 2, and a command
    that is not [exit]. *)
Definition both_config : config :=
  {| silence_period := 1;
     nodynamic_period := 1;
     grace_period := 2;
     silence_theshold := of_Z (-40);
     nodynamic_theshold := of_Z 3;
     argv := ["logger"%string; "dead air"%string] |}.

(** Both detectors on, each with period 0. *)
Definition zero_periods_config : config :=
  {| silence_period := 0;
     nodynamic_period := 0;
     grace_period := 0;
     silence_theshold := of_Z (-40);
     nodynamic_theshold := of_Z 3;
     argv := ["logger"%string] |}.

Definition fork_succeeds : os_result := mkOs true true.

(** A second of near silence (peak 2^-20), a second of signal (peak 0.75),
    and a second without a connection. *)
Definition quiet_second : tick_input :=
  mkInput [[of_scaled 1 (-20); of_scaled (-1) (-21)]] 1 fork_succeeds.

Definition loud_second : tick_input :=
  mkInput [[of_scaled 1 (-1)]; [of_scaled (-3) (-2)]] 1 fork_succeeds.

Definition unplugged_second : tick_input :=
  mkInput [[of_scaled 1 (-1)]] 0 fork_succeeds.

(** The state of [both_config] after one quiet second from the start:
    the silence detector has fired and two seconds of grace remain. *)
Definition state_after_fire : state :=
  {| input_port := Some 0%nat;
     peak := zero;
     peakdb := of_Z (-120);
     last_peakdb := zero;
     silence_count := 0;
     nodynamic_count := 0;
     in_grace := 2 |}.

(** [state_after_fire] once the two seconds of grace are over. *)
Definition state_after_grace : state := set_in_grace 0 state_after_fire.

(** Both thresholds at zero: nothing is detected. *)
Definition all_off_config : config :=
  {| silence_period := 1;
     nodynamic_period := 10;
     grace_period := 0;
     silence_theshold := of_Z 0;
     nodynamic_theshold := S754_zero true;
     argv := ["exit"%string] |}.

(** ** Further vocabulary *)

(** Each count is below its period (or zero when the period is not
    positive) and the grace counter is at most the grace period. *)
Definition bounded (cfg : config) (st : state) : Prop :=
  0 <= silence_count st <= Z.max 0 (silence_period cfg - 1) /\
  0 <= nodynamic_count st <= Z.max 0 (nodynamic_period cfg - 1) /\
  0 <= in_grace st <= grace_period cfg.

(** The four outputs a round can have. *)
Definition round_events (evs : list fire) : Prop :=
  evs = [] \/ evs = [SILENCE] \/ evs = [NO_DYNAMIC] \/
  evs = [SILENCE; NO_DYNAMIC].

(** All events of a run, in order. *)
Definition all_events (tr : list (list fire)) : list fire := List.concat tr.

(** A value the peak cell can hold: a magnitude, not a NaN. *)
Definition is_magnitude (x : float) : Prop :=
  fabs x = x /\ is_nan x = false.

(** Why a round can end the process: the command is [exit] (status 0), or
    a [fork] failed (status -1). *)
Definition exit_reason (cfg : config) (o : os_result) (code : Z) : Prop :=
  (code = 0 /\ argv cfg = ["exit"%string]) \/
  (code = -1 /\ argv cfg <> [] /\ argv cfg <> ["exit"%string] /\
   (fork_silence o = false \/ fork_nodynamic o = false)).

(** ** The command line and the start of [main] *)

(** A C [double]: IEEE-754 binary64. *)
Definition double : Type := spec_float.

(** The conversion of a [double] to [float] in an assignment such as
    [silence_theshold = atof(optarg)]: rounding to nearest even. *)
Definition float_of_double (d : double) : float :=
  match d with
  | S754_finite s m e => binary_normalize prec emax (cond_Zopp s (Zpos m)) e s
  | _ => d
  end.

(** A finite [double] with its fraction dropped. *)
Definition truncate_double (s : bool) (m : positive) (e : Z) : Z :=
  cond_Zopp s (Z.shiftl (Zpos m) e).

(** The conversion of a [double] to [int] in [nodynamic_period =
    atof(optarg)]: the fraction is dropped.  For a NaN, an infinity or a
    value outside [int] C leaves the result undefined; the conversion
    instruction of the machine then gives [INT_MIN], and that is what the
    program stores. *)
Definition int_of_double (d : double) : Z :=
  match d with
  | S754_zero _ => 0
  | S754_finite s m e =>
      let t := truncate_double s m e in
      if (INT_MIN <=? t) && (t <=? INT_MAX) then t else INT_MIN
  | _ => INT_MIN
  end.

(** [fabs(atoi(optarg))] stored in an [int]: the conversion of an [int]
    to [double] is exact, so this is the absolute value; for [INT_MIN] the
    conversion back is outside [int] and undefined in C. *)
Definition fabs_int (n : Z) : Z := Z.abs n.

(** What one call of [getopt] with "c:n:l:p:P:d:g:vqh" returns, with the
    argument already through [atoi] or [atof] where the code applies
    them.  [opt_other] is the '?' of an unknown option or of a missing
    argument. *)
Inductive getopt_result : Type :=
  | opt_c (optarg : string)
  | opt_n (optarg : string)
  | opt_l (atof : double)
  | opt_p (atoi : Z)
  | opt_d (atof : double)
  | opt_P (atof : double)
  | opt_g (atoi : Z)
  | opt_v
  | opt_q
  | opt_h
  | opt_other.

(** The variables the option loop assigns. *)
Record settings : Type := mkSettings {
  client_name : string;
  connect_port : option string;
  verbose : bool;
  quiet : bool;
  detector : config
}.

Definition DEFAULT_CLIENT_NAME : string := "silentjack".

Definition default_settings (command : list string) : settings :=
  {| client_name := DEFAULT_CLIENT_NAME;
     connect_port := None;
     verbose := false;
     quiet := false;
     detector := default_config command |}.

Definition set_detector (f : config -> config) (s : settings) : settings :=
  mkSettings (client_name s) (connect_port s) (verbose s) (quiet s)
             (f (detector s)).

(** One [case] of the [switch], for the options that do not call
    [usage]. *)
Definition set_option (o : getopt_result) (s : settings) : settings :=
  match o with
  | opt_c arg =>
      mkSettings (client_name s) (Some arg) (verbose s) (quiet s) (detector s)
  | opt_n arg =>
      mkSettings arg (connect_port s) (verbose s) (quiet s) (detector s)
  | opt_l d =>
      set_detector (fun c =>
        mkConfig (silence_period c) (nodynamic_period c) (grace_period c)
                 (float_of_double d) (nodynamic_theshold c) (argv c)) s
  | opt_p n =>
      set_detector (fun c =>
        mkConfig (fabs_int n) (nodynamic_period c) (grace_period c)
                 (silence_theshold c) (nodynamic_theshold c) (argv c)) s
  | opt_d d =>
      set_detector (fun c =>
        mkConfig (silence_period c) (nodynamic_period c) (grace_period c)
                 (silence_theshold c) (float_of_double d) (argv c)) s
  | opt_P d =>
      set_detector (fun c =>
        mkConfig (silence_period c) (int_of_double d) (grace_period c)
                 (silence_theshold c) (nodynamic_theshold c) (argv c)) s
  | opt_g n =>
      set_detector (fun c =>
        mkConfig (silence_period c) (nodynamic_period c) (fabs_int n)
                 (silence_theshold c) (nodynamic_theshold c) (argv c)) s
  | opt_v =>
      mkSettings (client_name s) (connect_port s) true (quiet s) (detector s)
  | opt_q =>
      mkSettings (client_name s) (connect_port s) (verbose s) true (detector s)
  | opt_h | opt_other => s
  end.

(** The option loop: [usage ()] prints and calls [exit(1)] at once. *)
Inductive parse_result : Type :=
  | Parsed (s : settings)
  | Usage.

Fixpoint parse_options (opts : list getopt_result) (s : settings)
  : parse_result :=
  match opts with
  | [] => Parsed s
  | opt_h :: _ => Usage
  | opt_other :: _ => Usage
  | o :: rest => parse_options rest (set_option o s)
  end.

(** What the JACK library answers to [init_jack]. *)
Record jack_server : Type := mkJack {
  jack_client_open : bool;                   (* a client, or 0 *)
  jack_port_register : option jack_port_t;   (* a port, or NULL *)
  jack_activate : Z;                         (* 0 on success *)
  jack_connect : Z                           (* 0 on success *)
}.

Inductive init_result : Type :=
  | InitDone (port : jack_port_t)
  | InitExit (code : Z).

(** [connect_jack_port]: [exit(1)] when [jack_connect] fails. *)
Definition connect_jack_port (j : jack_server) (port : jack_port_t)
  : init_result :=
  if negb (jack_connect j =? 0) then InitExit 1 else InitDone port.

(** [init_jack]: every failure is [exit(1)]; on success the global
    [input_port] holds the registered port. *)
Definition init_jack (connect : option string) (j : jack_server)
  : init_result :=
  if negb (jack_client_open j) then InitExit 1
  else
    match jack_port_register j with
    | None => InitExit 1
    | Some port =>
        if negb (jack_activate j =? 0) then InitExit 1
        else
          match connect with
          | Some _ => connect_jack_port j port
          | None => InitDone port
          end
    end.

(** [main]: the options, the check of [-q] against [-v], [init_jack], the
    loop, and [return 0] once [running] is cleared.  The result is the
    events of the rounds and the exit status. *)
Definition main (lin2db : float -> float) (opts : list getopt_result)
  (command : list string) (j : jack_server) (inps : list tick_input)
  : list (list fire) * Z :=
  match parse_options opts (default_settings command) with
  | Usage => ([], 1)
  | Parsed s =>
      if quiet s && verbose s then ([], 1)
      else
        match init_jack (connect_port s) j with
        | InitExit c => ([], c)
        | InitDone port =>
            match main_loop lin2db (detector s) inps (initial_state port) with
            | (tr, Exited c) => (tr, c)
            | (tr, Running _) => (tr, 0)
            end
        end
  end.

(** An option whose number fits the [int] it is stored in. *)
Definition option_in_range (o : getopt_result) : Prop :=
  match o with
  | opt_p n | opt_g n => INT_MIN < n <= INT_MAX
  | opt_P d => INT_MIN <= int_of_double d <= INT_MAX
  | _ => True
  end.

(** Each reading of the rounds [inps] is within the no-dynamic threshold
    of the reading before it, starting from [prev]. *)
Fixpoint steady (lin2db : float -> float) (cfg : config) (prev : float)
  (inps : list tick_input) : Prop :=
  match inps with
  | [] => True
  | inp :: rest =>
      flat cfg prev (reading_of lin2db inp) = true /\
      steady lin2db cfg (reading_of lin2db inp) rest
  end.

(** What [-l 0 -d 3 -P 3] leaves, with the command [exit]: only the
    no-dynamic detector, with a period of 3. *)
Definition nodynamic_only_config : config :=
  {| silence_period := 1;
     nodynamic_period := 3;
     grace_period := 0;
     silence_theshold := of_Z 0;
     nodynamic_theshold := of_Z 3;
     argv := ["exit"%string] |}.

(** ** Further scenarios *)

(** [debounce_config] with the command [exit]. *)
Definition exit_config : config := debounce_config ["exit"%string].

(** Both detectors on with a period of 3 and no grace. *)
Definition long_config : config :=
  {| silence_period := 3;
     nodynamic_period := 3;
     grace_period := 0;
     silence_theshold := of_Z (-40);
     nodynamic_theshold := of_Z 3;
     argv := ["logger"%string] |}.

(** What [-l 0 -d 3 -P -2.5] leaves: only the no-dynamic detector, with a
    period of -2. *)
Definition negative_period_config : config :=
  {| silence_period := 1;
     nodynamic_period := -2;
     grace_period := 0;
     silence_theshold := of_Z 0;
     nodynamic_theshold := of_Z 3;
     argv := ["logger"%string] |}.



(** ** Rounds in which the trigger is called *)

(** The number of steps of the JACK thread in a schedule. *)
Fixpoint jack_steps (sched : list thread) : nat :=
  match sched with
  | [] => 0%nat
  | JackThread :: rest => S (jack_steps rest)
  | MainThread :: rest => jack_steps rest
  end.

(** The steps of the JACK thread at the head of a schedule, and what
    follows the first step of the main thread. *)
Fixpoint jack_prefix (sched : list thread) : nat :=
  match sched with
  | JackThread :: rest => S (jack_prefix rest)
  | _ => 0%nat
  end.

Fixpoint after_main (sched : list thread) : list thread :=
  match sched with
  | [] => []
  | MainThread :: rest => rest
  | JackThread :: rest => after_main rest
  end.

(** C1 as the specification words it: an evaluated round always goes on,
    and each enabled detector has made its increment, reset or fire step
    with the count and the grace counter set. *)
Definition transition_as_claimed (lin2db : float -> float) (cfg : config)
  (inp : tick_input) (st : state) : Prop :=
  let previous := peakdb st in
  let current := lin2db (peak (usleep (blocks inp) st)) in
  exists (evs : list fire) (st' : state),
    iteration lin2db cfg inp st = (evs, Running st') /\
    (is_nonzero (silence_theshold cfg) = true ->
       let c := counted (ltb current (silence_theshold cfg)) (silence_count st) in
       if silence_period cfg <=? c
       then fired SILENCE evs = 1%nat /\ silence_count st' = 0 /\
            in_grace st' = grace_period cfg
       else fired SILENCE evs = 0%nat /\ silence_count st' = c) /\
    (is_nonzero (nodynamic_theshold cfg) = true ->
       let c := counted (ltb (fabs (sub previous current)) (nodynamic_theshold cfg))
                  (nodynamic_count st) in
       if nodynamic_period cfg <=? c
       then fired NO_DYNAMIC evs = 1%nat /\ nodynamic_count st' = 0 /\
            in_grace st' = grace_period cfg
       else fired NO_DYNAMIC evs = 0%nat /\ nodynamic_count st' = c).

(** C6 as the specification words it: both events are emitted in the
    round and the grace counter ends it equal to the grace period. *)
Definition both_fired_as_claimed (lin2db : float -> float) (cfg : config)
  (inp : tick_input) (st : state) : Prop :=
  exists st' : state,
    iteration lin2db cfg inp st = ([SILENCE; NO_DYNAMIC], Running st') /\
    in_grace st' = grace_period cfg.

(** The defaults with the command [exit]: silence below -40 dB for one
    second ends the program. *)
Definition default_exit_config : config := default_config ["exit"%string].

(** Both detectors on with period 1 and the command [exit]; the
    no-dynamic threshold is wide enough for the first reading after the
    start to count as steady. *)
Definition both_exit_config : config :=
  {| silence_period := 1;
     nodynamic_period := 1;
     grace_period := 2;
     silence_theshold := of_Z (-40);
     nodynamic_theshold := of_Z 200;
     argv := ["exit"%string] |}.

(** * Properties *)

(** ** The order on floats *)

Lemma SFcompare_swap (x y : float) :
  SFcompare y x = option_map CompOpp (SFcompare x y).
Proof.
  destruct x as [[]|[]| |[] mx ex], y as [[]|[]| |[] my ey];
    simpl; try reflexivity;
    rewrite (Z.compare_antisym ex ey);
    destruct (Z.compare_spec ex ey); simpl; try reflexivity;
    change (Pos.compare_cont Eq my mx) with (Pos.compare my mx);
    change (Pos.compare_cont Eq mx my) with (Pos.compare mx my);
    rewrite (Pos.compare_antisym mx my);
    destruct (Pos.compare my mx); reflexivity.
Qed.

Lemma SFcompare_some (x y : float) :
  is_nan x = false -> is_nan y = false -> exists c, SFcompare x y = Some c.
Proof.
  destruct x as [[]|[]| |[] mx ex], y as [[]|[]| |[] my ey];
    simpl; intros; try discriminate; eexists; reflexivity.
Qed.

Lemma ltb_not_nan (x y : float) :
  ltb x y = true -> is_nan x = false /\ is_nan y = false.
Proof.
  destruct x as [[]|[]| |[] mx ex], y as [[]|[]| |[] my ey];
    simpl; intros; try discriminate; split; reflexivity.
Qed.

Lemma ltb_leb (x y : float) : ltb x y = true -> leb x y = true.
Proof.
  unfold ltb, leb, SFltb, SFleb.
  destruct (SFcompare x y) as [[]|]; intros; try discriminate; reflexivity.
Qed.

Lemma ltb_false_leb (x y : float) :
  is_nan x = false -> is_nan y = false -> ltb x y = false -> leb y x = true.
Proof.
  intros Hx Hy. unfold ltb, leb, SFltb, SFleb.
  rewrite (SFcompare_swap x y).
  destruct (SFcompare_some x y Hx Hy) as [c ->].
  destruct c; simpl; intros; try discriminate; reflexivity.
Qed.

Lemma leb_refl (x : float) : is_nan x = false -> leb x x = true.
Proof.
  unfold leb, SFleb.
  destruct x as [[]|[]| |[] mx ex]; simpl; intros; try discriminate;
    try reflexivity; rewrite Z.compare_refl;
    change (Pos.compare_cont Eq mx mx) with (Pos.compare mx mx);
    rewrite Pos.compare_refl; reflexivity.
Qed.

Lemma leb_trans (x y z : float) :
  leb x y = true -> leb y z = true -> leb x z = true.
Proof.
  unfold leb, SFleb.
  destruct x as [[]|[]| |[] mx ex], y as [[]|[]| |[] my ey],
    z as [[]|[]| |[] mz ez]; simpl; try congruence;
    change (Pos.compare_cont Eq mx my) with (Pos.compare mx my);
    change (Pos.compare_cont Eq my mz) with (Pos.compare my mz);
    change (Pos.compare_cont Eq mx mz) with (Pos.compare mx mz);
    destruct (Z.compare_spec ex ey), (Z.compare_spec ey ez),
      (Z.compare_spec ex ez); try lia; try congruence;
    destruct (Pos.compare_spec mx my), (Pos.compare_spec my mz),
      (Pos.compare_spec mx mz); simpl; try lia; congruence.
Qed.

(** ** The peak accumulator *)

Lemma process_sample_cases (pk x : float) :
  process_sample pk x = pk \/ process_sample pk x = fabs x.
Proof.
  unfold process_sample. destruct (ltb pk (fabs x)); auto.
Qed.

Lemma process_sample_not_nan (pk x : float) :
  is_nan pk = false -> is_nan (process_sample pk x) = false.
Proof.
  unfold process_sample. intros Hpk.
  destruct (ltb pk (fabs x)) eqn:E; [|exact Hpk].
  apply ltb_not_nan in E. tauto.
Qed.

Lemma process_sample_above_peak (pk x : float) :
  is_nan pk = false -> leb pk (process_sample pk x) = true.
Proof.
  unfold process_sample. intros Hpk.
  destruct (ltb pk (fabs x)) eqn:E.
  - now apply ltb_leb.
  - now apply leb_refl.
Qed.

Lemma process_sample_above_sample (pk x : float) :
  is_nan pk = false -> is_nan (fabs x) = false ->
  leb (fabs x) (process_sample pk x) = true.
Proof.
  unfold process_sample. intros Hpk Hx.
  destruct (ltb pk (fabs x)) eqn:E.
  - now apply leb_refl.
  - now apply ltb_false_leb.
Qed.

(** Scanning a buffer leaves the greatest of the old peak and the
    magnitudes of the samples in the cell. *)
Lemma scan_maximum (buf : list float) :
  forall pk, is_nan pk = false ->
    is_nan (fold_left process_sample buf pk) = false /\
    is_maximum (fold_left process_sample buf pk) (pk :: map fabs buf).
Proof.
  induction buf as [|x buf IH]; intros pk Hpk; simpl.
  - split; [exact Hpk|]. split; [now left|].
    intros y [<-|[]] _. now apply leb_refl.
  - destruct (IH (process_sample pk x) (process_sample_not_nan pk x Hpk))
      as [Hnan [Hin Hub]].
    split; [exact Hnan|]. split.
    + destruct Hin as [Hin|Hin].
      * rewrite <- Hin.
        destruct (process_sample_cases pk x) as [-> | ->]; simpl; auto.
      * simpl. auto.
    + intros y [<-|[<-|Hy]] Hy'.
      * apply leb_trans with (process_sample pk x).
        -- now apply process_sample_above_peak.
        -- apply Hub; [now left | now apply process_sample_not_nan].
      * apply leb_trans with (process_sample pk x).
        -- now apply process_sample_above_sample.
        -- apply Hub; [now left | now apply process_sample_not_nan].
      * apply Hub; [now right | exact Hy'].
Qed.

Lemma process_peak_registered (buf : list float) (st : state) (port : jack_port_t) :
  input_port st = Some port ->
  process_peak buf st = set_peak (fold_left process_sample buf (peak st)) st.
Proof.
  unfold process_peak. now intros ->.
Qed.

(** With the port registered, the callbacks of one sleep act as one scan
    of all their buffers. *)
Lemma usleep_registered (bufs : list (list float)) :
  forall (st : state) (port : jack_port_t),
    input_port st = Some port ->
    usleep bufs st =
    set_peak (fold_left process_sample (List.concat bufs) (peak st)) st.
Proof.
  unfold usleep.
  induction bufs as [|buf bufs IH]; intros st port Hp; simpl.
  - now destruct st.
  - rewrite (IH (process_peak buf st) port).
    + rewrite (process_peak_registered buf st port Hp).
      rewrite fold_left_app. now destruct st.
    + rewrite (process_peak_registered buf st port Hp). exact Hp.
Qed.

Lemma usleep_frame (bufs : list (list float)) (st : state) :
  input_port (usleep bufs st) = input_port st /\
  peakdb (usleep bufs st) = peakdb st /\
  last_peakdb (usleep bufs st) = last_peakdb st /\
  silence_count (usleep bufs st) = silence_count st /\
  nodynamic_count (usleep bufs st) = nodynamic_count st /\
  in_grace (usleep bufs st) = in_grace st.
Proof.
  unfold usleep. revert st.
  induction bufs as [|buf bufs IH]; intros st; simpl.
  - repeat split.
  - destruct (IH (process_peak buf st)) as (H1 & H2 & H3 & H4 & H5 & H6).
    rewrite H1, H2, H3, H4, H5, H6.
    unfold process_peak. destruct (input_port st) eqn:E; simpl;
      rewrite ?E; repeat split.
Qed.

(** A magnitude that is not above zero is the zero of the reset. *)
Lemma fabs_below_zero (x : float) :
  is_nan x = false -> leb (fabs x) zero = true -> fabs x = zero.
Proof.
  destruct x as [[]|[]| |[] mx ex]; simpl; intros; try discriminate; reflexivity.
Qed.

(** C8.  The accumulated peak is the maximum absolute sample seen since
    the previous reset.  Each call of [process_peak] leaves the greatest of
    the old peak and the magnitudes of its buffer in the cell; after a
    reset and any sequence of buffers the cell holds the greatest of zero
    and all magnitudes seen, which is one of these magnitudes as soon as
    one sample is a number; the next [read_peak] hands exactly that value
    to [lin2db], returns the result, and puts the cell back to zero, which
    is the state right after the previous reset.  NaN samples compare with
    nothing and are passed over. *)
Theorem peak_accumulator_maximum
  (lin2db : float -> float) (st0 : state) (port : jack_port_t)
  (bufs : list (list float)) :
  input_port st0 = Some port ->
  let st := snd (read_peak lin2db st0) in
  (forall (buf : list float) (s : state),
      input_port s = Some port -> is_nan (peak s) = false ->
      is_maximum (peak (process_peak buf s)) (peak s :: map fabs buf)) /\
  exists m : float,
    is_maximum m (zero :: map fabs (List.concat bufs)) /\
    ((exists x, In x (List.concat bufs) /\ is_nan x = false) ->
     In m (map fabs (List.concat bufs))) /\
    peak (usleep bufs st) = m /\
    read_peak lin2db (usleep bufs st) = (lin2db m, st) /\
    peak st = zero.
Proof.
  intros Hport st. split.
  - intros buf s Hs Hnan.
    rewrite (process_peak_registered buf s port Hs). simpl.
    now apply scan_maximum.
  - exists (fold_left process_sample (List.concat bufs) zero).
    assert (Hst : input_port st = Some port) by exact Hport.
    rewrite (usleep_registered bufs st port Hst).
    destruct (scan_maximum (List.concat bufs) zero eq_refl) as [_ Hmax].
    split; [exact Hmax|]. split; [|repeat split].
    intros (x & Hx & Hnan).
    destruct Hmax as [[Hz|Hin] Hub]; [|exact Hin].
    rewrite <- Hz.
    assert (Hfx : is_nan (fabs x) = false) by (now destruct x).
    assert (Hle : leb (fabs x) zero = true).
    { rewrite Hz. apply Hub; [right; now apply in_map|exact Hfx]. }
    rewrite <- (fabs_below_zero x Hnan Hle). now apply in_map.
Qed.

Lemma peak_accumulator_maximum_witness :
  let st0 := initial_state 0%nat in
  let bufs := [[of_scaled 1 (-2); of_scaled (-1) (-1)]; [of_scaled 1 (-3)]] in
  let st := snd (read_peak lin2db_coarse st0) in
  input_port st0 = Some 0%nat /\
  (forall (buf : list float) (s : state),
      input_port s = Some 0%nat -> is_nan (peak s) = false ->
      is_maximum (peak (process_peak buf s)) (peak s :: map fabs buf)) /\
  exists m : float,
    is_maximum m (zero :: map fabs (List.concat bufs)) /\
    ((exists x, In x (List.concat bufs) /\ is_nan x = false) ->
     In m (map fabs (List.concat bufs))) /\
    peak (usleep bufs st) = m /\
    read_peak lin2db_coarse (usleep bufs st) = (lin2db_coarse m, st) /\
    peak st = zero.
Proof.
  split; [reflexivity|].
  exact (peak_accumulator_maximum lin2db_coarse (initial_state 0%nat) 0%nat
           [[of_scaled 1 (-2); of_scaled (-1) (-1)]; [of_scaled 1 (-3)]]
           eq_refl).
Defined.

(** ** One evaluated round *)

(** The two detectors when their trigger comes back. *)
Lemma silence_detection_returns (cfg : config) (o : os_result) (st : state) :
  run_command (argv cfg) (fork_silence o) = CmdReturned ->
  silence_detection cfg o st =
  if is_nonzero (silence_theshold cfg) then
    if silence_period cfg <=? counted (silent cfg (peakdb st)) (silence_count st)
    then ([SILENCE],
          Running (set_in_grace (grace_period cfg) (set_silence_count 0 st)))
    else ([], Running (set_silence_count
                         (counted (silent cfg (peakdb st)) (silence_count st)) st))
  else ([], Running st).
Proof.
  intros Hs. unfold silence_detection, counted, silent. rewrite Hs.
  destruct (is_nonzero (silence_theshold cfg)); [|reflexivity].
  destruct (ltb (peakdb st) (silence_theshold cfg)); simpl;
    match goal with |- context [?a <=? ?b] => destruct (a <=? b) end;
    reflexivity.
Qed.

Lemma nodynamic_detection_returns (cfg : config) (o : os_result) (st : state) :
  run_command (argv cfg) (fork_nodynamic o) = CmdReturned ->
  nodynamic_detection cfg o st =
  if is_nonzero (nodynamic_theshold cfg) then
    if nodynamic_period cfg <=?
       counted (flat cfg (last_peakdb st) (peakdb st)) (nodynamic_count st)
    then ([NO_DYNAMIC],
          Running (set_in_grace (grace_period cfg) (set_nodynamic_count 0 st)))
    else ([], Running (set_nodynamic_count
                         (counted (flat cfg (last_peakdb st) (peakdb st))
                            (nodynamic_count st)) st))
  else ([], Running st).
Proof.
  intros Hn. unfold nodynamic_detection, counted, flat. rewrite Hn.
  destruct (is_nonzero (nodynamic_theshold cfg)); [|reflexivity].
  destruct (ltb (fabs (sub (last_peakdb st) (peakdb st))) (nodynamic_theshold cfg));
    simpl;
    match goal with |- context [?a <=? ?b] => destruct (a <=? b) end;
    reflexivity.
Qed.

(** What [evaluate] does when the trigger comes back: the transition of
    each enabled detector, and the frame. *)
Lemma evaluate_transition (cfg : config) (o : os_result) (r : float) (st : state) :
  trigger_returns cfg o ->
  exists (evs : list fire) (st' : state),
    evaluate cfg o r st = (evs, Running st') /\
    (is_nonzero (silence_theshold cfg) = true ->
       let c := counted (silent cfg r) (silence_count st) in
       if silence_period cfg <=? c
       then fired SILENCE evs = 1%nat /\ silence_count st' = 0 /\
            in_grace st' = grace_period cfg
       else fired SILENCE evs = 0%nat /\ silence_count st' = c) /\
    (is_nonzero (nodynamic_theshold cfg) = true ->
       let c := counted (flat cfg (peakdb st) r) (nodynamic_count st) in
       if nodynamic_period cfg <=? c
       then fired NO_DYNAMIC evs = 1%nat /\ nodynamic_count st' = 0 /\
            in_grace st' = grace_period cfg
       else fired NO_DYNAMIC evs = 0%nat /\ nodynamic_count st' = c) /\
    (is_nonzero (silence_theshold cfg) = false ->
       fired SILENCE evs = 0%nat /\ silence_count st' = silence_count st) /\
    (is_nonzero (nodynamic_theshold cfg) = false ->
       fired NO_DYNAMIC evs = 0%nat /\ nodynamic_count st' = nodynamic_count st) /\
    (evs = [] -> in_grace st' = in_grace st) /\
    peakdb st' = r /\ last_peakdb st' = peakdb st /\
    peak st' = peak st /\ input_port st' = input_port st.
Proof.
  intros [Hs Hn]. unfold evaluate.
  rewrite (silence_detection_returns cfg o _ Hs).
  destruct st as [ip pk pdb lpdb sc nc g]; simpl.
  destruct (is_nonzero (silence_theshold cfg)) eqn:Es;
    [destruct (silence_period cfg <=? counted (silent cfg r) sc) eqn:Ps|];
    rewrite (nodynamic_detection_returns cfg o _ Hn); simpl;
    (destruct (is_nonzero (nodynamic_theshold cfg)) eqn:En;
     [destruct (nodynamic_period cfg <=? counted (flat cfg pdb r) nc) eqn:Pn|]);
    do 2 eexists; (split; [reflexivity|]); simpl;
    repeat split; intros; try discriminate; try reflexivity.
Qed.

(** Without any assumption on the trigger: the first event of the round,
    if the silence detector reaches its period, is [SILENCE]. *)
Lemma evaluate_silence_fires (cfg : config) (o : os_result) (r : float) (st : state) :
  is_nonzero (silence_theshold cfg) = true ->
  (silence_period cfg <=? counted (silent cfg r) (silence_count st)) = true ->
  exists (rest : list fire), fst (evaluate cfg o r st) = SILENCE :: rest.
Proof.
  intros Es Ps.
  unfold evaluate, silence_detection, nodynamic_detection, silent, counted in *.
  destruct st as [ip pk pdb lpdb sc nc g]; simpl in *.
  rewrite Es.
  destruct (ltb r (silence_theshold cfg)); simpl; rewrite Ps;
    destruct (run_command (argv cfg) (fork_silence o)); simpl;
    try (eexists; reflexivity);
    match goal with
    | |- context [let (_, _) := ?x in _] => destruct x
    end; eexists; reflexivity.
Qed.

(** ** The three ways through the loop body *)

Lemma loop_body_grace (lin2db : float -> float) (cfg : config)
  (inp : tick_input) (st : state) :
  in_grace st <> 0 ->
  loop_body lin2db cfg inp st = ([], Running (set_in_grace (in_grace st - 1) st)).
Proof.
  intros Hg. unfold loop_body.
  destruct (Z.eqb_spec (in_grace st) 0) as [E|E]; [contradiction|reflexivity].
Qed.

Lemma loop_body_disconnected (lin2db : float -> float) (cfg : config)
  (inp : tick_input) (st : state) :
  in_grace st = 0 -> jack_port_connected inp = 0 ->
  loop_body lin2db cfg inp st = ([], Running st).
Proof.
  intros Hg Hc. unfold loop_body. rewrite Hg, Hc. reflexivity.
Qed.

Lemma loop_body_evaluated (lin2db : float -> float) (cfg : config)
  (inp : tick_input) (st : state) :
  in_grace st = 0 -> jack_port_connected inp <> 0 ->
  loop_body lin2db cfg inp st =
  evaluate cfg (os inp) (lin2db (peak st)) (set_peak zero st).
Proof.
  intros Hg Hc. unfold loop_body. rewrite Hg. simpl.
  destruct (Z.eqb_spec (jack_port_connected inp) 0) as [E|E];
    [contradiction|reflexivity].
Qed.

(** ** Grace *)

Lemma silence_detection_running (cfg : config) (o : os_result) (s s' : state)
  (ev : list fire) :
  silence_detection cfg o s = (ev, Running s') ->
  (ev = [] /\ in_grace s' = in_grace s) \/
  (ev = [SILENCE] /\ in_grace s' = grace_period cfg).
Proof.
  unfold silence_detection.
  destruct (is_nonzero (silence_theshold cfg)).
  - destruct (ltb (peakdb s) (silence_theshold cfg)); simpl;
      match goal with |- context [?a <=? ?b] => destruct (a <=? b) end;
      try destruct (run_command (argv cfg) (fork_silence o));
      intros H; inversion H; subst; simpl; auto.
  - intros H; inversion H; subst; auto.
Qed.

Lemma nodynamic_detection_running (cfg : config) (o : os_result) (s s' : state)
  (ev : list fire) :
  nodynamic_detection cfg o s = (ev, Running s') ->
  (ev = [] /\ in_grace s' = in_grace s) \/
  (ev = [NO_DYNAMIC] /\ in_grace s' = grace_period cfg).
Proof.
  unfold nodynamic_detection.
  destruct (is_nonzero (nodynamic_theshold cfg)).
  - destruct (ltb (fabs (sub (last_peakdb s) (peakdb s))) (nodynamic_theshold cfg));
      simpl;
      match goal with |- context [?a <=? ?b] => destruct (a <=? b) end;
      try destruct (run_command (argv cfg) (fork_nodynamic o));
      intros H; inversion H; subst; simpl; auto.
  - intros H; inversion H; subst; auto.
Qed.

(** A round that fires and goes on leaves the grace period in the grace
    counter. *)
Lemma evaluate_fired_grace (cfg : config) (o : os_result) (r : float)
  (s s' : state) (evs : list fire) :
  evaluate cfg o r s = (evs, Running s') -> evs <> [] ->
  in_grace s' = grace_period cfg.
Proof.
  unfold evaluate.
  destruct (silence_detection cfg o (set_readings (peakdb s) r s))
    as [ev1 [s1|c]] eqn:E1; [|discriminate].
  destruct (nodynamic_detection cfg o s1) as [ev2 r2] eqn:E2.
  intros H; inversion H; subst; clear H. intros Hne.
  apply silence_detection_running in E1.
  apply nodynamic_detection_running in E2.
  destruct E1 as [[-> G1]|[-> G1]], E2 as [[-> G2]|[-> G2]];
    simpl in *; congruence.
Qed.

Lemma iteration_fired_grace (lin2db : float -> float) (cfg : config)
  (inp : tick_input) (s s' : state) (evs : list fire) :
  iteration lin2db cfg inp s = (evs, Running s') -> evs <> [] ->
  in_grace s' = grace_period cfg.
Proof.
  unfold iteration, loop_body.
  destruct (negb (in_grace (usleep (blocks inp) s) =? 0)).
  - intros H; inversion H; congruence.
  - destruct (jack_port_connected inp =? 0).
    + intros H; inversion H; congruence.
    + simpl. apply evaluate_fired_grace.
Qed.

Lemma iteration_grace (lin2db : float -> float) (cfg : config)
  (inp : tick_input) (st : state) :
  in_grace st <> 0 ->
  iteration lin2db cfg inp st =
  ([], Running (set_in_grace (in_grace st - 1) (usleep (blocks inp) st))).
Proof.
  intros Hg.
  destruct (usleep_frame (blocks inp) st) as (_ & _ & _ & _ & _ & Hgr).
  unfold iteration. rewrite loop_body_grace by (rewrite Hgr; exact Hg).
  now rewrite Hgr.
Qed.

(** C2.  A round that starts with a positive grace counter takes exactly
    one off it, fires nothing and leaves both counts as they are.  After a
    round that fired, with a grace period of 2, the next two rounds fire
    nothing and move no count whatever they receive, and the grace counter
    is back at zero; the third round is evaluated as usual when the port
    is connected: it reads the peak and runs the detectors. *)
Theorem grace_suppression (lin2db : float -> float) (cfg : config) :
  (forall (inp : tick_input) (st : state),
      0 < in_grace st ->
      exists st' : state,
        iteration lin2db cfg inp st = ([], Running st') /\
        in_grace st' = in_grace st - 1 /\
        silence_count st' = silence_count st /\
        nodynamic_count st' = nodynamic_count st) /\
  (grace_period cfg = 2 ->
   forall (inp0 : tick_input) (st0 st : state) (evs : list fire),
     iteration lin2db cfg inp0 st0 = (evs, Running st) -> evs <> [] ->
     forall i1 i2 : tick_input,
     exists st2 : state,
       main_loop lin2db cfg [i1; i2] st = ([[]; []], Running st2) /\
       silence_count st2 = silence_count st /\
       nodynamic_count st2 = nodynamic_count st /\
       in_grace st2 = 0 /\
       forall i3 : tick_input,
         jack_port_connected i3 <> 0 ->
         iteration lin2db cfg i3 st2 =
         evaluate cfg (os i3) (lin2db (peak (usleep (blocks i3) st2)))
           (set_peak zero (usleep (blocks i3) st2))).
Proof.
  split.
  - intros inp st Hg.
    destruct (usleep_frame (blocks inp) st) as (_ & _ & _ & Hsc & Hnc & _).
    eexists. split; [apply iteration_grace; lia|].
    simpl. auto.
  - intros Hgp inp0 st0 st evs Hit Hne i1 i2.
    pose proof (iteration_fired_grace lin2db cfg inp0 st0 st evs Hit Hne) as Hg.
    rewrite Hgp in Hg.
    destruct (usleep_frame (blocks i1) st) as (_ & _ & _ & Hsc1 & Hnc1 & _).
    set (st1 := set_in_grace (in_grace st - 1) (usleep (blocks i1) st)).
    destruct (usleep_frame (blocks i2) st1) as (_ & _ & _ & Hsc2 & Hnc2 & _).
    exists (set_in_grace (in_grace st1 - 1) (usleep (blocks i2) st1)).
    split; [|split; [|split; [|split]]].
    + simpl. rewrite (iteration_grace lin2db cfg i1 st) by lia. fold st1.
      rewrite (iteration_grace lin2db cfg i2 st1) by (subst st1; simpl; lia).
      reflexivity.
    + simpl. rewrite Hsc2. subst st1. simpl. exact Hsc1.
    + simpl. rewrite Hnc2. subst st1. simpl. exact Hnc1.
    + subst st1. simpl. lia.
    + intros i3 Hc. unfold iteration.
      apply loop_body_evaluated; [|exact Hc].
      destruct (usleep_frame (blocks i3)
                  (set_in_grace (in_grace st1 - 1) (usleep (blocks i2) st1)))
        as (_ & _ & _ & _ & _ & Hgr).
      rewrite Hgr. subst st1. simpl. lia.
Qed.

(** ** Disabled detectors *)

Lemma silence_detection_frame (cfg : config) (o : os_result) (s : state)
  (ev : list fire) (r : status) :
  silence_detection cfg o s = (ev, r) ->
  ~ In NO_DYNAMIC ev /\
  (forall s', r = Running s' -> nodynamic_count s' = nodynamic_count s) /\
  (is_nonzero (silence_theshold cfg) = false -> ev = [] /\ r = Running s).
Proof.
  unfold silence_detection.
  destruct (is_nonzero (silence_theshold cfg)).
  - destruct (ltb (peakdb s) (silence_theshold cfg)); simpl;
      match goal with |- context [?a <=? ?b] => destruct (a <=? b) end;
      try destruct (run_command (argv cfg) (fork_silence o));
      intros H; inversion H; subst; simpl;
      (split; [first [intros [A|[]]; discriminate | intros []] | ]);
      (split; [intros s' E; inversion E; reflexivity | discriminate]).
  - intros H; inversion H; subst. split; [intros []|]. split; auto.
    intros s' E; inversion E; reflexivity.
Qed.

Lemma nodynamic_detection_frame (cfg : config) (o : os_result) (s : state)
  (ev : list fire) (r : status) :
  nodynamic_detection cfg o s = (ev, r) ->
  ~ In SILENCE ev /\
  (forall s', r = Running s' -> silence_count s' = silence_count s) /\
  (is_nonzero (nodynamic_theshold cfg) = false -> ev = [] /\ r = Running s).
Proof.
  unfold nodynamic_detection.
  destruct (is_nonzero (nodynamic_theshold cfg)).
  - destruct (ltb (fabs (sub (last_peakdb s) (peakdb s))) (nodynamic_theshold cfg));
      simpl;
      match goal with |- context [?a <=? ?b] => destruct (a <=? b) end;
      try destruct (run_command (argv cfg) (fork_nodynamic o));
      intros H; inversion H; subst; simpl;
      (split; [first [intros [A|[]]; discriminate | intros []] | ]);
      (split; [intros s' E; inversion E; reflexivity | discriminate]).
  - intros H; inversion H; subst. split; [intros []|]. split; auto.
    intros s' E; inversion E; reflexivity.
Qed.

Lemma evaluate_silence_disabled (cfg : config) (o : os_result) (rd : float)
  (s : state) (evs : list fire) (r : status) :
  is_nonzero (silence_theshold cfg) = false ->
  evaluate cfg o rd s = (evs, r) ->
  ~ In SILENCE evs /\
  (forall s', r = Running s' -> silence_count s' = silence_count s).
Proof.
  intros Hd. unfold evaluate.
  destruct (silence_detection cfg o (set_readings (peakdb s) rd s))
    as [ev1 r1] eqn:E1.
  destruct (silence_detection_frame _ _ _ _ _ E1) as (_ & _ & Hoff).
  destruct (Hoff Hd) as [-> ->].
  destruct (nodynamic_detection cfg o (set_readings (peakdb s) rd s))
    as [ev2 r2] eqn:E2.
  destruct (nodynamic_detection_frame _ _ _ _ _ E2) as (Hno & Hcnt & _).
  intros H; inversion H; subst. simpl. split; [exact Hno|].
  intros s' E. now rewrite (Hcnt s' E).
Qed.

Lemma evaluate_nodynamic_disabled (cfg : config) (o : os_result) (rd : float)
  (s : state) (evs : list fire) (r : status) :
  is_nonzero (nodynamic_theshold cfg) = false ->
  evaluate cfg o rd s = (evs, r) ->
  ~ In NO_DYNAMIC evs /\
  (forall s', r = Running s' -> nodynamic_count s' = nodynamic_count s).
Proof.
  intros Hd. unfold evaluate.
  destruct (silence_detection cfg o (set_readings (peakdb s) rd s))
    as [ev1 r1] eqn:E1.
  destruct (silence_detection_frame _ _ _ _ _ E1) as (Hno & Hcnt & _).
  destruct r1 as [s1|c].
  - destruct (nodynamic_detection cfg o s1) as [ev2 r2] eqn:E2.
    destruct (nodynamic_detection_frame _ _ _ _ _ E2) as (_ & _ & Hoff).
    destruct (Hoff Hd) as [-> ->].
    intros H; inversion H; subst. rewrite app_nil_r. split; [exact Hno|].
    intros s' E. inversion E; subst. now rewrite (Hcnt s' eq_refl).
  - intros H; inversion H; subst. split; [exact Hno|]. discriminate.
Qed.

(** A round never creates a count for a disabled detector. *)
Lemma iteration_disabled (lin2db : float -> float) (cfg : config)
  (inp : tick_input) (s : state) (evs : list fire) (r : status) :
  iteration lin2db cfg inp s = (evs, r) ->
  (is_nonzero (silence_theshold cfg) = false ->
   ~ In SILENCE evs /\
   (forall s', r = Running s' -> silence_count s' = silence_count s)) /\
  (is_nonzero (nodynamic_theshold cfg) = false ->
   ~ In NO_DYNAMIC evs /\
   (forall s', r = Running s' -> nodynamic_count s' = nodynamic_count s)).
Proof.
  destruct (usleep_frame (blocks inp) s) as (_ & _ & _ & Hsc & Hnc & _).
  unfold iteration, loop_body.
  destruct (negb (in_grace (usleep (blocks inp) s) =? 0)).
  - intros H; inversion H; subst.
    split; intros _; (split; [intros []|]);
      intros s' E; inversion E; subst; simpl; assumption.
  - destruct (jack_port_connected inp =? 0).
    + intros H; inversion H; subst.
      split; intros _; (split; [intros []|]);
        intros s' E; inversion E; subst; assumption.
    + simpl. intros H. split; intros Hd.
      * destruct (evaluate_silence_disabled _ _ _ _ _ _ Hd H) as [A B].
        split; [exact A|]. intros s' E. rewrite (B s' E). exact Hsc.
      * destruct (evaluate_nodynamic_disabled _ _ _ _ _ _ Hd H) as [A B].
        split; [exact A|]. intros s' E. rewrite (B s' E). exact Hnc.
Qed.

(** C5.  A threshold of exactly zero switches its detector off: whatever
    the loop receives, for however many rounds, no round fires the event
    of that detector and its count keeps the value it started with.  It
    holds for the silence detector and, in the same way, for the
    no-dynamic detector. *)
Theorem zero_threshold_disables (lin2db : float -> float) (cfg : config) :
  (eqb (silence_theshold cfg) zero = true ->
   forall (inps : list tick_input) (st : state),
     Forall (fun evs => ~ In SILENCE evs) (fst (main_loop lin2db cfg inps st)) /\
     (forall st', snd (main_loop lin2db cfg inps st) = Running st' ->
                  silence_count st' = silence_count st)) /\
  (eqb (nodynamic_theshold cfg) zero = true ->
   forall (inps : list tick_input) (st : state),
     Forall (fun evs => ~ In NO_DYNAMIC evs) (fst (main_loop lin2db cfg inps st)) /\
     (forall st', snd (main_loop lin2db cfg inps st) = Running st' ->
                  nodynamic_count st' = nodynamic_count st)).
Proof.
  split; intros Hz; (assert (Hd : negb (eqb _ zero) = false) by now rewrite Hz);
    induction inps as [|inp inps IH]; intros st; simpl;
    try (split; [constructor | intros st' E; inversion E; reflexivity]).
  - destruct (iteration lin2db cfg inp st) as [ev [s1|c]] eqn:E.
    + destruct (iteration_disabled _ _ _ _ _ _ E) as [Hs _].
      destruct (Hs Hd) as [Hno Hcnt].
      specialize (IH s1).
      destruct (main_loop lin2db cfg inps s1) as [tr fin]. simpl in *.
      destruct IH as [IH1 IH2]. split; [constructor; assumption|].
      intros st' F. rewrite (IH2 st' F). now apply Hcnt.
    + destruct (iteration_disabled _ _ _ _ _ _ E) as [Hs _].
      destruct (Hs Hd) as [Hno _]. simpl.
      split; [constructor; [assumption|constructor] | discriminate].
  - destruct (iteration lin2db cfg inp st) as [ev [s1|c]] eqn:E.
    + destruct (iteration_disabled _ _ _ _ _ _ E) as [_ Hs].
      destruct (Hs Hd) as [Hno Hcnt].
      specialize (IH s1).
      destruct (main_loop lin2db cfg inps s1) as [tr fin]. simpl in *.
      destruct IH as [IH1 IH2]. split; [constructor; assumption|].
      intros st' F. rewrite (IH2 st' F). now apply Hcnt.
    + destruct (iteration_disabled _ _ _ _ _ _ E) as [_ Hs].
      destruct (Hs Hd) as [Hno _]. simpl.
      split; [constructor; [assumption|constructor] | discriminate].
Qed.

(** ** Rounds without a connection *)

Lemma state_after_fire_reached :
  iteration lin2db_coarse both_config quiet_second (initial_state 0%nat)
  = ([SILENCE], Running state_after_fire).
Proof. vm_compute. reflexivity. Qed.

(** C3, as stated, fails: the grace test comes before the connection
    test, so a round without a connection that starts inside the grace
    period takes one off the grace counter.  Here the round follows the
    fire of [state_after_fire_reached]. *)
Lemma unplugged_round_moves_grace :
  jack_port_connected unplugged_second = 0 /\
  exists st' : state,
    iteration lin2db_coarse both_config unplugged_second state_after_fire
    = ([], Running st') /\
    in_grace state_after_fire = 2 /\
    in_grace st' = 1 /\
    ~ keeps_counters state_after_fire st'.
Proof.
  split; [reflexivity|].
  eexists. split; [vm_compute; reflexivity|].
  split; [reflexivity|]. split; [reflexivity|].
  intros (_ & _ & H). vm_compute in H. discriminate.
Qed.

(** C3, amended.  A round without a connection fires nothing, leaves both
    counts and both readings as they are, and leaves the grace counter
    alone when it is zero; when it is not, the round is a grace round and
    takes one off it. *)
Theorem unplugged_round
  (lin2db : float -> float) (cfg : config) (inp : tick_input) (st : state) :
  jack_port_connected inp = 0 ->
  exists st' : state,
    iteration lin2db cfg inp st = ([], Running st') /\
    silence_count st' = silence_count st /\
    nodynamic_count st' = nodynamic_count st /\
    peakdb st' = peakdb st /\
    last_peakdb st' = last_peakdb st /\
    in_grace st' = (if in_grace st =? 0 then 0 else in_grace st - 1).
Proof.
  intros Hc.
  destruct (usleep_frame (blocks inp) st) as (_ & Hdb & Hldb & Hsc & Hnc & Hgr).
  destruct (Z.eqb_spec (in_grace st) 0) as [Hg|Hg].
  - exists (usleep (blocks inp) st). unfold iteration.
    rewrite loop_body_disconnected by (rewrite ?Hgr; assumption).
    rewrite Hgr. auto 10.
  - eexists. split; [apply iteration_grace; exact Hg|]. simpl. auto 10.
Qed.

Lemma unplugged_round_witness :
  jack_port_connected unplugged_second = 0 /\
  exists st' : state,
    iteration lin2db_coarse both_config unplugged_second (initial_state 0%nat)
    = ([], Running st') /\
    silence_count st' = silence_count (initial_state 0%nat) /\
    nodynamic_count st' = nodynamic_count (initial_state 0%nat) /\
    peakdb st' = peakdb (initial_state 0%nat) /\
    last_peakdb st' = last_peakdb (initial_state 0%nat) /\
    in_grace st' = (if in_grace (initial_state 0%nat) =? 0 then 0
                    else in_grace (initial_state 0%nat) - 1).
Proof.
  split; [reflexivity|].
  exact (unplugged_round lin2db_coarse both_config unplugged_second
           (initial_state 0%nat) eq_refl).
Defined.

(** ** The main loop and its evaluated rounds *)

Lemma silence_detection_cell (cfg : config) (o : os_result) (s s' : state)
  (ev : list fire) :
  silence_detection cfg o s = (ev, Running s') ->
  peak s' = peak s /\ input_port s' = input_port s.
Proof.
  unfold silence_detection.
  destruct (is_nonzero (silence_theshold cfg)).
  - destruct (ltb (peakdb s) (silence_theshold cfg)); simpl;
      match goal with |- context [?a <=? ?b] => destruct (a <=? b) end;
      try destruct (run_command (argv cfg) (fork_silence o));
      intros H; inversion H; subst; simpl; auto.
  - intros H; inversion H; subst; auto.
Qed.

Lemma nodynamic_detection_cell (cfg : config) (o : os_result) (s s' : state)
  (ev : list fire) :
  nodynamic_detection cfg o s = (ev, Running s') ->
  peak s' = peak s /\ input_port s' = input_port s.
Proof.
  unfold nodynamic_detection.
  destruct (is_nonzero (nodynamic_theshold cfg)).
  - destruct (ltb (fabs (sub (last_peakdb s) (peakdb s))) (nodynamic_theshold cfg));
      simpl;
      match goal with |- context [?a <=? ?b] => destruct (a <=? b) end;
      try destruct (run_command (argv cfg) (fork_nodynamic o));
      intros H; inversion H; subst; simpl; auto.
  - intros H; inversion H; subst; auto.
Qed.

(** The detectors leave the cell and the port alone, and the grace
    counter holds its old value or the grace period. *)
Lemma evaluate_frame (cfg : config) (o : os_result) (r : float)
  (s s' : state) (evs : list fire) :
  evaluate cfg o r s = (evs, Running s') ->
  peak s' = peak s /\ input_port s' = input_port s /\
  (in_grace s' = in_grace s \/ in_grace s' = grace_period cfg).
Proof.
  unfold evaluate.
  destruct (silence_detection cfg o (set_readings (peakdb s) r s))
    as [ev1 [s1|c]] eqn:E1; [|discriminate].
  destruct (nodynamic_detection cfg o s1) as [ev2 r2] eqn:E2.
  intros H; inversion H; subst; clear H.
  destruct (silence_detection_cell _ _ _ _ _ E1) as [A1 B1].
  destruct (nodynamic_detection_cell _ _ _ _ _ E2) as [A2 B2].
  apply silence_detection_running in E1.
  apply nodynamic_detection_running in E2.
  rewrite A2, A1, B2, B1. simpl. repeat split.
  destruct E1 as [[_ G1]|[_ G1]], E2 as [[_ G2]|[_ G2]];
    simpl in *; rewrite G2, ?G1; auto.
Qed.

(** With no grace period and the port connected throughout, every round
    is evaluated, and the main loop is [run_readings] on the readings of
    its rounds. *)
Lemma main_loop_run_readings (lin2db : float -> float) (cfg : config)
  (port : jack_port_t) (inps : list tick_input) :
  grace_period cfg = 0 ->
  Forall (fun inp => jack_port_connected inp <> 0) inps ->
  forall st : state,
    input_port st = Some port -> peak st = zero -> in_grace st = 0 ->
    main_loop lin2db cfg inps st
    = run_readings cfg (map (fun inp => (reading_of lin2db inp, os inp)) inps) st.
Proof.
  intros Hgp Hall. induction Hall as [|inp inps Hc Hall IH];
    intros st Hp Hz Hg; simpl; [reflexivity|].
  unfold iteration.
  rewrite (usleep_registered (blocks inp) st port Hp).
  rewrite loop_body_evaluated by (simpl; assumption).
  replace (set_peak zero (set_peak _ st)) with st
    by (destruct st; simpl in *; subst; reflexivity).
  replace (set_in_grace 0 st) with st
    by (destruct st; simpl in *; subst; reflexivity).
  simpl. rewrite Hz. fold (reading_of lin2db inp).
  destruct (evaluate cfg (os inp) (reading_of lin2db inp) st)
    as [ev [s1|c]] eqn:E; [|reflexivity].
  destruct (evaluate_frame _ _ _ _ _ _ E) as (A & B & G).
  rewrite IH; [reflexivity| congruence | congruence |].
  destruct G as [G|G]; congruence.
Qed.

(** ** The debounce scenario *)

(** C4, as stated, fails: -45 is below -40, so the third reading does not
    break the streak.  With no command to run, SILENCE is fired in the
    third round and again in the sixth, not once in the sixth. *)
Lemma debounce_fires_on_third :
  fst (run_readings (debounce_config [])
         (map (fun r => (r, fork_succeeds)) debounce_readings)
         (initial_state 0%nat))
  = [[]; []; [SILENCE]; []; []; [SILENCE]] /\
  fst (run_readings (debounce_config [])
         (map (fun r => (r, fork_succeeds)) debounce_readings)
         (initial_state 0%nat))
  <> [[]; []; []; []; []; [SILENCE]] /\
  silent (debounce_config []) (of_Z (-45)) = true.
Proof.
  split; [vm_compute; reflexivity|].
  split; [vm_compute; discriminate|].
  vm_compute; reflexivity.
Qed.

(** C4, amended.  With threshold -40, period 3, no grace and no-dynamic
    detection off, the readings -50, -50, -45, -50, -50, -50 fire SILENCE
    for the first time in the third round, whatever the command and the
    operating system do; when the trigger of that round returns, the count
    starts again from zero and SILENCE is fired a second time in the sixth
    round, and in no other round. *)
Theorem debounce_scenario
  (args : list string) (port : jack_port_t) (o1 o2 o3 o4 o5 o6 : os_result) :
  let tr :=
    fst (run_readings (debounce_config args)
           (combine debounce_readings [o1; o2; o3; o4; o5; o6])
           (initial_state port)) in
  firstn 3 tr = [[]; []; [SILENCE]] /\
  (run_command args (fork_silence o3) = CmdReturned ->
   tr = [[]; []; [SILENCE]; []; []; [SILENCE]]).
Proof.
  cbv beta iota zeta delta
    [debounce_readings debounce_config combine map run_readings].
  unfold evaluate, silence_detection, nodynamic_detection.
  cbn -[run_command].
  destruct (run_command args (fork_silence o3)) eqn:E3.
  - cbn -[run_command].
    destruct (run_command args (fork_silence o6)); cbn; split; auto.
  - cbn. split; [reflexivity|discriminate].
Qed.

Lemma debounce_scenario_witness :
  let tr :=
    fst (run_readings (debounce_config ["logger"%string])
           (combine debounce_readings
              [fork_succeeds; fork_succeeds; fork_succeeds;
               fork_succeeds; fork_succeeds; fork_succeeds])
           (initial_state 0%nat)) in
  run_command ["logger"%string] (fork_silence fork_succeeds) = CmdReturned /\
  firstn 3 tr = [[]; []; [SILENCE]] /\
  tr = [[]; []; [SILENCE]; []; []; [SILENCE]].
Proof.
  pose proof (debounce_scenario ["logger"%string] 0%nat
                fork_succeeds fork_succeeds fork_succeeds
                fork_succeeds fork_succeeds fork_succeeds) as [H1 H2].
  split; [reflexivity|]. split; [exact H1|]. apply H2. reflexivity.
Defined.

(** ** A period of zero *)

Lemma evaluate_nodynamic_fires (cfg : config) (o : os_result) (r : float)
  (st : state) :
  run_command (argv cfg) (fork_silence o) = CmdReturned ->
  is_nonzero (nodynamic_theshold cfg) = true ->
  (nodynamic_period cfg <=?
     counted (flat cfg (peakdb st) r) (nodynamic_count st)) = true ->
  In NO_DYNAMIC (fst (evaluate cfg o r st)).
Proof.
  intros Hs En Pn. unfold evaluate.
  rewrite (silence_detection_returns cfg o _ Hs).
  assert (F : forall s1 : state,
             peakdb s1 = r -> last_peakdb s1 = peakdb st ->
             nodynamic_count s1 = nodynamic_count st ->
             exists res, nodynamic_detection cfg o s1 = ([NO_DYNAMIC], res)).
  { intros s1 H1 H2 H3. unfold nodynamic_detection.
    unfold flat, counted in Pn. rewrite En, H1, H2.
    destruct (ltb (fabs (sub (peakdb st) r)) (nodynamic_theshold cfg)); simpl;
      rewrite ?H3, Pn;
      destruct (run_command (argv cfg) (fork_nodynamic o));
      eexists; reflexivity. }
  destruct (is_nonzero (silence_theshold cfg));
    [destruct (silence_period cfg <=? _)|];
    match goal with
    | |- context [nodynamic_detection cfg o ?s] =>
        destruct (F s) as [res ->]; try reflexivity
    end; simpl; auto.
Qed.

(** C7, as stated, fails: with period 0 the test [count >= period] holds
    in every evaluated round, so the detector also fires in rounds before
    the first one whose reading is below the threshold.  Here the first
    reading, -10, is not silent, the second, -50, is, and SILENCE is fired
    in both rounds. *)
Lemma zero_period_fires_when_loud :
  silence_period zero_period_config = 0 /\
  is_nonzero (silence_theshold zero_period_config) = true /\
  fst (run_readings zero_period_config
         [(of_Z (-10), fork_succeeds); (of_Z (-50), fork_succeeds)]
         (initial_state 0%nat))
  = [[SILENCE]; [SILENCE]] /\
  ~ fires_first_when_silent zero_period_config
      [(of_Z (-10), fork_succeeds); (of_Z (-50), fork_succeeds)]
      (initial_state 0%nat) 1.
Proof.
  split; [reflexivity|]. split; [reflexivity|].
  split; [vm_compute; reflexivity|].
  intros H. unfold fires_first_when_silent in H.
  destruct H as [_ H].
  - simpl. lia.
  - vm_compute. reflexivity.
  - intros j Hj. assert (j = 0%nat) as -> by lia. vm_compute. reflexivity.
  - specialize (H 0%nat ltac:(lia)). vm_compute in H. discriminate.
Qed.

(** C7, amended.  With a period of zero an enabled detector fires in every
    evaluated round it gets to, whether its condition holds or not: the
    silence detector in every evaluated round, the no-dynamic detector in
    every evaluated round in which the trigger of the silence detector, if
    called, returns.  So it fires in the first round whose reading
    qualifies, and also in the evaluated rounds before it. *)
Theorem zero_period_fires_every_round
  (lin2db : float -> float) (cfg : config) (inp : tick_input) (st : state) :
  in_grace st = 0 ->
  jack_port_connected inp <> 0 ->
  (is_nonzero (silence_theshold cfg) = true ->
   silence_period cfg = 0 ->
   0 <= silence_count st ->
   In SILENCE (fst (iteration lin2db cfg inp st))) /\
  (is_nonzero (nodynamic_theshold cfg) = true ->
   nodynamic_period cfg = 0 ->
   0 <= nodynamic_count st ->
   run_command (argv cfg) (fork_silence (os inp)) = CmdReturned ->
   In NO_DYNAMIC (fst (iteration lin2db cfg inp st))).
Proof.
  intros Hg Hc.
  destruct (usleep_frame (blocks inp) st) as (_ & Hdb & _ & Hsc & Hnc & Hgr).
  unfold iteration.
  rewrite loop_body_evaluated by (rewrite ?Hgr; assumption).
  split.
  - intros Es Hp Hcount.
    destruct (evaluate_silence_fires cfg (os inp)
                (lin2db (peak (usleep (blocks inp) st)))
                (set_peak zero (usleep (blocks inp) st)) Es) as [rest ->].
    + simpl. rewrite Hsc, Hp. apply Z.leb_le.
      unfold counted. destruct (silent cfg _); lia.
    + now left.
  - intros En Hp Hcount Hs.
    apply evaluate_nodynamic_fires; try assumption.
    simpl. rewrite Hnc, Hp. apply Z.leb_le.
    unfold counted. destruct (flat cfg _ _); lia.
Qed.

Lemma zero_period_fires_every_round_witness :
  let cfg := zero_periods_config in
  let st := initial_state 0%nat in
  in_grace st = 0 /\
  jack_port_connected loud_second <> 0 /\
  is_nonzero (silence_theshold cfg) = true /\
  silence_period cfg = 0 /\
  0 <= silence_count st /\
  is_nonzero (nodynamic_theshold cfg) = true /\
  nodynamic_period cfg = 0 /\
  0 <= nodynamic_count st /\
  run_command (argv cfg) (fork_silence (os loud_second)) = CmdReturned /\
  silent cfg (lin2db_coarse (peak (usleep (blocks loud_second) st))) = false /\
  In SILENCE (fst (iteration lin2db_coarse cfg loud_second st)) /\
  In NO_DYNAMIC (fst (iteration lin2db_coarse cfg loud_second st)).
Proof.
  pose proof (zero_period_fires_every_round lin2db_coarse zero_periods_config
                loud_second (initial_state 0%nat) eq_refl
                ltac:(discriminate)) as [H1 H2].
  repeat (split; [first [reflexivity | discriminate
                        | vm_compute; reflexivity
                        | vm_compute; discriminate]|]).
  split.
  - apply H1; first [reflexivity | vm_compute; discriminate].
  - apply H2; first [reflexivity | vm_compute; discriminate].
Defined.

(** ** Skipped rounds *)

Lemma iteration_skipped (lin2db : float -> float) (cfg : config)
  (inp : tick_input) (st : state) :
  skipped inp st ->
  iteration lin2db cfg inp st = ([], Running (skip_round inp st)).
Proof.
  intros Hskip.
  destruct (usleep_frame (blocks inp) st) as (_ & _ & _ & _ & _ & Hgr).
  unfold skip_round. rewrite Hgr.
  destruct (Z.eqb_spec (in_grace st) 0) as [Hg|Hg]; simpl.
  - destruct Hskip as [Hn|Hc]; [contradiction|].
    unfold iteration. apply loop_body_disconnected; [now rewrite Hgr|exact Hc].
  - now apply iteration_grace.
Qed.

Lemma main_loop_skipped (lin2db : float -> float) (cfg : config)
  (inps : list tick_input) :
  forall st : state,
    all_skipped inps st ->
    main_loop lin2db cfg inps st
    = (map (fun _ => []) inps, Running (skip_rounds inps st)).
Proof.
  induction inps as [|inp inps IH]; intros st Hall; simpl.
  - reflexivity.
  - destruct Hall as [Hskip Hall].
    rewrite (iteration_skipped lin2db cfg inp st Hskip).
    rewrite (IH _ Hall). reflexivity.
Qed.

Lemma skip_round_frame (inp : tick_input) (st : state) (port : jack_port_t) :
  input_port st = Some port ->
  input_port (skip_round inp st) = Some port /\
  peak (skip_round inp st)
  = fold_left process_sample (List.concat (blocks inp)) (peak st) /\
  peakdb (skip_round inp st) = peakdb st /\
  last_peakdb (skip_round inp st) = last_peakdb st /\
  silence_count (skip_round inp st) = silence_count st /\
  nodynamic_count (skip_round inp st) = nodynamic_count st.
Proof.
  intros Hp. unfold skip_round.
  rewrite (usleep_registered (blocks inp) st port Hp).
  destruct (negb (in_grace (set_peak _ st) =? 0)); simpl; auto 10.
Qed.

Lemma skip_rounds_frame (inps : list tick_input) :
  forall (st : state) (port : jack_port_t),
    input_port st = Some port ->
    input_port (skip_rounds inps st) = Some port /\
    peak (skip_rounds inps st)
    = fold_left process_sample (samples_of inps) (peak st) /\
    peakdb (skip_rounds inps st) = peakdb st /\
    last_peakdb (skip_rounds inps st) = last_peakdb st /\
    silence_count (skip_rounds inps st) = silence_count st /\
    nodynamic_count (skip_rounds inps st) = nodynamic_count st.
Proof.
  unfold skip_rounds, samples_of.
  induction inps as [|inp inps IH]; intros st port Hp; simpl.
  - auto 10.
  - destruct (skip_round_frame inp st port Hp) as (A & B & C & D & E & F).
    destruct (IH (skip_round inp st) port A) as (A' & B' & C' & D' & E' & F').
    rewrite A', B', C', D', E', F', B, C, D, E, F.
    rewrite concat_app, fold_left_app. auto 10.
Qed.

(** ** The counters stay inside [int] *)

Lemma silence_detection_ok (cfg : config) (o : os_result) (s s' : state)
  (ev : list fire) :
  config_ok cfg -> state_ok s ->
  silence_detection cfg o s = (ev, Running s') -> state_ok s'.
Proof.
  unfold config_ok, state_ok, silence_detection.
  intros (C1 & C2 & C3) (S1 & S2 & S3).
  destruct (is_nonzero (silence_theshold cfg)).
  - destruct (ltb (peakdb s) (silence_theshold cfg)); simpl;
      match goal with |- context [?a <=? ?b] => destruct (Z.leb_spec a b) end;
      try destruct (run_command (argv cfg) (fork_silence o));
      intros Hx; inversion Hx; subst; simpl in *; lia.
  - intros Hx; inversion Hx; subst; lia.
Qed.

Lemma nodynamic_detection_ok (cfg : config) (o : os_result) (s s' : state)
  (ev : list fire) :
  config_ok cfg -> state_ok s ->
  nodynamic_detection cfg o s = (ev, Running s') -> state_ok s'.
Proof.
  unfold config_ok, state_ok, nodynamic_detection.
  intros (C1 & C2 & C3) (S1 & S2 & S3).
  destruct (is_nonzero (nodynamic_theshold cfg)).
  - destruct (ltb (fabs (sub (last_peakdb s) (peakdb s))) (nodynamic_theshold cfg));
      simpl;
      match goal with |- context [?a <=? ?b] => destruct (Z.leb_spec a b) end;
      try destruct (run_command (argv cfg) (fork_nodynamic o));
      intros Hx; inversion Hx; subst; simpl in *; lia.
  - intros Hx; inversion Hx; subst; lia.
Qed.

(** Every round keeps the counters non-negative and below [INT_MAX]: the
    increments and the decrement of the loop never overflow. *)
Lemma state_ok_iteration (lin2db : float -> float) (cfg : config)
  (inp : tick_input) (st st' : state) (evs : list fire) :
  config_ok cfg -> state_ok st ->
  iteration lin2db cfg inp st = (evs, Running st') -> state_ok st'.
Proof.
  intros Hcfg Hst.
  destruct (usleep_frame (blocks inp) st) as (_ & _ & _ & Hsc & Hnc & Hgr).
  assert (Hst1 : state_ok (usleep (blocks inp) st))
    by (unfold state_ok in *; rewrite Hsc, Hnc, Hgr; exact Hst).
  unfold iteration, loop_body.
  destruct (Z.eqb_spec (in_grace (usleep (blocks inp) st)) 0) as [Hg|Hg]; simpl.
  - destruct (jack_port_connected inp =? 0).
    + intros H; inversion H; subst; exact Hst1.
    + unfold evaluate.
      destruct (silence_detection cfg (os inp) _) as [ev1 [s1|c]] eqn:E1;
        [|discriminate].
      destruct (nodynamic_detection cfg (os inp) s1) as [ev2 r2] eqn:E2.
      intros H; inversion H; subst.
      eapply nodynamic_detection_ok; [exact Hcfg| |exact E2].
      eapply silence_detection_ok; [exact Hcfg| |exact E1].
      unfold state_ok in *; simpl; exact Hst1.
  - intros H; inversion H; subst. unfold state_ok in *; simpl. lia.
Qed.

Lemma initial_state_ok (port : jack_port_t) : state_ok (initial_state port).
Proof. unfold state_ok, INT_MAX; simpl; lia. Qed.

(** ** The two threads *)

(** Run without interruption, the two steps of the main thread are
    [read_peak], and the steps of the JACK thread are the scan of
    [process_peak]. *)
Lemma run_schedule_read_peak (lin2db : float -> float) (st : state)
  (pending : list float) :
  run_schedule lin2db [MainThread; MainThread]
    (mkThreads (peak st) RP_load pending)
  = mkThreads (peak (snd (read_peak lin2db st)))
      (RP_return (fst (read_peak lin2db st))) pending.
Proof. reflexivity. Qed.

Lemma run_schedule_scan (lin2db : float -> float) (buf : list float) :
  forall (pk : float) (pc : read_peak_pc),
    run_schedule lin2db (map (fun _ => JackThread) buf) (mkThreads pk pc buf)
    = mkThreads (fold_left process_sample buf pk) pc [].
Proof.
  unfold run_schedule.
  induction buf as [|x buf IH]; intros pk pc; simpl; [reflexivity|].
  apply IH.
Qed.

(** C9 fails on the code: the load and the store of [read_peak] are two
    steps, and the callback can run between them.  With 0.25 in the cell
    and a sample of 0.5 arriving between the load and the store, the call
    returns the reading of 0.25 and leaves zero in the cell: the sample is
    in neither, and the next reading will not see it.  In both orders in
    which [read_peak] is not interrupted the sample is kept, in the
    reading returned or in the cell. *)
Theorem read_peak_loses_update (lin2db : float -> float) :
  let quarter := of_scaled 1 (-2) in
  let half := of_scaled 1 (-1) in
  let start := mkThreads quarter RP_load [half] in
  run_schedule lin2db [MainThread; JackThread; MainThread] start
  = mkThreads zero (RP_return (lin2db quarter)) [] /\
  run_schedule lin2db [JackThread; MainThread; MainThread] start
  = mkThreads zero (RP_return (lin2db half)) [] /\
  run_schedule lin2db [MainThread; MainThread; JackThread] start
  = mkThreads half (RP_return (lin2db quarter)) [] /\
  ltb quarter half = true /\
  t_peak (run_schedule lin2db [MainThread; JackThread; MainThread] start)
  <> t_peak (run_schedule lin2db [MainThread; MainThread; JackThread] start).
Proof.
  cbv zeta. repeat split; try reflexivity.
  vm_compute. discriminate.
Qed.

(** ** The theorems at concrete inputs *)

Lemma grace_suppression_witness :
  0 < in_grace state_after_fire /\
  grace_period both_config = 2 /\
  iteration lin2db_coarse both_config quiet_second (initial_state 0%nat)
  = ([SILENCE], Running state_after_fire) /\
  [SILENCE] <> [] /\
  jack_port_connected quiet_second <> 0 /\
  (exists st' : state,
      iteration lin2db_coarse both_config loud_second state_after_fire
      = ([], Running st') /\
      in_grace st' = in_grace state_after_fire - 1 /\
      silence_count st' = silence_count state_after_fire /\
      nodynamic_count st' = nodynamic_count state_after_fire) /\
  (exists st2 : state,
      main_loop lin2db_coarse both_config [loud_second; unplugged_second]
        state_after_fire = ([[]; []], Running st2) /\
      silence_count st2 = silence_count state_after_fire /\
      nodynamic_count st2 = nodynamic_count state_after_fire /\
      in_grace st2 = 0 /\
      iteration lin2db_coarse both_config quiet_second st2 =
      evaluate both_config (os quiet_second)
        (lin2db_coarse (peak (usleep (blocks quiet_second) st2)))
        (set_peak zero (usleep (blocks quiet_second) st2))).
Proof.
  destruct (grace_suppression lin2db_coarse both_config) as [G1 G2].
  assert (Hfire : iteration lin2db_coarse both_config quiet_second
                    (initial_state 0%nat)
                  = ([SILENCE], Running state_after_fire))
    by (vm_compute; reflexivity).
  repeat (split; [first [reflexivity | discriminate | exact Hfire]|]).
  split.
  - apply G1. reflexivity.
  - destruct (G2 eq_refl quiet_second (initial_state 0%nat) state_after_fire
                [SILENCE] Hfire ltac:(discriminate)
                loud_second unplugged_second)
      as (st2 & H1 & H2 & H3 & H4 & H5).
    exists st2. repeat (split; [assumption|]).
    apply H5. discriminate.
Defined.

Lemma zero_threshold_disables_witness :
  eqb (silence_theshold all_off_config) zero = true /\
  eqb (nodynamic_theshold all_off_config) zero = true /\
  (Forall (fun evs => ~ In SILENCE evs)
     (fst (main_loop lin2db_coarse all_off_config
             [quiet_second; quiet_second; loud_second] (initial_state 0%nat))) /\
   (forall st',
       snd (main_loop lin2db_coarse all_off_config
              [quiet_second; quiet_second; loud_second] (initial_state 0%nat))
       = Running st' ->
       silence_count st' = silence_count (initial_state 0%nat))) /\
  (Forall (fun evs => ~ In NO_DYNAMIC evs)
     (fst (main_loop lin2db_coarse all_off_config
             [quiet_second; quiet_second; loud_second] (initial_state 0%nat))) /\
   (forall st',
       snd (main_loop lin2db_coarse all_off_config
              [quiet_second; quiet_second; loud_second] (initial_state 0%nat))
       = Running st' ->
       nodynamic_count st' = nodynamic_count (initial_state 0%nat))).
Proof.
  destruct (zero_threshold_disables lin2db_coarse all_off_config) as [Z1 Z2].
  split; [reflexivity|]. split; [reflexivity|].
  split; [apply Z1 | apply Z2]; reflexivity.
Defined.

(** * Further properties of the main loop *)

(** An induction principle for the loop: a property of states kept by
    every round that goes on holds of every state the loop reaches, and
    what it implies of the events of one round holds of all rounds. *)
Lemma main_loop_induction (lin2db : float -> float) (cfg : config)
  (P : state -> Prop) (Q : list fire -> Prop) :
  (forall inp st, P st ->
     Q (fst (iteration lin2db cfg inp st)) /\
     (forall st', snd (iteration lin2db cfg inp st) = Running st' -> P st')) ->
  forall inps st, P st ->
    Forall Q (fst (main_loop lin2db cfg inps st)) /\
    (forall st', snd (main_loop lin2db cfg inps st) = Running st' -> P st').
Proof.
  intros Hstep. induction inps as [|inp inps IH]; intros st HP; simpl.
  - split; [constructor|]. intros st' E. inversion E; subst; exact HP.
  - destruct (Hstep inp st HP) as [HQ Hnext].
    destruct (iteration lin2db cfg inp st) as [ev [s1|c]]; simpl in *.
    + destruct (IH s1 (Hnext s1 eq_refl)) as [IH1 IH2].
      destruct (main_loop lin2db cfg inps s1) as [tr fin]; simpl in *.
      split; [constructor; assumption | exact IH2].
    + split; [constructor; [assumption|constructor] | discriminate].
Qed.

(** The possible outcomes of a call of [run_command]. *)
Lemma run_command_cases (args : list string) (ok : bool) :
  (run_command args ok = CmdReturned /\
   (args = [] \/ (args <> ["exit"%string] /\ ok = true))) \/
  (run_command args ok = CmdExited 0 /\ args = ["exit"%string]) \/
  (run_command args ok = CmdExited (-1) /\
   args <> [] /\ args <> ["exit"%string] /\ ok = false).
Proof.
  unfold run_command. destruct args as [|a [|b rest]].
  - left. auto.
  - destruct (String.eqb_spec a "exit") as [->|Hne].
    + right. left. auto.
    + assert ([a] <> ["exit"%string]) by congruence.
      destruct ok; [left|right; right]; repeat split; auto; discriminate.
  - assert (a :: b :: rest <> ["exit"%string]) by discriminate.
    destruct ok; [left|right; right]; repeat split; auto; discriminate.
Qed.

(** All the ways through the silence detector. *)
Lemma silence_detection_cases (cfg : config) (o : os_result) (s : state) :
  let c := counted (silent cfg (peakdb s)) (silence_count s) in
  (is_nonzero (silence_theshold cfg) = false /\
   silence_detection cfg o s = ([], Running s)) \/
  (is_nonzero (silence_theshold cfg) = true /\ c < silence_period cfg /\
   silence_detection cfg o s = ([], Running (set_silence_count c s))) \/
  (is_nonzero (silence_theshold cfg) = true /\ silence_period cfg <= c /\
   run_command (argv cfg) (fork_silence o) = CmdReturned /\
   silence_detection cfg o s =
   ([SILENCE], Running (set_in_grace (grace_period cfg) (set_silence_count 0 s)))) \/
  (is_nonzero (silence_theshold cfg) = true /\ silence_period cfg <= c /\
   exists code, run_command (argv cfg) (fork_silence o) = CmdExited code /\
                silence_detection cfg o s = ([SILENCE], Exited code)).
Proof.
  unfold silence_detection, counted, silent.
  destruct (is_nonzero (silence_theshold cfg)); [|left; auto].
  right.
  destruct (ltb (peakdb s) (silence_theshold cfg)); simpl;
    match goal with |- context [?a <=? ?b] => destruct (Z.leb_spec a b) end;
    try (left; split; [reflexivity|]; split; [lia|reflexivity]);
    right;
    (destruct (run_command (argv cfg) (fork_silence o)) as [|code];
     [left; split; [reflexivity|]; split; [lia|]; split; reflexivity
     |right; split; [reflexivity|]; split; [lia|];
      exists code; split; reflexivity]).
Qed.

(** All the ways through the no-dynamic detector. *)
Lemma nodynamic_detection_cases (cfg : config) (o : os_result) (s : state) :
  let c := counted (flat cfg (last_peakdb s) (peakdb s)) (nodynamic_count s) in
  (is_nonzero (nodynamic_theshold cfg) = false /\
   nodynamic_detection cfg o s = ([], Running s)) \/
  (is_nonzero (nodynamic_theshold cfg) = true /\ c < nodynamic_period cfg /\
   nodynamic_detection cfg o s = ([], Running (set_nodynamic_count c s))) \/
  (is_nonzero (nodynamic_theshold cfg) = true /\ nodynamic_period cfg <= c /\
   run_command (argv cfg) (fork_nodynamic o) = CmdReturned /\
   nodynamic_detection cfg o s =
   ([NO_DYNAMIC],
    Running (set_in_grace (grace_period cfg) (set_nodynamic_count 0 s)))) \/
  (is_nonzero (nodynamic_theshold cfg) = true /\ nodynamic_period cfg <= c /\
   exists code, run_command (argv cfg) (fork_nodynamic o) = CmdExited code /\
                nodynamic_detection cfg o s = ([NO_DYNAMIC], Exited code)).
Proof.
  unfold nodynamic_detection, counted, flat.
  destruct (is_nonzero (nodynamic_theshold cfg)); [|left; auto].
  right.
  destruct (ltb (fabs (sub (last_peakdb s) (peakdb s))) (nodynamic_theshold cfg));
    simpl;
    match goal with |- context [?a <=? ?b] => destruct (Z.leb_spec a b) end;
    try (left; split; [reflexivity|]; split; [lia|reflexivity]);
    right;
    (destruct (run_command (argv cfg) (fork_nodynamic o)) as [|code];
     [left; split; [reflexivity|]; split; [lia|]; split; reflexivity
     |right; split; [reflexivity|]; split; [lia|];
      exists code; split; reflexivity]).
Qed.

(** The thirteen ways through [evaluate]: four through the silence
    detector, and four through the no-dynamic detector for each of the
    three in which the first goes on. *)
Ltac evaluate_cases cfg o r s :=
  unfold evaluate;
  destruct (silence_detection_cases cfg o (set_readings (peakdb s) r s))
    as [(Es & ->)|[(Es & Hsc & ->)|[(Es & Hsc & Hsr & ->)
       |(Es & Hsc & scode & Hsr & ->)]]];
  try match goal with
  | |- context [nodynamic_detection cfg o ?s1] =>
      destruct (nodynamic_detection_cases cfg o s1)
        as [(En & ->)|[(En & Hnc & ->)|[(En & Hnc & Hnr & ->)
           |(En & Hnc & ncode & Hnr & ->)]]]
  end;
  simpl in *.

Lemma run_command_exit_reason (cfg : config) (o : os_result) (code : Z) :
  run_command (argv cfg) (fork_silence o) = CmdExited code \/
  run_command (argv cfg) (fork_nodynamic o) = CmdExited code ->
  exit_reason cfg o code.
Proof.
  unfold exit_reason.
  intros [H|H];
    [destruct (run_command_cases (argv cfg) (fork_silence o))
       as [[E _]|[[E A]|[E (A & B & C)]]]
    |destruct (run_command_cases (argv cfg) (fork_nodynamic o))
       as [[E _]|[[E A]|[E (A & B & C)]]]];
    rewrite E in H; inversion H; subst; auto 10.
Qed.

Lemma evaluate_round_events (cfg : config) (o : os_result) (r : float)
  (s : state) :
  round_events (fst (evaluate cfg o r s)).
Proof.
  unfold round_events. evaluate_cases cfg o r s; auto.
Qed.

Lemma evaluate_bounded (cfg : config) (o : os_result) (r : float)
  (s s' : state) :
  0 <= grace_period cfg -> bounded cfg s ->
  snd (evaluate cfg o r s) = Running s' -> bounded cfg s'.
Proof.
  unfold bounded. intros Hg (B1 & B2 & B3).
  assert (C1 : 0 <= counted (silent cfg r) (silence_count s))
    by (unfold counted; destruct (silent cfg r); lia).
  assert (C2 : 0 <= counted (flat cfg (peakdb s) r) (nodynamic_count s))
    by (unfold counted; destruct (flat cfg (peakdb s) r); lia).
  evaluate_cases cfg o r s; intros E; inversion E; subst; simpl; lia.
Qed.

Lemma evaluate_exit (cfg : config) (o : os_result) (r : float)
  (s : state) (code : Z) :
  snd (evaluate cfg o r s) = Exited code ->
  fst (evaluate cfg o r s) <> [] /\ exit_reason cfg o code.
Proof.
  evaluate_cases cfg o r s; intros E; inversion E; subst;
    (split; [discriminate | apply run_command_exit_reason; auto]).
Qed.

Lemma evaluate_exit_command (cfg : config) (o : os_result) (r : float)
  (s : state) :
  argv cfg = ["exit"%string] ->
  fst (evaluate cfg o r s) <> [] ->
  snd (evaluate cfg o r s) = Exited 0 /\
  List.length (fst (evaluate cfg o r s)) = 1%nat.
Proof.
  intros Ha.
  evaluate_cases cfg o r s;
    repeat match goal with
    | H : run_command (argv cfg) _ = _ |- _ => rewrite Ha in H; simpl in H
    end;
    try discriminate; intros Hne; try congruence;
    repeat match goal with
    | H : CmdExited _ = CmdExited _ |- _ => inversion H; subst; clear H
    end; auto.
Qed.

Lemma evaluate_no_command (cfg : config) (o : os_result) (r : float)
  (s : state) :
  argv cfg = [] -> exists s', snd (evaluate cfg o r s) = Running s'.
Proof.
  intros Ha.
  evaluate_cases cfg o r s;
    repeat match goal with
    | H : run_command (argv cfg) _ = _ |- _ => rewrite Ha in H; simpl in H
    end;
    try discriminate; eexists; reflexivity.
Qed.

(** A round is skipped, or it is an evaluation. *)
Lemma iteration_cases (lin2db : float -> float) (cfg : config)
  (inp : tick_input) (st : state) :
  (skipped inp st /\
   iteration lin2db cfg inp st = ([], Running (skip_round inp st))) \/
  (in_grace st = 0 /\ jack_port_connected inp <> 0 /\
   iteration lin2db cfg inp st =
   evaluate cfg (os inp) (lin2db (peak (usleep (blocks inp) st)))
     (set_peak zero (usleep (blocks inp) st))).
Proof.
  destruct (Z.eq_dec (in_grace st) 0) as [Hg|Hg].
  - destruct (Z.eq_dec (jack_port_connected inp) 0) as [Hc|Hc].
    + left. assert (Hs : skipped inp st) by (right; exact Hc).
      split; [exact Hs | now apply iteration_skipped].
    + right. split; [exact Hg|]. split; [exact Hc|].
      destruct (usleep_frame (blocks inp) st) as (_ & _ & _ & _ & _ & Hgr).
      unfold iteration. apply loop_body_evaluated; [now rewrite Hgr|exact Hc].
  - left. assert (Hs : skipped inp st) by (left; exact Hg).
    split; [exact Hs | now apply iteration_skipped].
Qed.

Lemma skip_round_counters (inp : tick_input) (st : state) :
  silence_count (skip_round inp st) = silence_count st /\
  nodynamic_count (skip_round inp st) = nodynamic_count st /\
  in_grace (skip_round inp st)
  = (if in_grace st =? 0 then 0 else in_grace st - 1).
Proof.
  destruct (usleep_frame (blocks inp) st) as (_ & _ & _ & Hsc & Hnc & Hgr).
  unfold skip_round. rewrite Hgr.
  destruct (Z.eqb_spec (in_grace st) 0) as [E|E]; simpl; rewrite ?Hgr; auto.
Qed.

Lemma iteration_bounded (lin2db : float -> float) (cfg : config)
  (inp : tick_input) (st st' : state) :
  0 <= grace_period cfg -> bounded cfg st ->
  snd (iteration lin2db cfg inp st) = Running st' -> bounded cfg st'.
Proof.
  intros Hgp Hb.
  destruct (iteration_cases lin2db cfg inp st) as [[_ ->]|(_ & _ & ->)].
  - simpl. intros E; inversion E; subst.
    destruct (skip_round_counters inp st) as (A & B & C).
    unfold bounded in *. rewrite A, B, C.
    destruct (Z.eqb_spec (in_grace st) 0); lia.
  - apply evaluate_bounded; [exact Hgp|].
    destruct (usleep_frame (blocks inp) st) as (_ & _ & _ & Hsc & Hnc & Hgr).
    unfold bounded in *. simpl. rewrite Hsc, Hnc, Hgr. exact Hb.
Qed.

Lemma bounded_state_ok (cfg : config) (st : state) :
  config_ok cfg -> bounded cfg st -> state_ok st.
Proof.
  unfold config_ok, bounded, state_ok, INT_MAX, INT_MIN.
  intros (C1 & C2 & C3) (B1 & B2 & B3). lia.
Qed.

Lemma main_loop_bounded (lin2db : float -> float) (cfg : config)
  (inps : list tick_input) (st st' : state) :
  config_ok cfg -> bounded cfg st ->
  snd (main_loop lin2db cfg inps st) = Running st' ->
  bounded cfg st' /\ state_ok st'.
Proof.
  intros Hcfg Hb Hrun.
  assert (Hgp : 0 <= grace_period cfg) by (destruct Hcfg as (_ & _ & H); lia).
  destruct (main_loop_induction lin2db cfg (bounded cfg) (fun _ => True))
    with (inps := inps) (st := st) as [_ Hfin].
  - intros inp s Hs. split; [exact I|].
    intros s' E. now apply (iteration_bounded lin2db cfg inp s s').
  - exact Hb.
  - split; [now apply Hfin | apply (bounded_state_ok cfg); auto].
Qed.

(** X1.  The loop keeps its counters in bounds.  From a state in which
    each count is below its period and the grace counter at most the grace
    period, and with option values the parser can produce, every state the
    loop reaches, after any number of rounds with any inputs, has the same
    bounds; so both counts stay below [INT_MAX] and the grace counter
    stays non-negative: [silence_count++], [nodynamic_count++] and
    [in_grace--] never overflow. *)
Theorem loop_keeps_counters_bounded
  (lin2db : float -> float) (cfg : config) (inps : list tick_input)
  (st st' : state) :
  config_ok cfg -> bounded cfg st ->
  snd (main_loop lin2db cfg inps st) = Running st' ->
  bounded cfg st' /\ state_ok st'.
Proof.
  apply main_loop_bounded.
Qed.

(** X2.  A round fires each event at most once, SILENCE before
    NO_DYNAMIC: the events of every round of every run are one of
    nothing, SILENCE, NO_DYNAMIC, or SILENCE then NO_DYNAMIC. *)
Theorem rounds_fire_each_event_once
  (lin2db : float -> float) (cfg : config) (inps : list tick_input)
  (st : state) :
  Forall round_events (fst (main_loop lin2db cfg inps st)).
Proof.
  destruct (main_loop_induction lin2db cfg (fun _ => True) round_events)
    with (inps := inps) (st := st) as [H _]; [|exact I|exact H].
  intros inp s _. split; [|auto].
  destruct (iteration_cases lin2db cfg inp s) as [[_ ->]|(_ & _ & ->)].
  - left. reflexivity.
  - apply evaluate_round_events.
Qed.

Lemma iteration_exit (lin2db : float -> float) (cfg : config)
  (inp : tick_input) (st : state) (code : Z) :
  snd (iteration lin2db cfg inp st) = Exited code ->
  fst (iteration lin2db cfg inp st) <> [] /\ exit_reason cfg (os inp) code.
Proof.
  destruct (iteration_cases lin2db cfg inp st) as [[_ ->]|(_ & _ & ->)].
  - discriminate.
  - apply evaluate_exit.
Qed.

Lemma main_loop_exit (lin2db : float -> float) (cfg : config)
  (inps : list tick_input) :
  forall (st : state) (code : Z),
    snd (main_loop lin2db cfg inps st) = Exited code ->
    exists (before : list (list fire)) (evs : list fire) (inp : tick_input),
      fst (main_loop lin2db cfg inps st) = before ++ [evs] /\
      evs <> [] /\ In inp inps /\ exit_reason cfg (os inp) code.
Proof.
  induction inps as [|inp inps IH]; intros st code; simpl.
  - discriminate.
  - destruct (iteration lin2db cfg inp st) as [ev [s1|c]] eqn:E.
    + specialize (IH s1 code).
      destruct (main_loop lin2db cfg inps s1) as [tr fin]; simpl in *.
      intros F. destruct (IH F) as (before & evs & i & H1 & H2 & H3 & H4).
      exists (ev :: before), evs, i. rewrite H1. auto.
    + simpl. intros F. inversion F; subst.
      destruct (iteration_exit lin2db cfg inp st code) as [H1 H2];
        [rewrite E; reflexivity|].
      rewrite E in H1. simpl in H1.
      exists [], ev, inp. auto.
Qed.

(** X3.  The loop ends the process only in a round that fires, and only
    for one of two reasons: the command is exactly [exit], with status 0,
    or there is another command and a [fork] failed, with status -1.  The
    round that ends the process is the last of the trace. *)
Theorem loop_exits_only_on_fire
  (lin2db : float -> float) (cfg : config) (inps : list tick_input)
  (st : state) (code : Z) :
  snd (main_loop lin2db cfg inps st) = Exited code ->
  exists (before : list (list fire)) (evs : list fire) (inp : tick_input),
    fst (main_loop lin2db cfg inps st) = before ++ [evs] /\
    evs <> [] /\ In inp inps /\ exit_reason cfg (os inp) code.
Proof.
  apply main_loop_exit.
Qed.

Lemma iteration_no_command (lin2db : float -> float) (cfg : config)
  (inp : tick_input) (st : state) :
  argv cfg = [] ->
  exists st', snd (iteration lin2db cfg inp st) = Running st'.
Proof.
  intros Ha.
  destruct (iteration_cases lin2db cfg inp st) as [[_ ->]|(_ & _ & ->)].
  - eexists; reflexivity.
  - now apply evaluate_no_command.
Qed.

(** X4.  Without a command ([argc < 1] in [run_command]) the loop never
    ends the process: every run goes through all of its rounds. *)
Theorem no_command_never_exits
  (lin2db : float -> float) (cfg : config) (inps : list tick_input)
  (st : state) :
  argv cfg = [] ->
  exists st' : state,
    snd (main_loop lin2db cfg inps st) = Running st' /\
    List.length (fst (main_loop lin2db cfg inps st)) = List.length inps.
Proof.
  intros Ha. revert st.
  induction inps as [|inp inps IH]; intros st; simpl.
  - eexists; split; reflexivity.
  - destruct (iteration_no_command lin2db cfg inp st Ha) as [s1 E].
    destruct (iteration lin2db cfg inp st) as [ev r]; simpl in E; subst r.
    destruct (IH s1) as (st' & H1 & H2).
    destruct (main_loop lin2db cfg inps s1) as [tr fin]; simpl in *.
    exists st'. split; [exact H1 | now rewrite H2].
Qed.

Lemma iteration_exit_command (lin2db : float -> float) (cfg : config)
  (inp : tick_input) (st : state) :
  argv cfg = ["exit"%string] ->
  (fst (iteration lin2db cfg inp st) = [] /\
   exists st', snd (iteration lin2db cfg inp st) = Running st') \/
  (exists k, fst (iteration lin2db cfg inp st) = [k] /\
             snd (iteration lin2db cfg inp st) = Exited 0).
Proof.
  intros Ha.
  destruct (iteration_cases lin2db cfg inp st) as [[_ ->]|(_ & _ & ->)].
  - left. split; [reflexivity | eexists; reflexivity].
  - set (r := lin2db _). set (s := set_peak _ _).
    destruct (fst (evaluate cfg (os inp) r s)) as [|k rest] eqn:E.
    + left. split; [reflexivity|].
      destruct (snd (evaluate cfg (os inp) r s)) as [s1|c] eqn:F.
      * eexists; reflexivity.
      * destruct (evaluate_exit cfg (os inp) r s c F) as [Hne _].
        rewrite E in Hne. contradiction.
    + right.
      destruct (evaluate_exit_command cfg (os inp) r s Ha) as [H1 H2];
        [rewrite E; discriminate|].
      rewrite E in H2. destruct rest; [|discriminate].
      exists k. split; [reflexivity | exact H1].
Qed.

(** X5.  With the command [exit] the first event of a run is its last:
    either the run fires nothing and goes on, or all rounds before the
    last fire nothing, the last round fires exactly one event, and the
    process ends there with status 0.  In particular the second detector
    is not evaluated in the round in which the first one fires. *)
Theorem exit_command_stops_at_first_fire
  (lin2db : float -> float) (cfg : config) (inps : list tick_input)
  (st : state) :
  argv cfg = ["exit"%string] ->
  (all_events (fst (main_loop lin2db cfg inps st)) = [] /\
   exists st', snd (main_loop lin2db cfg inps st) = Running st') \/
  (exists (before : list (list fire)) (k : fire),
      fst (main_loop lin2db cfg inps st) = before ++ [[k]] /\
      all_events before = [] /\
      snd (main_loop lin2db cfg inps st) = Exited 0).
Proof.
  intros Ha. revert st. unfold all_events.
  induction inps as [|inp inps IH]; intros st; simpl.
  - left. split; [reflexivity | eexists; reflexivity].
  - destruct (iteration_exit_command lin2db cfg inp st Ha)
      as [[E1 [s1 E2]]|[k [E1 E2]]];
      destruct (iteration lin2db cfg inp st) as [ev r]; simpl in *; subst.
    + destruct (IH s1) as [[H1 [st' H2]]|(before & k & H1 & H2 & H3)];
        destruct (main_loop lin2db cfg inps s1) as [tr fin]; simpl in *.
      * left. split; [exact H1 | exists st'; exact H2].
      * right. exists ([] :: before), k. subst tr. auto.
    + right. exists [], k. auto.
Qed.

(** ** Grace periods of any length *)

Lemma skip_round_readings (inp : tick_input) (st : state) :
  peakdb (skip_round inp st) = peakdb st /\
  last_peakdb (skip_round inp st) = last_peakdb st.
Proof.
  destruct (usleep_frame (blocks inp) st) as (_ & Hdb & Hldb & _).
  unfold skip_round.
  destruct (negb (in_grace (usleep (blocks inp) st) =? 0)); simpl; auto.
Qed.

Lemma grace_rounds_skipped (inps : list tick_input) :
  forall st : state,
    Z.of_nat (List.length inps) <= in_grace st ->
    all_skipped inps st /\
    in_grace (skip_rounds inps st) = in_grace st - Z.of_nat (List.length inps) /\
    silence_count (skip_rounds inps st) = silence_count st /\
    nodynamic_count (skip_rounds inps st) = nodynamic_count st /\
    peakdb (skip_rounds inps st) = peakdb st /\
    last_peakdb (skip_rounds inps st) = last_peakdb st.
Proof.
  unfold skip_rounds.
  induction inps as [|inp inps IH]; intros st Hlen.
  - simpl in *. repeat split; lia.
  - change (Z.of_nat (List.length (inp :: inps)))
      with (Z.of_nat (S (List.length inps))) in *.
    rewrite Nat2Z.inj_succ in *.
    destruct (skip_round_counters inp st) as (A & B & C).
    destruct (skip_round_readings inp st) as (D & E).
    assert (Hg : in_grace st <> 0) by lia.
    assert (C' : in_grace (skip_round inp st) = in_grace st - 1).
    { rewrite C. destruct (Z.eqb_spec (in_grace st) 0); [contradiction|auto]. }
    destruct (IH (skip_round inp st)) as (I1 & I2 & I3 & I4 & I5 & I6);
      [lia|].
    simpl. rewrite I2, I3, I4, I5, I6, A, B, C', D, E.
    repeat split; first [lia | left; exact Hg | exact I1].
Qed.

(** X6.  A grace period of any length.  After a round that fired, the
    next rounds, as many as the grace period counts, fire nothing whatever
    they receive, leave both counts and both readings as they are, and
    bring the grace counter down to zero by one per round. *)
Theorem grace_period_suppresses
  (lin2db : float -> float) (cfg : config) (inp0 : tick_input)
  (st0 st : state) (evs : list fire) (inps : list tick_input) :
  iteration lin2db cfg inp0 st0 = (evs, Running st) ->
  evs <> [] ->
  Z.of_nat (List.length inps) <= grace_period cfg ->
  exists st' : state,
    main_loop lin2db cfg inps st = (map (fun _ => []) inps, Running st') /\
    in_grace st' = grace_period cfg - Z.of_nat (List.length inps) /\
    silence_count st' = silence_count st /\
    nodynamic_count st' = nodynamic_count st /\
    peakdb st' = peakdb st /\
    last_peakdb st' = last_peakdb st.
Proof.
  intros Hit Hne Hlen.
  pose proof (iteration_fired_grace lin2db cfg inp0 st0 st evs Hit Hne) as Hg.
  destruct (grace_rounds_skipped inps st) as (A & B & C & D & E & F);
    [rewrite Hg; exact Hlen|].
  exists (skip_rounds inps st).
  split; [now apply main_loop_skipped|].
  rewrite B, Hg. auto.
Qed.

(** ** Debounce *)

(** What one evaluation does to the silence count, and when it fires. *)
Lemma evaluate_silence_step (cfg : config) (o : os_result) (r : float)
  (s : state) :
  let c := counted (silent cfg r) (silence_count s) in
  (In SILENCE (fst (evaluate cfg o r s)) ->
   is_nonzero (silence_theshold cfg) = true /\ silence_period cfg <= c) /\
  (forall s', snd (evaluate cfg o r s) = Running s' ->
     (is_nonzero (silence_theshold cfg) = false /\
      silence_count s' = silence_count s) \/
     (is_nonzero (silence_theshold cfg) = true /\
      (silence_count s' = 0 \/
       (silence_count s' = c /\ c < silence_period cfg)))).
Proof.
  evaluate_cases cfg o r s; (split;
    [intros Hin; repeat (destruct Hin as [Hin|Hin]; try discriminate);
     auto; try contradiction
    |intros s' E; inversion E; subst; simpl; auto]).
Qed.

(** The same for the no-dynamic count. *)
Lemma evaluate_nodynamic_step (cfg : config) (o : os_result) (r : float)
  (s : state) :
  let c := counted (flat cfg (peakdb s) r) (nodynamic_count s) in
  (In NO_DYNAMIC (fst (evaluate cfg o r s)) ->
   is_nonzero (nodynamic_theshold cfg) = true /\ nodynamic_period cfg <= c) /\
  (forall s', snd (evaluate cfg o r s) = Running s' ->
     (is_nonzero (nodynamic_theshold cfg) = false /\
      nodynamic_count s' = nodynamic_count s) \/
     (is_nonzero (nodynamic_theshold cfg) = true /\
      (nodynamic_count s' = 0 \/
       (nodynamic_count s' = c /\ c < nodynamic_period cfg)))).
Proof.
  evaluate_cases cfg o r s; (split;
    [intros Hin; repeat (destruct Hin as [Hin|Hin]; try discriminate);
     auto; try contradiction
    |intros s' E; inversion E; subst; simpl; auto]).
Qed.

(** A round adds at most one to a count, and fires only when the count
    it started with is one short of the period or more. *)
Lemma iteration_count_step (lin2db : float -> float) (cfg : config)
  (inp : tick_input) (st : state) :
  (0 <= silence_count st ->
   (In SILENCE (fst (iteration lin2db cfg inp st)) ->
    silence_period cfg <= silence_count st + 1) /\
   (forall st', snd (iteration lin2db cfg inp st) = Running st' ->
                0 <= silence_count st' <= silence_count st + 1)) /\
  (0 <= nodynamic_count st ->
   (In NO_DYNAMIC (fst (iteration lin2db cfg inp st)) ->
    nodynamic_period cfg <= nodynamic_count st + 1) /\
   (forall st', snd (iteration lin2db cfg inp st) = Running st' ->
                0 <= nodynamic_count st' <= nodynamic_count st + 1)).
Proof.
  destruct (iteration_cases lin2db cfg inp st) as [[_ ->]|(_ & _ & ->)].
  - destruct (skip_round_counters inp st) as (A & B & _).
    split; intros H0; (split; [intros []|]);
      intros st' E; inversion E; subst; lia.
  - destruct (usleep_frame (blocks inp) st) as (_ & Hdb & _ & Hsc & Hnc & _).
    set (r := lin2db _). set (s := set_peak _ _).
    assert (Hs : silence_count s = silence_count st) by exact Hsc.
    assert (Hn : nodynamic_count s = nodynamic_count st) by exact Hnc.
    split; intros H0.
    + destruct (evaluate_silence_step cfg (os inp) r s) as [F G].
      rewrite Hs in *. unfold counted in *.
      split.
      * intros Hin. destruct (F Hin) as [_ Hp].
        destruct (silent cfg r); lia.
      * intros st' E. specialize (G st' E).
        destruct (silent cfg r); lia.
    + destruct (evaluate_nodynamic_step cfg (os inp) r s) as [F G].
      rewrite Hn in *. unfold counted in *.
      split.
      * intros Hin. destruct (F Hin) as [_ Hp].
        destruct (flat cfg (peakdb s) r); lia.
      * intros st' E. specialize (G st' E).
        destruct (flat cfg (peakdb s) r); lia.
Qed.

Lemma counts_wait_for_period (lin2db : float -> float) (cfg : config)
  (inps : list tick_input) (st : state) :
  (0 <= silence_count st ->
   silence_count st + Z.of_nat (List.length inps) < silence_period cfg ->
   Forall (fun evs => ~ In SILENCE evs) (fst (main_loop lin2db cfg inps st))) /\
  (0 <= nodynamic_count st ->
   nodynamic_count st + Z.of_nat (List.length inps) < nodynamic_period cfg ->
   Forall (fun evs => ~ In NO_DYNAMIC evs)
     (fst (main_loop lin2db cfg inps st))).
Proof.
  split; revert st; induction inps as [|inp inps IH]; intros st H0 Hlt;
    simpl; try constructor;
    change (Z.of_nat (List.length (inp :: inps)))
      with (Z.of_nat (S (List.length inps))) in Hlt;
    rewrite Nat2Z.inj_succ in Hlt;
    destruct (iteration_count_step lin2db cfg inp st) as [Hs Hn].
  - destruct (Hs H0) as [F G].
    destruct (iteration lin2db cfg inp st) as [ev [s1|c]]; simpl in *.
    + specialize (G s1 eq_refl). specialize (IH s1).
      destruct (main_loop lin2db cfg inps s1) as [tr fin]; simpl in *.
      constructor; [intros Hin; specialize (F Hin); lia | apply IH; lia].
    + constructor; [intros Hin; specialize (F Hin); lia | constructor].
  - destruct (Hn H0) as [F G].
    destruct (iteration lin2db cfg inp st) as [ev [s1|c]]; simpl in *.
    + specialize (G s1 eq_refl). specialize (IH s1).
      destruct (main_loop lin2db cfg inps s1) as [tr fin]; simpl in *.
      constructor; [intros Hin; specialize (F Hin); lia | apply IH; lia].
    + constructor; [intros Hin; specialize (F Hin); lia | constructor].
Qed.

(** X7.  No event sooner than its period allows.  If the silence count
    plus the number of rounds to come is below the silence period, none of
    these rounds fires SILENCE, whatever the inputs; and the same for
    NO_DYNAMIC with its count and its period.  From the start of the
    program, with both counts at zero, a detector cannot fire during its
    first period - 1 rounds. *)
Theorem no_fire_before_period
  (lin2db : float -> float) (cfg : config) (inps : list tick_input)
  (st : state) :
  (0 <= silence_count st ->
   silence_count st + Z.of_nat (List.length inps) < silence_period cfg ->
   Forall (fun evs => ~ In SILENCE evs) (fst (main_loop lin2db cfg inps st))) /\
  (0 <= nodynamic_count st ->
   nodynamic_count st + Z.of_nat (List.length inps) < nodynamic_period cfg ->
   Forall (fun evs => ~ In NO_DYNAMIC evs)
     (fst (main_loop lin2db cfg inps st))).
Proof.
  destruct (counts_wait_for_period lin2db cfg inps st) as [Hs Hn].
  split; assumption.
Qed.

(** X8.  A reading that breaks the streak starts the debounce again.
    After an evaluated round whose reading is not below the silence
    threshold, an enabled silence detector with a period of at least one
    fires neither in that round nor in the next period - 1 rounds,
    whatever they receive and whatever its count was.  The same holds for
    the no-dynamic detector after a round whose reading differs from the
    previous one by the threshold or more. *)
Theorem streak_break_restarts_debounce
  (lin2db : float -> float) (cfg : config) (inp : tick_input)
  (post : list tick_input) (st : state) :
  in_grace st = 0 ->
  jack_port_connected inp <> 0 ->
  let previous := peakdb st in
  let current := lin2db (peak (usleep (blocks inp) st)) in
  (is_nonzero (silence_theshold cfg) = true ->
   1 <= silence_period cfg ->
   Z.of_nat (List.length post) < silence_period cfg ->
   ltb current (silence_theshold cfg) = false ->
   Forall (fun evs => ~ In SILENCE evs)
     (fst (main_loop lin2db cfg (inp :: post) st))) /\
  (is_nonzero (nodynamic_theshold cfg) = true ->
   1 <= nodynamic_period cfg ->
   Z.of_nat (List.length post) < nodynamic_period cfg ->
   ltb (fabs (sub previous current)) (nodynamic_theshold cfg) = false ->
   Forall (fun evs => ~ In NO_DYNAMIC evs)
     (fst (main_loop lin2db cfg (inp :: post) st))).
Proof.
  intros Hg Hc previous current.
  destruct (usleep_frame (blocks inp) st) as (_ & Hdb & _ & _ & _ & Hgr).
  assert (Hit : iteration lin2db cfg inp st =
                evaluate cfg (os inp) current
                  (set_peak zero (usleep (blocks inp) st))).
  { unfold iteration. apply loop_body_evaluated; [now rewrite Hgr|exact Hc]. }
  split; intros Hen Hp Hlen Hcond; simpl; rewrite Hit.
  - destruct (evaluate_silence_step cfg (os inp) current
                (set_peak zero (usleep (blocks inp) st))) as [F G].
    unfold silent, counted in F, G. rewrite Hcond in F, G.
    destruct (evaluate cfg (os inp) current _) as [ev [s1|c]]; simpl in *.
    + specialize (G s1 eq_refl).
      assert (H0 : silence_count s1 = 0)
        by (destruct G as [[G _]|[_ [G|[G _]]]]; congruence).
      destruct (counts_wait_for_period lin2db cfg post s1) as [W _].
      destruct (main_loop lin2db cfg post s1) as [tr fin]; simpl in *.
      constructor; [intros Hin; destruct (F Hin); lia | apply W; lia].
    + constructor; [intros Hin; destruct (F Hin); lia | constructor].
  - destruct (evaluate_nodynamic_step cfg (os inp) current
                (set_peak zero (usleep (blocks inp) st))) as [F G].
    unfold flat, counted in F, G. simpl in F, G.
    rewrite Hdb in F, G. fold previous in F, G. rewrite Hcond in F, G.
    destruct (evaluate cfg (os inp) current _) as [ev [s1|c]]; simpl in *.
    + specialize (G s1 eq_refl).
      assert (H0 : nodynamic_count s1 = 0)
        by (destruct G as [[G _]|[_ [G|[G _]]]]; congruence).
      destruct (counts_wait_for_period lin2db cfg post s1) as [_ W].
      destruct (main_loop lin2db cfg post s1) as [tr fin]; simpl in *.
      constructor; [intros Hin; destruct (F Hin); lia | apply W; lia].
    + constructor; [intros Hin; destruct (F Hin); lia | constructor].
Qed.

Lemma iteration_evaluated_clean (lin2db : float -> float) (cfg : config)
  (inp : tick_input) (st : state) (port : jack_port_t) :
  input_port st = Some port -> peak st = zero -> in_grace st = 0 ->
  jack_port_connected inp <> 0 ->
  iteration lin2db cfg inp st
  = evaluate cfg (os inp) (reading_of lin2db inp) st.
Proof.
  intros Hp Hz Hg Hc. unfold iteration.
  rewrite (usleep_registered (blocks inp) st port Hp).
  rewrite loop_body_evaluated by (simpl; assumption).
  replace (set_peak zero (set_peak _ st)) with st
    by (destruct st; simpl in *; subst; reflexivity).
  simpl. rewrite Hz. reflexivity.
Qed.

(** [evaluate] when only the silence detector is on. *)
Lemma evaluate_silence_only (cfg : config) (o : os_result) (r : float)
  (s : state) :
  is_nonzero (silence_theshold cfg) = true ->
  is_nonzero (nodynamic_theshold cfg) = false ->
  let c := counted (silent cfg r) (silence_count s) in
  (c < silence_period cfg ->
   evaluate cfg o r s
   = ([], Running (set_silence_count c (set_readings (peakdb s) r s)))) /\
  (silence_period cfg <= c -> fst (evaluate cfg o r s) = [SILENCE]).
Proof.
  intros Hs Hn.
  evaluate_cases cfg o r s; split; intros; try lia; try congruence;
    reflexivity.
Qed.

Lemma silence_streak_fires (lin2db : float -> float) (cfg : config)
  (port : jack_port_t) (inps : list tick_input) :
  is_nonzero (silence_theshold cfg) = true ->
  is_nonzero (nodynamic_theshold cfg) = false ->
  Forall (fun inp => jack_port_connected inp <> 0) inps ->
  Forall (fun inp => silent cfg (reading_of lin2db inp) = true) inps ->
  forall st : state,
    input_port st = Some port -> peak st = zero -> in_grace st = 0 ->
    0 <= silence_count st < silence_period cfg ->
    Z.of_nat (List.length inps) = silence_period cfg - silence_count st ->
    fst (main_loop lin2db cfg inps st)
    = repeat [] (List.length inps - 1) ++ [[SILENCE]].
Proof.
  intros Hs Hn Hconn Hsil. revert Hsil.
  induction Hconn as [|inp inps Hc Hconn IH]; intros Hsil st Hp Hz Hg Hcnt Hlen.
  - simpl in Hlen. lia.
  - inversion Hsil as [|? ? Hr Hsil']; subst.
    change (Z.of_nat (List.length (inp :: inps)))
      with (Z.of_nat (S (List.length inps))) in Hlen.
    rewrite Nat2Z.inj_succ in Hlen.
    simpl main_loop.
    rewrite (iteration_evaluated_clean lin2db cfg inp st port Hp Hz Hg Hc).
    destruct (evaluate_silence_only cfg (os inp) (reading_of lin2db inp) st
                Hs Hn) as [Hlow Hhigh].
    unfold counted in Hlow, Hhigh. rewrite Hr in Hlow, Hhigh.
    destruct inps as [|inp' inps'].
    + simpl in Hlen.
      specialize (Hhigh ltac:(lia)).
      destruct (evaluate cfg (os inp) (reading_of lin2db inp) st)
        as [ev [s1|c]]; simpl in *; subst ev; reflexivity.
    + rewrite Hlow by (simpl in Hlen; lia).
      specialize (IH Hsil'
                    (set_silence_count (silence_count st + 1)
                       (set_readings (peakdb st) (reading_of lin2db inp) st))).
      destruct (main_loop lin2db cfg (inp' :: inps') _) as [tr fin].
      simpl fst in *.
      rewrite IH by (simpl in Hlen |- *; first [assumption | lia]).
      simpl. rewrite Nat.sub_0_r. reflexivity.
Qed.

(** X9.  A streak as long as the period fires, and not before.  With the
    silence detector on and the no-dynamic detector off (as by default),
    an evaluated streak of readings below the threshold that brings the
    count from its value up to the period fires SILENCE in its last round
    and nothing in the rounds before, whatever the command is. *)
Theorem silence_fires_when_streak_reaches_period
  (lin2db : float -> float) (cfg : config) (port : jack_port_t)
  (inps : list tick_input) (st : state) :
  is_nonzero (silence_theshold cfg) = true ->
  is_nonzero (nodynamic_theshold cfg) = false ->
  input_port st = Some port -> peak st = zero -> in_grace st = 0 ->
  0 <= silence_count st < silence_period cfg ->
  Z.of_nat (List.length inps) = silence_period cfg - silence_count st ->
  Forall (fun inp => jack_port_connected inp <> 0) inps ->
  Forall (fun inp => ltb (reading_of lin2db inp) (silence_theshold cfg) = true)
    inps ->
  fst (main_loop lin2db cfg inps st)
  = repeat [] (List.length inps - 1) ++ [[SILENCE]].
Proof.
  intros Hs Hn Hp Hz Hg Hcnt Hlen Hconn Hsil.
  now apply (silence_streak_fires lin2db cfg port inps Hs Hn Hconn Hsil st).
Qed.

(** * Further properties of the peak cell *)

Lemma fabs_idempotent (x : float) : fabs (fabs x) = fabs x.
Proof. destruct x as [[]|[]| |[] m e]; reflexivity. Qed.

Lemma process_sample_magnitude (pk x : float) :
  is_magnitude pk -> is_magnitude (process_sample pk x).
Proof.
  unfold is_magnitude, process_sample. intros [Hf Hn].
  destruct (ltb pk (fabs x)) eqn:E; [|auto].
  split; [apply fabs_idempotent | apply ltb_not_nan in E; tauto].
Qed.

Lemma scan_magnitude (buf : list float) :
  forall pk, is_magnitude pk -> is_magnitude (fold_left process_sample buf pk).
Proof.
  induction buf as [|x buf IH]; intros pk H; simpl; [exact H|].
  apply IH. now apply process_sample_magnitude.
Qed.

Lemma process_peak_magnitude (buf : list float) (st : state) :
  is_magnitude (peak st) -> is_magnitude (peak (process_peak buf st)).
Proof.
  unfold process_peak. destruct (input_port st); simpl; [|auto].
  apply scan_magnitude.
Qed.

Lemma usleep_magnitude (bufs : list (list float)) :
  forall st, is_magnitude (peak st) -> is_magnitude (peak (usleep bufs st)).
Proof.
  unfold usleep. induction bufs as [|buf bufs IH]; intros st H; simpl;
    [exact H|].
  apply IH. now apply process_peak_magnitude.
Qed.

Lemma zero_magnitude : is_magnitude zero.
Proof. split; reflexivity. Qed.

(** X10.  The peak cell only ever holds a magnitude.  Whatever samples
    JACK delivers, NaNs and infinities included, and whether or not the
    port is registered, a cell that holds a non-negative number that is
    not a NaN still does after any callbacks and after any number of
    rounds of the loop; so [lin2db] is never given a NaN or a negative
    argument. *)
Theorem peak_is_always_magnitude
  (lin2db : float -> float) (cfg : config) (inps : list tick_input)
  (bufs : list (list float)) (st st' : state) :
  is_magnitude (peak st) ->
  snd (main_loop lin2db cfg inps st) = Running st' ->
  is_magnitude (peak st') /\ is_magnitude (peak (usleep bufs st')).
Proof.
  intros Hm Hrun.
  destruct (main_loop_induction lin2db cfg
              (fun s => is_magnitude (peak s)) (fun _ => True))
    with (inps := inps) (st := st) as [_ Hfin].
  - intros inp s Hs. split; [exact I|].
    destruct (iteration_cases lin2db cfg inp s) as [[_ ->]|(_ & _ & ->)].
    + simpl. intros s' E; inversion E; subst.
      unfold skip_round.
      destruct (negb (in_grace (usleep (blocks inp) s) =? 0)); simpl;
        now apply usleep_magnitude.
    + intros s' E.
      destruct (evaluate cfg (os inp) _ _) as [ev r] eqn:F.
      simpl in E; subst r.
      destruct (evaluate_frame _ _ _ _ _ _ F) as (A & _ & _).
      rewrite A. simpl. exact zero_magnitude.
  - exact Hm.
  - split; [now apply Hfin | apply usleep_magnitude; now apply Hfin].
Qed.

Lemma peak_is_always_magnitude_witness :
  let bufs := [[S754_nan; S754_infinity true; of_scaled 1 (-1)]] in
  is_magnitude (peak (initial_state 0%nat)) /\
  snd (main_loop lin2db_coarse both_config [quiet_second; loud_second]
         (initial_state 0%nat))
  = Running (skip_round loud_second state_after_fire) /\
  is_magnitude (peak (skip_round loud_second state_after_fire)) /\
  is_magnitude (peak (usleep bufs (skip_round loud_second state_after_fire))).
Proof.
  assert (Hrun : snd (main_loop lin2db_coarse both_config
                        [quiet_second; loud_second] (initial_state 0%nat))
                 = Running (skip_round loud_second state_after_fire))
    by (vm_compute; reflexivity).
  split; [exact zero_magnitude|]. split; [exact Hrun|].
  exact (peak_is_always_magnitude lin2db_coarse both_config
           [quiet_second; loud_second]
           [[S754_nan; S754_infinity true; of_scaled 1 (-1)]]
           (initial_state 0%nat) (skip_round loud_second state_after_fire)
           zero_magnitude Hrun).
Defined.

(** Two magnitudes that are each at most the other are the same float. *)
Lemma leb_antisym_magnitude (a b : float) :
  fabs a = a -> fabs b = b ->
  leb a b = true -> leb b a = true -> a = b.
Proof.
  unfold leb, SFleb.
  destruct a as [[]|[]| |[] ma ea], b as [[]|[]| |[] mb eb];
    simpl; try discriminate; try reflexivity; intros _ _;
    rewrite (Z.compare_antisym ea eb);
    change (Pos.compare_cont Eq mb ma) with (Pos.compare mb ma);
    change (Pos.compare_cont Eq ma mb) with (Pos.compare ma mb);
    rewrite (Pos.compare_antisym ma mb);
    destruct (Z.compare_spec ea eb); simpl; try discriminate;
    destruct (Pos.compare_spec ma mb); simpl; try discriminate;
    intros; subst; reflexivity.
Qed.

Lemma maximum_unique (m m' : float) (l : list float) :
  Forall (fun x => fabs x = x) l ->
  is_nan m = false -> is_nan m' = false ->
  is_maximum m l -> is_maximum m' l -> m = m'.
Proof.
  intros Hl Hn Hn' [Hin Hub] [Hin' Hub'].
  rewrite Forall_forall in Hl.
  apply leb_antisym_magnitude; auto.
Qed.

Lemma is_maximum_permutation (m : float) (l l' : list float) :
  Permutation l l' -> is_maximum m l -> is_maximum m l'.
Proof.
  intros HP [Hin Hub]. split.
  - now apply (Permutation_in _ HP).
  - intros x Hx. apply Hub. now apply (Permutation_in _ (Permutation_sym HP)).
Qed.

(** X11.  The peak depends on which samples arrived, not on their order
    nor on how JACK cut them into buffers: two deliveries whose samples
    are the same up to order leave the same float in the cell. *)
Theorem peak_independent_of_order
  (bufs bufs' : list (list float)) (st : state) (port : jack_port_t) :
  input_port st = Some port ->
  is_magnitude (peak st) ->
  Permutation (List.concat bufs) (List.concat bufs') ->
  peak (usleep bufs st) = peak (usleep bufs' st).
Proof.
  intros Hp [Hf Hn] HP.
  rewrite (usleep_registered bufs st port Hp),
    (usleep_registered bufs' st port Hp). simpl.
  destruct (scan_maximum (List.concat bufs) (peak st) Hn) as [N M].
  destruct (scan_maximum (List.concat bufs') (peak st) Hn) as [N' M'].
  apply (maximum_unique _ _ (peak st :: map fabs (List.concat bufs'))); auto.
  - constructor; [exact Hf|].
    rewrite Forall_forall. intros x Hx. apply in_map_iff in Hx.
    destruct Hx as (y & <- & _). apply fabs_idempotent.
  - apply (is_maximum_permutation _ (peak st :: map fabs (List.concat bufs))).
    + constructor. now apply Permutation_map.
    + exact M.
Qed.

Lemma peak_independent_of_order_witness :
  let a := of_scaled 1 (-2) in
  let b := of_scaled (-3) (-2) in
  let c := of_scaled 1 (-4) in
  input_port (initial_state 0%nat) = Some 0%nat /\
  is_magnitude (peak (initial_state 0%nat)) /\
  Permutation (List.concat [[a; b]; [c]]) (List.concat [[c]; []; [b; a]]) /\
  peak (usleep [[a; b]; [c]] (initial_state 0%nat))
  = peak (usleep [[c]; []; [b; a]] (initial_state 0%nat)).
Proof.
  assert (HP : Permutation
                 (List.concat [[of_scaled 1 (-2); of_scaled (-3) (-2)];
                               [of_scaled 1 (-4)]])
                 (List.concat [[of_scaled 1 (-4)]; [];
                               [of_scaled (-3) (-2); of_scaled 1 (-2)]])).
  { simpl.
    apply Permutation_trans
      with [of_scaled 1 (-4); of_scaled 1 (-2); of_scaled (-3) (-2)].
    - apply Permutation_sym, Permutation_middle
        with (l1 := [of_scaled 1 (-2); of_scaled (-3) (-2)]) (l2 := []).
    - constructor. apply perm_swap. }
  split; [reflexivity|]. split; [exact zero_magnitude|]. split; [exact HP|].
  exact (peak_independent_of_order _ _ (initial_state 0%nat) 0%nat
           eq_refl zero_magnitude HP).
Defined.

(** * Properties of the command line and of [main] *)

Lemma set_option_config_ok (o : getopt_result) (s : settings) :
  option_in_range o -> config_ok (detector s) ->
  config_ok (detector (set_option o s)) /\
  argv (detector (set_option o s)) = argv (detector s).
Proof.
  unfold config_ok, option_in_range, fabs_int, INT_MIN, INT_MAX.
  destruct o; simpl; intros Hr (C1 & C2 & C3);
    unfold INT_MIN, INT_MAX, fabs_int in *; repeat split;
    first [lia | reflexivity].
Qed.

Lemma parse_options_config_ok (opts : list getopt_result) :
  forall s s' : settings,
    Forall option_in_range opts -> config_ok (detector s) ->
    parse_options opts s = Parsed s' ->
    config_ok (detector s') /\ argv (detector s') = argv (detector s).
Proof.
  induction opts as [|o opts IH]; intros s s' Hall Hok; simpl.
  - intros E; inversion E; subst; auto.
  - inversion Hall as [|? ? Ho Hall']; subst.
    destruct (set_option_config_ok o s Ho Hok) as [Hok' Hargv].
    destruct o; try discriminate; intros E;
      destruct (IH _ _ Hall' Hok' E) as [A B];
      (split; [exact A | now rewrite B]).
Qed.

Lemma default_config_ok (command : list string) :
  config_ok (default_config command).
Proof. unfold config_ok, INT_MIN, INT_MAX; simpl; lia. Qed.

Lemma initial_state_bounded (cfg : config) (port : jack_port_t) :
  0 <= grace_period cfg -> bounded cfg (initial_state port).
Proof. unfold bounded; simpl; lia. Qed.

(** X13.  Options in range give a loop that cannot overflow.  When the
    numbers given to [-p], [-g] and [-P] fit an [int] (for [-p] and [-g]
    other than [INT_MIN]), the values the option loop leaves behind have
    non-negative silence and grace periods, the command is the remaining
    arguments, and every state that the main loop reaches from its initial
    state, in any run, keeps each count below its period, the grace
    counter between zero and the grace period, and all three inside
    [int]. *)
Theorem options_in_range_keep_loop_in_range
  (lin2db : float -> float) (opts : list getopt_result)
  (command : list string) (s : settings) (port : jack_port_t)
  (inps : list tick_input) (st' : state) :
  Forall option_in_range opts ->
  parse_options opts (default_settings command) = Parsed s ->
  snd (main_loop lin2db (detector s) inps (initial_state port)) = Running st' ->
  config_ok (detector s) /\
  argv (detector s) = command /\
  bounded (detector s) st' /\
  state_ok st'.
Proof.
  intros Hall Hparse Hrun.
  destruct (parse_options_config_ok opts (default_settings command) s Hall
              (default_config_ok command) Hparse) as [Hok Hargv].
  split; [exact Hok|]. split; [exact Hargv|].
  apply (main_loop_bounded lin2db (detector s) inps (initial_state port));
    [exact Hok| |exact Hrun].
  apply initial_state_bounded. destruct Hok as (_ & _ & H); lia.
Qed.

Lemma parse_options_usage (opts : list getopt_result) :
  forall s : settings,
    In opt_h opts \/ In opt_other opts -> parse_options opts s = Usage.
Proof.
  induction opts as [|o opts IH]; intros s [H|H]; simpl in *;
    try contradiction;
    destruct H as [->|H]; try reflexivity;
    destruct o; try reflexivity; apply IH; auto.
Qed.

Lemma set_option_flags (o : getopt_result) (s : settings) :
  (quiet s = true -> quiet (set_option o s) = true) /\
  (verbose s = true -> verbose (set_option o s) = true) /\
  (o = opt_q -> quiet (set_option o s) = true) /\
  (o = opt_v -> verbose (set_option o s) = true).
Proof.
  destruct o; simpl; repeat split; auto; discriminate.
Qed.

Lemma parse_options_flags (opts : list getopt_result) :
  forall s s' : settings,
    parse_options opts s = Parsed s' ->
    (quiet s = true \/ In opt_q opts -> quiet s' = true) /\
    (verbose s = true \/ In opt_v opts -> verbose s' = true).
Proof.
  induction opts as [|o opts IH]; intros s s'; simpl.
  - intros E; inversion E; subst. split; intros [H|[]]; exact H.
  - destruct (set_option_flags o s) as (Q1 & V1 & Q2 & V2).
    destruct o; try discriminate; intros E;
      destruct (IH _ _ E) as [A B];
      (split; [intros [H|[H|H]]; apply A; auto; discriminate
              |intros [H|[H|H]]; apply B; auto; discriminate]).
Qed.

(** X14.  [-h], an option that [getopt] rejects, or [-q] together with
    [-v], wherever they stand among the options, make [main] leave with
    status 1 before JACK is touched: nothing is ever fired. *)
Theorem bad_options_exit_before_start
  (lin2db : float -> float) (opts : list getopt_result)
  (command : list string) (j : jack_server) (inps : list tick_input) :
  In opt_h opts \/ In opt_other opts \/ (In opt_q opts /\ In opt_v opts) ->
  main lin2db opts command j inps = ([], 1).
Proof.
  intros H. unfold main.
  destruct (parse_options opts (default_settings command)) as [s|] eqn:E;
    [|reflexivity].
  destruct H as [H|[H|[Hq Hv]]].
  - rewrite (parse_options_usage opts _ (or_introl H)) in E. discriminate.
  - rewrite (parse_options_usage opts _ (or_intror H)) in E. discriminate.
  - destruct (parse_options_flags opts _ _ E) as [A B].
    rewrite (A (or_intror Hq)), (B (or_intror Hv)). reflexivity.
Qed.

Lemma bad_options_exit_before_start_witness :
  (In opt_h [opt_p 5; opt_h; opt_v] \/
   In opt_other [opt_p 5; opt_h; opt_v] \/
   (In opt_q [opt_p 5; opt_h; opt_v] /\ In opt_v [opt_p 5; opt_h; opt_v])) /\
  main lin2db_coarse [opt_p 5; opt_h; opt_v] ["exit"%string]
    (mkJack true (Some 0%nat) 0 0) [quiet_second] = ([], 1).
Proof.
  assert (H : In opt_h [opt_p 5; opt_h; opt_v] \/
              In opt_other [opt_p 5; opt_h; opt_v] \/
              (In opt_q [opt_p 5; opt_h; opt_v] /\
               In opt_v [opt_p 5; opt_h; opt_v]))
    by (left; right; left; reflexivity).
  split; [exact H|].
  exact (bad_options_exit_before_start lin2db_coarse
           [opt_p 5; opt_h; opt_v] ["exit"%string]
           (mkJack true (Some 0%nat) 0 0) [quiet_second] H).
Defined.




(** X17.  A no-dynamic period of zero or less, which [-P] can produce,
    makes the enabled no-dynamic detector fire in every evaluated round
    that gets to it (every one in which the trigger of the silence
    detector, if called, returns), whatever the readings are. *)
Theorem nonpositive_nodynamic_period_fires_always
  (lin2db : float -> float) (cfg : config) (inp : tick_input) (st : state) :
  in_grace st = 0 ->
  jack_port_connected inp <> 0 ->
  is_nonzero (nodynamic_theshold cfg) = true ->
  nodynamic_period cfg <= 0 ->
  0 <= nodynamic_count st ->
  run_command (argv cfg) (fork_silence (os inp)) = CmdReturned ->
  In NO_DYNAMIC (fst (iteration lin2db cfg inp st)).
Proof.
  intros Hg Hc En Hp Hcount Hs.
  destruct (usleep_frame (blocks inp) st) as (_ & _ & _ & _ & Hnc & Hgr).
  unfold iteration.
  rewrite loop_body_evaluated by (rewrite ?Hgr; assumption).
  apply evaluate_nodynamic_fires; try assumption.
  simpl. rewrite Hnc. apply Z.leb_le.
  unfold counted. destruct (flat cfg _ _); lia.
Qed.

(** * The further properties at concrete inputs *)

Lemma both_config_ok : config_ok both_config.
Proof. unfold config_ok, INT_MIN, INT_MAX; simpl; lia. Defined.

Lemma loop_keeps_counters_bounded_witness :
  let inps := [quiet_second; loud_second; unplugged_second; quiet_second] in
  config_ok both_config /\
  bounded both_config (initial_state 0%nat) /\
  exists st' : state,
    snd (main_loop lin2db_coarse both_config inps (initial_state 0%nat))
    = Running st' /\
    bounded both_config st' /\ state_ok st'.
Proof.
  assert (Hb : bounded both_config (initial_state 0%nat))
    by (unfold bounded; simpl; lia).
  split; [exact both_config_ok|]. split; [exact Hb|].
  eexists. split; [vm_compute; reflexivity|].
  apply (loop_keeps_counters_bounded lin2db_coarse both_config
           [quiet_second; loud_second; unplugged_second; quiet_second]
           (initial_state 0%nat));
    [exact both_config_ok | exact Hb | vm_compute; reflexivity].
Defined.

Lemma loop_exits_only_on_fire_witness :
  let inps := [quiet_second; quiet_second; quiet_second; quiet_second] in
  snd (main_loop lin2db_coarse exit_config inps (initial_state 0%nat))
  = Exited 0 /\
  exists (before : list (list fire)) (evs : list fire) (inp : tick_input),
    fst (main_loop lin2db_coarse exit_config inps (initial_state 0%nat))
    = before ++ [evs] /\
    evs <> [] /\ In inp inps /\ exit_reason exit_config (os inp) 0.
Proof.
  assert (H : snd (main_loop lin2db_coarse exit_config
                     [quiet_second; quiet_second; quiet_second; quiet_second]
                     (initial_state 0%nat)) = Exited 0)
    by (vm_compute; reflexivity).
  split; [exact H|].
  exact (loop_exits_only_on_fire lin2db_coarse exit_config _ _ 0 H).
Defined.

Lemma no_command_never_exits_witness :
  let inps := [quiet_second; quiet_second; quiet_second; quiet_second] in
  argv (debounce_config []) = [] /\
  exists st' : state,
    snd (main_loop lin2db_coarse (debounce_config []) inps (initial_state 0%nat))
    = Running st' /\
    List.length
      (fst (main_loop lin2db_coarse (debounce_config []) inps
              (initial_state 0%nat)))
    = List.length inps.
Proof.
  split; [reflexivity|].
  exact (no_command_never_exits lin2db_coarse (debounce_config [])
           [quiet_second; quiet_second; quiet_second; quiet_second]
           (initial_state 0%nat) eq_refl).
Defined.

Lemma exit_command_stops_at_first_fire_witness :
  let inps := [loud_second; quiet_second; quiet_second; quiet_second;
               quiet_second] in
  let run := main_loop lin2db_coarse exit_config inps (initial_state 0%nat) in
  argv exit_config = ["exit"%string] /\
  fst run = [[]; []; []; [SILENCE]] /\
  ((all_events (fst run) = [] /\ exists st', snd run = Running st') \/
   (exists (before : list (list fire)) (k : fire),
       fst run = before ++ [[k]] /\ all_events before = [] /\
       snd run = Exited 0)).
Proof.
  split; [reflexivity|]. split; [vm_compute; reflexivity|].
  exact (exit_command_stops_at_first_fire lin2db_coarse exit_config
           [loud_second; quiet_second; quiet_second; quiet_second;
            quiet_second] (initial_state 0%nat) eq_refl).
Defined.

Lemma grace_period_suppresses_witness :
  let inps := [loud_second; unplugged_second] in
  iteration lin2db_coarse both_config quiet_second (initial_state 0%nat)
  = ([SILENCE], Running state_after_fire) /\
  [SILENCE] <> [] /\
  Z.of_nat (List.length inps) <= grace_period both_config /\
  exists st' : state,
    main_loop lin2db_coarse both_config inps state_after_fire
    = (map (fun _ => []) inps, Running st') /\
    in_grace st' = grace_period both_config - Z.of_nat (List.length inps) /\
    silence_count st' = silence_count state_after_fire /\
    nodynamic_count st' = nodynamic_count state_after_fire /\
    peakdb st' = peakdb state_after_fire /\
    last_peakdb st' = last_peakdb state_after_fire.
Proof.
  assert (Hfire : iteration lin2db_coarse both_config quiet_second
                    (initial_state 0%nat)
                  = ([SILENCE], Running state_after_fire))
    by (vm_compute; reflexivity).
  split; [exact Hfire|]. split; [discriminate|].
  split; [vm_compute; discriminate|].
  apply (grace_period_suppresses lin2db_coarse both_config quiet_second
           (initial_state 0%nat) state_after_fire [SILENCE]
           [loud_second; unplugged_second] Hfire);
    [discriminate | vm_compute; discriminate].
Defined.

Lemma no_fire_before_period_witness :
  let inps := [quiet_second; quiet_second] in
  let st := initial_state 0%nat in
  0 <= silence_count st /\
  silence_count st + Z.of_nat (List.length inps) < silence_period long_config /\
  0 <= nodynamic_count st /\
  nodynamic_count st + Z.of_nat (List.length inps)
  < nodynamic_period long_config /\
  Forall (fun evs => ~ In SILENCE evs)
    (fst (main_loop lin2db_coarse long_config inps st)) /\
  Forall (fun evs => ~ In NO_DYNAMIC evs)
    (fst (main_loop lin2db_coarse long_config inps st)).
Proof.
  destruct (no_fire_before_period lin2db_coarse long_config
              [quiet_second; quiet_second] (initial_state 0%nat)) as [Hs Hn].
  repeat (split; [first [reflexivity | discriminate]|]).
  split; [apply Hs | apply Hn]; first [reflexivity | discriminate].
Defined.

Lemma streak_break_restarts_debounce_witness :
  let post := [quiet_second; quiet_second] in
  let st := initial_state 0%nat in
  let current := lin2db_coarse (peak (usleep (blocks loud_second) st)) in
  in_grace st = 0 /\
  jack_port_connected loud_second <> 0 /\
  is_nonzero (silence_theshold long_config) = true /\
  1 <= silence_period long_config /\
  Z.of_nat (List.length post) < silence_period long_config /\
  ltb current (silence_theshold long_config) = false /\
  is_nonzero (nodynamic_theshold long_config) = true /\
  1 <= nodynamic_period long_config /\
  Z.of_nat (List.length post) < nodynamic_period long_config /\
  ltb (fabs (sub (peakdb st) current)) (nodynamic_theshold long_config)
  = false /\
  Forall (fun evs => ~ In SILENCE evs)
    (fst (main_loop lin2db_coarse long_config (loud_second :: post) st)) /\
  Forall (fun evs => ~ In NO_DYNAMIC evs)
    (fst (main_loop lin2db_coarse long_config (loud_second :: post) st)).
Proof.
  destruct (streak_break_restarts_debounce lin2db_coarse long_config
              loud_second [quiet_second; quiet_second] (initial_state 0%nat)
              eq_refl ltac:(discriminate)) as [Hs Hn].
  repeat (split; [first [reflexivity | discriminate
                        | vm_compute; reflexivity]|]).
  split; [apply Hs | apply Hn];
    first [reflexivity | discriminate | vm_compute; reflexivity].
Defined.

Lemma silence_fires_when_streak_reaches_period_witness :
  let inps := [quiet_second; quiet_second; quiet_second] in
  let st := initial_state 0%nat in
  is_nonzero (silence_theshold exit_config) = true /\
  is_nonzero (nodynamic_theshold exit_config) = false /\
  input_port st = Some 0%nat /\ peak st = zero /\ in_grace st = 0 /\
  0 <= silence_count st < silence_period exit_config /\
  Z.of_nat (List.length inps)
  = silence_period exit_config - silence_count st /\
  Forall (fun inp => jack_port_connected inp <> 0) inps /\
  Forall (fun inp =>
            ltb (reading_of lin2db_coarse inp) (silence_theshold exit_config)
            = true) inps /\
  fst (main_loop lin2db_coarse exit_config inps st)
  = repeat [] (List.length inps - 1) ++ [[SILENCE]].
Proof.
  assert (Hconn : Forall (fun inp => jack_port_connected inp <> 0)
                    [quiet_second; quiet_second; quiet_second])
    by (repeat constructor; discriminate).
  assert (Hsil : Forall (fun inp =>
                           ltb (reading_of lin2db_coarse inp)
                             (silence_theshold exit_config) = true)
                   [quiet_second; quiet_second; quiet_second])
    by (repeat constructor; vm_compute; reflexivity).
  assert (Hcnt : 0 <= silence_count (initial_state 0%nat)
                 < silence_period exit_config)
    by (split; [discriminate | reflexivity]).
  do 5 (split; [reflexivity|]).
  split; [exact Hcnt|]. split; [reflexivity|].
  split; [exact Hconn|]. split; [exact Hsil|].
  exact (silence_fires_when_streak_reaches_period lin2db_coarse exit_config
           0%nat [quiet_second; quiet_second; quiet_second]
           (initial_state 0%nat) eq_refl eq_refl eq_refl eq_refl eq_refl
           Hcnt eq_refl Hconn Hsil).
Defined.

Lemma options_in_range_keep_loop_in_range_witness :
  let opts := [opt_p (-5); opt_g 2; opt_P (S754_finite false 5 (-1));
               opt_c "system:capture_1"%string; opt_v] in
  let inps := [quiet_second; quiet_second; loud_second] in
  Forall option_in_range opts /\
  exists (s : settings) (st' : state),
    parse_options opts (default_settings ["logger"%string]) = Parsed s /\
    snd (main_loop lin2db_coarse (detector s) inps (initial_state 0%nat))
    = Running st' /\
    silence_period (detector s) = 5 /\
    nodynamic_period (detector s) = 2 /\
    config_ok (detector s) /\
    argv (detector s) = ["logger"%string] /\
    bounded (detector s) st' /\
    state_ok st'.
Proof.
  assert (Hall : Forall option_in_range
                   [opt_p (-5); opt_g 2; opt_P (S754_finite false 5 (-1));
                    opt_c "system:capture_1"%string; opt_v]).
  { repeat constructor; vm_compute; first [reflexivity | discriminate]. }
  split; [exact Hall|].
  do 2 eexists.
  split; [vm_compute; reflexivity|].
  split; [vm_compute; reflexivity|].
  split; [reflexivity|]. split; [reflexivity|].
  apply (options_in_range_keep_loop_in_range lin2db_coarse
           [opt_p (-5); opt_g 2; opt_P (S754_finite false 5 (-1));
            opt_c "system:capture_1"%string; opt_v]
           ["logger"%string] _ 0%nat
           [quiet_second; quiet_second; loud_second] _ Hall);
    vm_compute; reflexivity.
Defined.


Lemma nonpositive_nodynamic_period_fires_always_witness :
  let st := initial_state 0%nat in
  in_grace st = 0 /\
  jack_port_connected loud_second <> 0 /\
  is_nonzero (nodynamic_theshold negative_period_config) = true /\
  nodynamic_period negative_period_config <= 0 /\
  0 <= nodynamic_count st /\
  run_command (argv negative_period_config) (fork_silence (os loud_second))
  = CmdReturned /\
  flat negative_period_config (peakdb st)
    (lin2db_coarse (peak (usleep (blocks loud_second) st))) = false /\
  In NO_DYNAMIC
    (fst (iteration lin2db_coarse negative_period_config loud_second st)).
Proof.
  repeat (split; [first [reflexivity | discriminate
                        | vm_compute; reflexivity]|]).
  apply (nonpositive_nodynamic_period_fires_always lin2db_coarse
           negative_period_config loud_second (initial_state 0%nat));
    first [reflexivity | discriminate].
Defined.

(** * A steady signal *)

(** [evaluate] when only the no-dynamic detector is on. *)
Lemma evaluate_nodynamic_only (cfg : config) (o : os_result) (r : float)
  (s : state) :
  is_nonzero (silence_theshold cfg) = false ->
  is_nonzero (nodynamic_theshold cfg) = true ->
  let c := counted (flat cfg (peakdb s) r) (nodynamic_count s) in
  (c < nodynamic_period cfg ->
   evaluate cfg o r s
   = ([], Running (set_nodynamic_count c (set_readings (peakdb s) r s)))) /\
  (nodynamic_period cfg <= c -> fst (evaluate cfg o r s) = [NO_DYNAMIC]).
Proof.
  intros Hs Hn.
  evaluate_cases cfg o r s; split; intros; try lia; try congruence;
    reflexivity.
Qed.

Lemma steady_signal_fires (lin2db : float -> float) (cfg : config)
  (port : jack_port_t) (inps : list tick_input) :
  is_nonzero (silence_theshold cfg) = false ->
  is_nonzero (nodynamic_theshold cfg) = true ->
  Forall (fun inp => jack_port_connected inp <> 0) inps ->
  forall st : state,
    steady lin2db cfg (peakdb st) inps ->
    input_port st = Some port -> peak st = zero -> in_grace st = 0 ->
    0 <= nodynamic_count st < nodynamic_period cfg ->
    Z.of_nat (List.length inps) = nodynamic_period cfg - nodynamic_count st ->
    fst (main_loop lin2db cfg inps st)
    = repeat [] (List.length inps - 1) ++ [[NO_DYNAMIC]].
Proof.
  intros Hs Hn Hconn.
  induction Hconn as [|inp inps Hc Hconn IH];
    intros st Hst Hp Hz Hg Hcnt Hlen.
  - simpl in Hlen. lia.
  - destruct Hst as [Hr Hst].
    change (Z.of_nat (List.length (inp :: inps)))
      with (Z.of_nat (S (List.length inps))) in Hlen.
    rewrite Nat2Z.inj_succ in Hlen.
    simpl main_loop.
    rewrite (iteration_evaluated_clean lin2db cfg inp st port Hp Hz Hg Hc).
    destruct (evaluate_nodynamic_only cfg (os inp) (reading_of lin2db inp) st
                Hs Hn) as [Hlow Hhigh].
    unfold counted in Hlow, Hhigh. rewrite Hr in Hlow, Hhigh.
    destruct inps as [|inp' inps'].
    + simpl in Hlen.
      specialize (Hhigh ltac:(lia)).
      destruct (evaluate cfg (os inp) (reading_of lin2db inp) st)
        as [ev [s1|c]]; simpl in *; subst ev; reflexivity.
    + rewrite Hlow by (simpl in Hlen; lia).
      specialize (IH (set_nodynamic_count (nodynamic_count st + 1)
                        (set_readings (peakdb st) (reading_of lin2db inp) st))).
      destruct (main_loop lin2db cfg (inp' :: inps') _) as [tr fin].
      simpl fst in *.
      rewrite IH by (simpl in Hlen |- *; first [assumption | lia]).
      simpl. rewrite Nat.sub_0_r. reflexivity.
Qed.

(** X18.  A steady signal for as long as the period fires NO_DYNAMIC, and
    not before.  With only the no-dynamic detector on, a run of evaluated
    rounds in which every reading is within the threshold of the reading
    before it, and which brings the count from its value up to the period,
    fires NO_DYNAMIC in its last round and nothing in the rounds before,
    whatever the command is. *)
Theorem nodynamic_fires_when_steady_for_period
  (lin2db : float -> float) (cfg : config) (port : jack_port_t)
  (inps : list tick_input) (st : state) :
  is_nonzero (silence_theshold cfg) = false ->
  is_nonzero (nodynamic_theshold cfg) = true ->
  input_port st = Some port -> peak st = zero -> in_grace st = 0 ->
  0 <= nodynamic_count st < nodynamic_period cfg ->
  Z.of_nat (List.length inps) = nodynamic_period cfg - nodynamic_count st ->
  Forall (fun inp => jack_port_connected inp <> 0) inps ->
  steady lin2db cfg (peakdb st) inps ->
  fst (main_loop lin2db cfg inps st)
  = repeat [] (List.length inps - 1) ++ [[NO_DYNAMIC]].
Proof.
  intros Hs Hn Hp Hz Hg Hcnt Hlen Hconn Hst.
  now apply (steady_signal_fires lin2db cfg port inps Hs Hn Hconn st).
Qed.

Lemma nodynamic_fires_when_steady_for_period_witness :
  let inps := [loud_second; loud_second; loud_second] in
  let st := set_readings zero (of_Z (-6)) (initial_state 0%nat) in
  is_nonzero (silence_theshold nodynamic_only_config) = false /\
  is_nonzero (nodynamic_theshold nodynamic_only_config) = true /\
  input_port st = Some 0%nat /\ peak st = zero /\ in_grace st = 0 /\
  0 <= nodynamic_count st < nodynamic_period nodynamic_only_config /\
  Z.of_nat (List.length inps)
  = nodynamic_period nodynamic_only_config - nodynamic_count st /\
  Forall (fun inp => jack_port_connected inp <> 0) inps /\
  steady lin2db_coarse nodynamic_only_config (peakdb st) inps /\
  fst (main_loop lin2db_coarse nodynamic_only_config inps st)
  = repeat [] (List.length inps - 1) ++ [[NO_DYNAMIC]].
Proof.
  assert (Hconn : Forall (fun inp => jack_port_connected inp <> 0)
                    [loud_second; loud_second; loud_second])
    by (repeat constructor; discriminate).
  assert (Hst : steady lin2db_coarse nodynamic_only_config
                  (peakdb (set_readings zero (of_Z (-6)) (initial_state 0%nat)))
                  [loud_second; loud_second; loud_second])
    by (repeat split; vm_compute; reflexivity).
  assert (Hcnt : 0 <= nodynamic_count
                        (set_readings zero (of_Z (-6)) (initial_state 0%nat))
                 < nodynamic_period nodynamic_only_config)
    by (split; [discriminate | reflexivity]).
  do 5 (split; [reflexivity|]).
  split; [exact Hcnt|]. split; [reflexivity|].
  split; [exact Hconn|]. split; [exact Hst|].
  exact (nodynamic_fires_when_steady_for_period lin2db_coarse
           nodynamic_only_config 0%nat [loud_second; loud_second; loud_second]
           (set_readings zero (of_Z (-6)) (initial_state 0%nat))
           eq_refl eq_refl eq_refl eq_refl eq_refl Hcnt eq_refl Hconn Hst).
Defined.

(** * Rounds whose trigger may end the process *)

(** Everything an evaluation does, with no assumption on the trigger:
    what it fires, when it ends the process, and the state it leaves when
    it goes on. *)
Lemma evaluate_outcome (cfg : config) (o : os_result) (r : float) (s : state) :
  let cs := counted (silent cfg r) (silence_count s) in
  let cn := counted (flat cfg (peakdb s) r) (nodynamic_count s) in
  let silence_fires :=
    is_nonzero (silence_theshold cfg) && (silence_period cfg <=? cs) in
  let nodynamic_fires :=
    is_nonzero (nodynamic_theshold cfg) && (nodynamic_period cfg <=? cn) in
  let evs := fst (evaluate cfg o r s) in
  let res := snd (evaluate cfg o r s) in
  fired SILENCE evs = (if silence_fires then 1 else 0)%nat /\
  (silence_fires = true ->
   forall code, run_command (argv cfg) (fork_silence o) = CmdExited code ->
                evaluate cfg o r s = ([SILENCE], Exited code)) /\
  ((silence_fires = true ->
    run_command (argv cfg) (fork_silence o) = CmdReturned) ->
   fired NO_DYNAMIC evs = (if nodynamic_fires then 1 else 0)%nat /\
   (nodynamic_fires = true ->
    forall code, run_command (argv cfg) (fork_nodynamic o) = CmdExited code ->
                 res = Exited code) /\
   ((nodynamic_fires = true ->
     run_command (argv cfg) (fork_nodynamic o) = CmdReturned) ->
    exists st' : state,
      res = Running st' /\
      silence_count st'
      = (if is_nonzero (silence_theshold cfg)
         then if silence_period cfg <=? cs then 0 else cs
         else silence_count s) /\
      nodynamic_count st'
      = (if is_nonzero (nodynamic_theshold cfg)
         then if nodynamic_period cfg <=? cn then 0 else cn
         else nodynamic_count s) /\
      in_grace st'
      = (if silence_fires || nodynamic_fires then grace_period cfg
         else in_grace s) /\
      peakdb st' = r /\ last_peakdb st' = peakdb s /\
      peak st' = peak s /\ input_port st' = input_port s)).
Proof.
  cbv zeta.
  evaluate_cases cfg o r s;
    repeat match goal with
    | H : _ < _ |- _ => apply Z.leb_gt in H
    | H : _ <= _ |- _ => apply Z.leb_le in H
    end;
    rewrite ?Es, ?En, ?Hsc, ?Hnc; simpl;
    (split; [reflexivity|]);
    (split; [intros; try discriminate; congruence|]);
    intros Hs1;
    try (specialize (Hs1 eq_refl); congruence);
    (split; [reflexivity|]);
    (split; [intros; try discriminate; congruence|]);
    intros Hn1;
    try (specialize (Hn1 eq_refl); congruence);
    eexists; repeat split; reflexivity.
Qed.

(** The same for an evaluated round of the loop, in terms of the state
    the round starts from. *)
Lemma iteration_outcome (lin2db : float -> float) (cfg : config)
  (inp : tick_input) (st : state) :
  in_grace st = 0 ->
  jack_port_connected inp <> 0 ->
  let previous := peakdb st in
  let current := lin2db (peak (usleep (blocks inp) st)) in
  let cs := counted (ltb current (silence_theshold cfg)) (silence_count st) in
  let cn := counted (ltb (fabs (sub previous current)) (nodynamic_theshold cfg))
              (nodynamic_count st) in
  let silence_fires :=
    is_nonzero (silence_theshold cfg) && (silence_period cfg <=? cs) in
  let nodynamic_fires :=
    is_nonzero (nodynamic_theshold cfg) && (nodynamic_period cfg <=? cn) in
  let evs := fst (iteration lin2db cfg inp st) in
  let res := snd (iteration lin2db cfg inp st) in
  round_events evs /\
  fired SILENCE evs = (if silence_fires then 1 else 0)%nat /\
  (silence_fires = true ->
   forall code,
     run_command (argv cfg) (fork_silence (os inp)) = CmdExited code ->
     iteration lin2db cfg inp st = ([SILENCE], Exited code)) /\
  ((silence_fires = true ->
    run_command (argv cfg) (fork_silence (os inp)) = CmdReturned) ->
   fired NO_DYNAMIC evs = (if nodynamic_fires then 1 else 0)%nat /\
   (nodynamic_fires = true ->
    forall code,
      run_command (argv cfg) (fork_nodynamic (os inp)) = CmdExited code ->
      res = Exited code) /\
   ((nodynamic_fires = true ->
     run_command (argv cfg) (fork_nodynamic (os inp)) = CmdReturned) ->
    exists st' : state,
      res = Running st' /\
      silence_count st'
      = (if is_nonzero (silence_theshold cfg)
         then if silence_period cfg <=? cs then 0 else cs
         else silence_count st) /\
      nodynamic_count st'
      = (if is_nonzero (nodynamic_theshold cfg)
         then if nodynamic_period cfg <=? cn then 0 else cn
         else nodynamic_count st) /\
      in_grace st'
      = (if silence_fires || nodynamic_fires then grace_period cfg else 0) /\
      peakdb st' = current /\ last_peakdb st' = previous /\
      peak st' = zero)).
Proof.
  intros Hg Hc previous current.
  destruct (usleep_frame (blocks inp) st) as (_ & Hdb & _ & Hsc & Hnc & Hgr).
  assert (Hit : iteration lin2db cfg inp st =
                evaluate cfg (os inp) current
                  (set_peak zero (usleep (blocks inp) st))).
  { unfold iteration. apply loop_body_evaluated; [now rewrite Hgr|exact Hc]. }
  pose proof (evaluate_outcome cfg (os inp) current
                (set_peak zero (usleep (blocks inp) st))) as H.
  pose proof (evaluate_round_events cfg (os inp) current
                (set_peak zero (usleep (blocks inp) st))) as Hre.
  cbv zeta in H. unfold silent, flat in H. simpl in H.
  rewrite Hsc, Hnc, Hdb, Hgr, Hg in H. fold previous in H.
  cbv zeta. rewrite Hit.
  destruct H as (H1 & H2 & H3).
  split; [exact Hre|]. split; [exact H1|]. split; [exact H2|].
  intros Hs. destruct (H3 Hs) as (H4 & H5 & H6).
  split; [exact H4|]. split; [exact H5|].
  intros Hn. destruct (H6 Hn) as (st' & A & B & C & D & E & F & G & _).
  exists st'. auto 10.
Qed.

Lemma fired_both_events (evs : list fire) :
  round_events evs ->
  (fired SILENCE evs = 1%nat -> fired NO_DYNAMIC evs = 1%nat ->
   evs = [SILENCE; NO_DYNAMIC]) /\
  (fired SILENCE evs = 1%nat -> fired NO_DYNAMIC evs = 0%nat ->
   evs = [SILENCE]).
Proof.
  intros [ -> | [ -> | [ -> | -> ] ] ]; split; intros A B;
    try discriminate; reflexivity.
Qed.

(** C1, as stated, fails: the trigger is called inside the fire step, and
    with the command [exit] it ends the process there.  With the default
    options and that command, the first quiet second after the start
    fires SILENCE and the process is over: the round does not go on, the
    count is not put back to zero and no grace period starts. *)
Lemma exit_command_ends_the_round :
  in_grace (initial_state 0%nat) = 0 /\
  jack_port_connected quiet_second <> 0 /\
  iteration lin2db_coarse default_exit_config quiet_second (initial_state 0%nat)
  = ([SILENCE], Exited 0) /\
  ~ transition_as_claimed lin2db_coarse default_exit_config quiet_second
      (initial_state 0%nat).
Proof.
  assert (H : iteration lin2db_coarse default_exit_config quiet_second
                (initial_state 0%nat) = ([SILENCE], Exited 0))
    by (vm_compute; reflexivity).
  split; [reflexivity|]. split; [discriminate|]. split; [exact H|].
  intros (evs & st' & E & _). rewrite H in E. discriminate.
Qed.

(** C1, amended.  On an evaluated round (grace expired, port connected)
    the silence detector, if enabled, brings its count to one more when
    the reading is strictly below the threshold and to zero otherwise, and
    fires SILENCE once exactly when that value reaches the period.  If the
    command of that fire does not return, the process ends there.
    Otherwise the no-dynamic detector, if enabled, does the same with the
    condition |previous - current| strictly below its threshold and its
    own count and period; if the command of its fire does not return, the
    process ends there.  When every command called has returned the round
    goes on, and for each enabled detector the count is zero and the grace
    counter holds the grace period if it fired, and the count keeps the
    value reached if it did not. *)
Theorem detector_transition
  (lin2db : float -> float) (cfg : config) (inp : tick_input) (st : state) :
  in_grace st = 0 ->
  jack_port_connected inp <> 0 ->
  let previous := peakdb st in
  let current := lin2db (peak (usleep (blocks inp) st)) in
  let cs := counted (ltb current (silence_theshold cfg)) (silence_count st) in
  let cn := counted (ltb (fabs (sub previous current)) (nodynamic_theshold cfg))
              (nodynamic_count st) in
  let silence_fires :=
    is_nonzero (silence_theshold cfg) && (silence_period cfg <=? cs) in
  let nodynamic_fires :=
    is_nonzero (nodynamic_theshold cfg) && (nodynamic_period cfg <=? cn) in
  let evs := fst (iteration lin2db cfg inp st) in
  let res := snd (iteration lin2db cfg inp st) in
  (is_nonzero (silence_theshold cfg) = true ->
   fired SILENCE evs = (if silence_period cfg <=? cs then 1%nat else 0%nat)) /\
  (silence_fires = true ->
   forall code,
     run_command (argv cfg) (fork_silence (os inp)) = CmdExited code ->
     iteration lin2db cfg inp st = ([SILENCE], Exited code)) /\
  ((silence_fires = true ->
    run_command (argv cfg) (fork_silence (os inp)) = CmdReturned) ->
   (is_nonzero (nodynamic_theshold cfg) = true ->
    fired NO_DYNAMIC evs
    = (if nodynamic_period cfg <=? cn then 1%nat else 0%nat)) /\
   (nodynamic_fires = true ->
    forall code,
      run_command (argv cfg) (fork_nodynamic (os inp)) = CmdExited code ->
      res = Exited code) /\
   ((nodynamic_fires = true ->
     run_command (argv cfg) (fork_nodynamic (os inp)) = CmdReturned) ->
    exists st' : state,
      res = Running st' /\
      (is_nonzero (silence_theshold cfg) = true ->
       if silence_period cfg <=? cs
       then silence_count st' = 0 /\ in_grace st' = grace_period cfg
       else silence_count st' = cs) /\
      (is_nonzero (nodynamic_theshold cfg) = true ->
       if nodynamic_period cfg <=? cn
       then nodynamic_count st' = 0 /\ in_grace st' = grace_period cfg
       else nodynamic_count st' = cn))).
Proof.
  intros Hg Hc.
  pose proof (iteration_outcome lin2db cfg inp st Hg Hc) as H.
  cbv zeta in *.
  destruct H as (_ & H1 & H2 & H3).
  split.
  { intros Es. rewrite Es in H1. exact H1. }
  split; [exact H2|].
  intros Hs. destruct (H3 Hs) as (H4 & H5 & H6).
  split.
  { intros En. rewrite En in H4. exact H4. }
  split; [exact H5|].
  intros Hn. destruct (H6 Hn) as (st' & A & B & C & D & _).
  exists st'. split; [exact A|]. split.
  - intros Es. rewrite Es in B, D. simpl in D.
    destruct (silence_period cfg <=? _); [simpl in D; auto | exact B].
  - intros En. rewrite En in C, D. simpl in D.
    destruct (nodynamic_period cfg <=? _);
      [rewrite orb_true_r in D; auto | exact C].
Qed.

(** C6, as stated, fails: SILENCE is fired first and its command is run
    before the no-dynamic test.  With the command [exit], in the first
    round after the start both conditions reach their periods, SILENCE
    alone is emitted and the process ends; no grace period is set. *)
Lemma exit_command_drops_second_event :
  let st := initial_state 0%nat in
  let current := lin2db_coarse (peak (usleep (blocks quiet_second) st)) in
  in_grace st = 0 /\
  jack_port_connected quiet_second <> 0 /\
  is_nonzero (silence_theshold both_exit_config) = true /\
  is_nonzero (nodynamic_theshold both_exit_config) = true /\
  silence_period both_exit_config <=
    counted (ltb current (silence_theshold both_exit_config))
      (silence_count st) /\
  nodynamic_period both_exit_config <=
    counted (ltb (fabs (sub (peakdb st) current))
               (nodynamic_theshold both_exit_config)) (nodynamic_count st) /\
  iteration lin2db_coarse both_exit_config quiet_second st
  = ([SILENCE], Exited 0) /\
  ~ both_fired_as_claimed lin2db_coarse both_exit_config quiet_second st.
Proof.
  assert (H : iteration lin2db_coarse both_exit_config quiet_second
                (initial_state 0%nat) = ([SILENCE], Exited 0))
    by (vm_compute; reflexivity).
  do 6 (split; [first [reflexivity | discriminate
                      | vm_compute; discriminate]|]).
  split; [exact H|].
  intros (st' & E & _). rewrite H in E. discriminate.
Qed.

(** C6, amended.  On an evaluated round in which both detectors reach
    their periods, SILENCE is emitted first.  If its command returns,
    NO_DYNAMIC is emitted in the same round, and if that command returns
    too, the round goes on with both counts at zero and the grace counter
    equal to the grace period itself: the second assignment overwrites the
    first, nothing is added up.  If the command of SILENCE does not return
    (it is [exit], or its [fork] fails) the process ends after SILENCE
    alone; if the command of NO_DYNAMIC does not return, the process ends
    after both events. *)
Theorem simultaneous_fire
  (lin2db : float -> float) (cfg : config) (inp : tick_input) (st : state) :
  in_grace st = 0 ->
  jack_port_connected inp <> 0 ->
  is_nonzero (silence_theshold cfg) = true ->
  is_nonzero (nodynamic_theshold cfg) = true ->
  let previous := peakdb st in
  let current := lin2db (peak (usleep (blocks inp) st)) in
  silence_period cfg <=
    counted (ltb current (silence_theshold cfg)) (silence_count st) ->
  nodynamic_period cfg <=
    counted (ltb (fabs (sub previous current)) (nodynamic_theshold cfg))
      (nodynamic_count st) ->
  (run_command (argv cfg) (fork_silence (os inp)) = CmdReturned ->
   run_command (argv cfg) (fork_nodynamic (os inp)) = CmdReturned ->
   exists st' : state,
     iteration lin2db cfg inp st = ([SILENCE; NO_DYNAMIC], Running st') /\
     in_grace st' = grace_period cfg /\
     silence_count st' = 0 /\
     nodynamic_count st' = 0) /\
  (forall code,
     run_command (argv cfg) (fork_silence (os inp)) = CmdExited code ->
     iteration lin2db cfg inp st = ([SILENCE], Exited code)) /\
  (run_command (argv cfg) (fork_silence (os inp)) = CmdReturned ->
   forall code,
     run_command (argv cfg) (fork_nodynamic (os inp)) = CmdExited code ->
     iteration lin2db cfg inp st = ([SILENCE; NO_DYNAMIC], Exited code)).
Proof.
  intros Hg Hc Es En previous current Ps Pn.
  pose proof (iteration_outcome lin2db cfg inp st Hg Hc) as H.
  cbv zeta in H. fold previous current in H.
  apply Z.leb_le in Ps. apply Z.leb_le in Pn.
  rewrite Es, En, Ps, Pn in H. simpl in H.
  destruct H as (Hre & H1 & H2 & H3).
  destruct (fired_both_events _ Hre) as [Hboth _].
  split; [|split].
  - intros Hs Hn.
    destruct (H3 (fun _ => Hs)) as (H4 & _ & H6).
    destruct (H6 (fun _ => Hn)) as (st' & A & B & C & D & _).
    exists st'. rewrite (surjective_pairing (iteration lin2db cfg inp st)).
    rewrite A, (Hboth H1 H4). auto.
  - intros code Hs. exact (H2 eq_refl code Hs).
  - intros Hs code Hn.
    destruct (H3 (fun _ => Hs)) as (H4 & H5 & _).
    rewrite (surjective_pairing (iteration lin2db cfg inp st)).
    rewrite (H5 eq_refl code Hn), (Hboth H1 H4). reflexivity.
Qed.

Lemma skipped_rounds_frame (lin2db : float -> float) (cfg : config)
  (skips : list tick_input) (st : state) (port : jack_port_t) :
  input_port st = Some port ->
  peak st = zero ->
  all_skipped skips st ->
  main_loop lin2db cfg skips st
  = (map (fun _ => []) skips, Running (skip_rounds skips st)) /\
  input_port (skip_rounds skips st) = Some port /\
  peakdb (skip_rounds skips st) = peakdb st /\
  last_peakdb (skip_rounds skips st) = last_peakdb st /\
  silence_count (skip_rounds skips st) = silence_count st /\
  nodynamic_count (skip_rounds skips st) = nodynamic_count st /\
  peak (skip_rounds skips st)
  = fold_left process_sample (samples_of skips) zero /\
  forall inp : tick_input,
    peak (usleep (blocks inp) (skip_rounds skips st))
    = fold_left process_sample (samples_of (skips ++ [inp])) zero.
Proof.
  intros Hp Hz Hall.
  destruct (skip_rounds_frame skips st port Hp) as (A & B & C & D & E & F).
  rewrite Hz in B.
  split; [now apply main_loop_skipped|].
  repeat (split; [assumption|]).
  intros inp.
  rewrite (usleep_registered (blocks inp) _ port A). simpl.
  rewrite B, <- fold_left_app. f_equal.
  unfold samples_of. rewrite map_app, !concat_app. simpl.
  now rewrite !app_nil_r.
Qed.

(** C10.  Skipped rounds (grace running, or no connection) fire nothing
    and leave the current and the previous reading as they were; the peak
    cell is neither read nor reset, so it goes on taking the maximum over
    everything the callback sees.  In the first evaluated round after
    them the current reading is the conversion of the greatest magnitude
    seen over all the skipped rounds and its own second, and the previous
    reading is the one from before the skipped rounds: the silence test
    is made on that current reading, the no-dynamic test, whenever the
    round gets to it, on the difference of these two, and a round that
    goes on stores them as current and previous reading with the cell
    back at zero.  The round goes on when every command it calls
    returns. *)
Theorem skipped_rounds_accumulate
  (lin2db : float -> float) (cfg : config) (skips : list tick_input)
  (inp : tick_input) (st : state) (port : jack_port_t) :
  input_port st = Some port ->
  peak st = zero ->
  all_skipped skips st ->
  exists (st1 : state) (m : float),
    main_loop lin2db cfg skips st = (map (fun _ => []) skips, Running st1) /\
    peakdb st1 = peakdb st /\
    last_peakdb st1 = last_peakdb st /\
    is_maximum (peak st1) (zero :: map fabs (samples_of skips)) /\
    is_maximum m (zero :: map fabs (samples_of (skips ++ [inp]))) /\
    peak (usleep (blocks inp) st1) = m /\
    (in_grace st1 = 0 ->
     jack_port_connected inp <> 0 ->
     let previous := peakdb st in
     let current := lin2db m in
     let cs := counted (ltb current (silence_theshold cfg)) (silence_count st) in
     let cn := counted (ltb (fabs (sub previous current))
                          (nodynamic_theshold cfg)) (nodynamic_count st) in
     let silence_fires :=
       is_nonzero (silence_theshold cfg) && (silence_period cfg <=? cs) in
     let nodynamic_fires :=
       is_nonzero (nodynamic_theshold cfg) && (nodynamic_period cfg <=? cn) in
     let evs := fst (iteration lin2db cfg inp st1) in
     let res := snd (iteration lin2db cfg inp st1) in
     fired SILENCE evs = (if silence_fires then 1 else 0)%nat /\
     ((silence_fires = true ->
       run_command (argv cfg) (fork_silence (os inp)) = CmdReturned) ->
      fired NO_DYNAMIC evs = (if nodynamic_fires then 1 else 0)%nat) /\
     (forall st2 : state,
         res = Running st2 ->
         last_peakdb st2 = previous /\ peakdb st2 = current /\
         peak st2 = zero) /\
     ((silence_fires = true ->
       run_command (argv cfg) (fork_silence (os inp)) = CmdReturned) ->
      (nodynamic_fires = true ->
       run_command (argv cfg) (fork_nodynamic (os inp)) = CmdReturned) ->
      exists st2 : state, res = Running st2)).
Proof.
  intros Hp Hz Hall.
  destruct (skipped_rounds_frame lin2db cfg skips st port Hp Hz Hall)
    as (A & B & C & D & E & F & G & K).
  exists (skip_rounds skips st),
    (fold_left process_sample (samples_of (skips ++ [inp])) zero).
  split; [exact A|]. split; [exact C|]. split; [exact D|].
  split; [rewrite G; apply (scan_maximum (samples_of skips) zero eq_refl)|].
  split; [apply (scan_maximum (samples_of (skips ++ [inp])) zero eq_refl)|].
  split; [exact (K inp)|].
  intros Hg Hc.
  set (st1 := skip_rounds skips st) in *.
  pose proof (iteration_outcome lin2db cfg inp st1 Hg Hc) as H.
  cbv zeta in H. rewrite (K inp), C, E, F in H.
  cbv zeta.
  destruct H as (_ & H1 & _ & H3).
  split; [exact H1|].
  split; [intros Hs; now destruct (H3 Hs)|].
  assert (Hframe : forall st2 : state,
             snd (iteration lin2db cfg inp st1) = Running st2 ->
             last_peakdb st2 = peakdb st /\
             peakdb st2
             = lin2db (fold_left process_sample
                         (samples_of (skips ++ [inp])) zero) /\
             peak st2 = zero).
  { intros st2 E2.
    destruct (usleep_frame (blocks inp) st1) as (_ & Hdb & _ & _ & _ & Hgr).
    assert (Hit : iteration lin2db cfg inp st1 =
                  evaluate cfg (os inp) (lin2db (peak (usleep (blocks inp) st1)))
                    (set_peak zero (usleep (blocks inp) st1))).
    { unfold iteration. apply loop_body_evaluated; [now rewrite Hgr|exact Hc]. }
    rewrite Hit in E2.
    destruct (evaluate cfg (os inp) _ _) as [ev r] eqn:F2.
    simpl in E2. subst r.
    destruct (evaluate_frame _ _ _ _ _ _ F2) as (P1 & _ & _).
    assert (Hfields : peakdb st2 = lin2db (peak (usleep (blocks inp) st1)) /\
                      last_peakdb st2 = peakdb st1).
    { revert F2. unfold evaluate.
      destruct (silence_detection cfg (os inp) _) as [ev1 [s1|c]] eqn:S1;
        [|discriminate].
      destruct (nodynamic_detection cfg (os inp) s1) as [ev2 r2] eqn:N1.
      intros F2; inversion F2; subst.
      destruct (silence_detection_cases cfg (os inp)
                  (set_readings
                     (peakdb (set_peak zero (usleep (blocks inp) st1)))
                     (lin2db (peak (usleep (blocks inp) st1)))
                     (set_peak zero (usleep (blocks inp) st1))))
        as [(_ & S)|[(_ & _ & S)|[(_ & _ & _ & S)|(_ & _ & c & _ & S)]]];
        rewrite S in S1; inversion S1; subst;
        match goal with
        | H : nodynamic_detection cfg (os inp) ?s0 = _ |- _ =>
            destruct (nodynamic_detection_cases cfg (os inp) s0)
              as [(_ & N)|[(_ & _ & N)|[(_ & _ & _ & N)|(_ & _ & c & _ & N)]]];
            rewrite N in H; inversion H; subst; simpl; rewrite Hdb; auto
        end. }
    destruct Hfields as [Q1 Q2].
    rewrite Q1, Q2, P1, (K inp), C. simpl. auto. }
  split; [exact Hframe|].
  intros Hs Hn.
  destruct (H3 Hs) as (_ & _ & H6).
  destruct (H6 Hn) as (st2 & E2 & _).
  exists st2. exact E2.
Qed.

Lemma detector_transition_witness :
  let cfg := both_config in
  let inp := quiet_second in
  let st := state_after_grace in
  in_grace st = 0 /\
  jack_port_connected inp <> 0 /\
  is_nonzero (silence_theshold cfg) = true /\
  is_nonzero (nodynamic_theshold cfg) = true /\
  run_command (argv cfg) (fork_silence (os inp)) = CmdReturned /\
  run_command (argv cfg) (fork_nodynamic (os inp)) = CmdReturned /\
  fired SILENCE (fst (iteration lin2db_coarse cfg inp st)) = 1%nat /\
  fired NO_DYNAMIC (fst (iteration lin2db_coarse cfg inp st)) = 1%nat /\
  (exists st' : state,
      snd (iteration lin2db_coarse cfg inp st) = Running st' /\
      (silence_count st' = 0 /\ in_grace st' = grace_period cfg) /\
      (nodynamic_count st' = 0 /\ in_grace st' = grace_period cfg)) /\
  run_command (argv default_exit_config) (fork_silence (os inp))
  = CmdExited 0 /\
  iteration lin2db_coarse default_exit_config inp (initial_state 0%nat)
  = ([SILENCE], Exited 0).
Proof.
  pose proof (detector_transition lin2db_coarse both_config quiet_second
                state_after_grace eq_refl ltac:(discriminate)) as H.
  pose proof (detector_transition lin2db_coarse default_exit_config
                quiet_second (initial_state 0%nat) eq_refl
                ltac:(discriminate)) as X.
  cbv zeta in H, X.
  destruct H as (H1 & _ & H3). destruct X as (_ & X2 & _).
  destruct (H3 (fun _ => eq_refl)) as (H4 & _ & H6).
  destruct (H6 (fun _ => eq_refl)) as (st' & A & B & C).
  do 6 (split; [first [reflexivity | discriminate]|]).
  split; [exact (H1 eq_refl)|]. split; [exact (H4 eq_refl)|].
  split; [exists st'; split; [exact A|];
          split; [exact (B eq_refl) | exact (C eq_refl)]|].
  split; [reflexivity|]. exact (X2 eq_refl 0 eq_refl).
Defined.

Lemma simultaneous_fire_witness :
  let st := state_after_grace in
  let current := lin2db_coarse (peak (usleep (blocks quiet_second) st)) in
  in_grace st = 0 /\
  jack_port_connected quiet_second <> 0 /\
  is_nonzero (silence_theshold both_config) = true /\
  is_nonzero (nodynamic_theshold both_config) = true /\
  silence_period both_config <=
    counted (ltb current (silence_theshold both_config)) (silence_count st) /\
  nodynamic_period both_config <=
    counted (ltb (fabs (sub (peakdb st) current))
               (nodynamic_theshold both_config)) (nodynamic_count st) /\
  run_command (argv both_config) (fork_silence (os quiet_second))
  = CmdReturned /\
  run_command (argv both_config) (fork_nodynamic (os quiet_second))
  = CmdReturned /\
  (exists st' : state,
      iteration lin2db_coarse both_config quiet_second st
      = ([SILENCE; NO_DYNAMIC], Running st') /\
      in_grace st' = grace_period both_config /\
      silence_count st' = 0 /\
      nodynamic_count st' = 0) /\
  run_command (argv both_exit_config) (fork_silence (os quiet_second))
  = CmdExited 0 /\
  iteration lin2db_coarse both_exit_config quiet_second (initial_state 0%nat)
  = ([SILENCE], Exited 0).
Proof.
  assert (Ps : silence_period both_config <=
               counted (ltb (lin2db_coarse
                               (peak (usleep (blocks quiet_second)
                                        state_after_grace)))
                          (silence_theshold both_config))
                 (silence_count state_after_grace))
    by (vm_compute; discriminate).
  assert (Pn : nodynamic_period both_config <=
               counted (ltb (fabs (sub (peakdb state_after_grace)
                                     (lin2db_coarse
                                        (peak (usleep (blocks quiet_second)
                                                 state_after_grace)))))
                          (nodynamic_theshold both_config))
                 (nodynamic_count state_after_grace))
    by (vm_compute; discriminate).
  assert (Qs : silence_period both_exit_config <=
               counted (ltb (lin2db_coarse
                               (peak (usleep (blocks quiet_second)
                                        (initial_state 0%nat))))
                          (silence_theshold both_exit_config))
                 (silence_count (initial_state 0%nat)))
    by (vm_compute; discriminate).
  assert (Qn : nodynamic_period both_exit_config <=
               counted (ltb (fabs (sub (peakdb (initial_state 0%nat))
                                     (lin2db_coarse
                                        (peak (usleep (blocks quiet_second)
                                                 (initial_state 0%nat))))))
                          (nodynamic_theshold both_exit_config))
                 (nodynamic_count (initial_state 0%nat)))
    by (vm_compute; discriminate).
  destruct (simultaneous_fire lin2db_coarse both_config quiet_second
              state_after_grace eq_refl ltac:(discriminate) eq_refl eq_refl
              Ps Pn) as (H1 & _ & _).
  destruct (simultaneous_fire lin2db_coarse both_exit_config quiet_second
              (initial_state 0%nat) eq_refl ltac:(discriminate) eq_refl
              eq_refl Qs Qn) as (_ & X2 & _).
  do 4 (split; [first [reflexivity | discriminate]|]).
  split; [exact Ps|]. split; [exact Pn|].
  split; [reflexivity|]. split; [reflexivity|].
  split; [exact (H1 eq_refl eq_refl)|].
  split; [reflexivity|]. exact (X2 0 eq_refl).
Defined.

Lemma skipped_rounds_accumulate_witness :
  let skips := [loud_second; unplugged_second] in
  input_port state_after_fire = Some 0%nat /\
  peak state_after_fire = zero /\
  all_skipped skips state_after_fire /\
  jack_port_connected quiet_second <> 0 /\
  exists (st1 : state) (m : float),
    main_loop lin2db_coarse both_config skips state_after_fire
    = ([[]; []], Running st1) /\
    in_grace st1 = 0 /\
    is_maximum m (zero :: map fabs (samples_of (skips ++ [quiet_second]))) /\
    fired SILENCE (fst (iteration lin2db_coarse both_config quiet_second st1))
    = (if is_nonzero (silence_theshold both_config)
          && (silence_period both_config <=?
              counted (ltb (lin2db_coarse m) (silence_theshold both_config))
                (silence_count state_after_fire))
       then 1%nat else 0%nat) /\
    exists st2 : state,
      snd (iteration lin2db_coarse both_config quiet_second st1)
      = Running st2 /\
      last_peakdb st2 = peakdb state_after_fire /\
      peakdb st2 = lin2db_coarse m /\
      peak st2 = zero.
Proof.
  assert (Hall : all_skipped [loud_second; unplugged_second] state_after_fire).
  { split; [left; discriminate|]. split; [left; vm_compute; discriminate|exact I]. }
  split; [reflexivity|]. split; [reflexivity|]. split; [exact Hall|].
  split; [discriminate|].
  destruct (skipped_rounds_accumulate lin2db_coarse both_config
              [loud_second; unplugged_second] quiet_second state_after_fire
              0%nat eq_refl eq_refl Hall)
    as (st1 & m & H1 & _ & _ & _ & H5 & _ & H6).
  assert (Hg : in_grace st1 = 0).
  { rewrite (main_loop_skipped lin2db_coarse both_config _ _ Hall) in H1.
    inversion H1 as [E]. reflexivity. }
  pose proof (H6 Hg ltac:(discriminate)) as F. cbv zeta in F.
  destruct F as (F1 & _ & F3 & F4).
  destruct (F4 (fun _ => eq_refl) (fun _ => eq_refl)) as (st2 & E2).
  exists st1, m.
  split; [exact H1|]. split; [exact Hg|]. split; [exact H5|].
  split; [exact F1|].
  exists st2. split; [exact E2 | exact (F3 st2 E2)].
Defined.

(** * Every schedule of the two threads *)

Lemma run_jack_steps (lin2db : float -> float) (n : nat) :
  forall (pk : float) (pc : read_peak_pc) (buf : list float),
    run_schedule lin2db (repeat JackThread n) (mkThreads pk pc buf)
    = mkThreads (fold_left process_sample (firstn n buf) pk) pc (skipn n buf).
Proof.
  unfold run_schedule.
  induction n as [|n IH]; intros pk pc buf; simpl; [reflexivity|].
  destruct buf as [|x buf]; simpl.
  - rewrite IH. destruct n; reflexivity.
  - apply IH.
Qed.

Lemma run_after_return (lin2db : float -> float) (rest : list thread) :
  forall (pk v : float) (buf : list float),
    run_schedule lin2db rest (mkThreads pk (RP_return v) buf)
    = mkThreads
        (fold_left process_sample (firstn (jack_steps rest) buf) pk)
        (RP_return v) (skipn (jack_steps rest) buf).
Proof.
  unfold run_schedule.
  induction rest as [|t rest IH]; intros pk v buf; simpl; [reflexivity|].
  destruct t; simpl.
  - apply IH.
  - destruct buf as [|x buf]; simpl.
    + rewrite IH. destruct (jack_steps rest); reflexivity.
    + apply IH.
Qed.

Lemma run_schedule_app (lin2db : float -> float) (s1 s2 : list thread)
  (c : threads) :
  run_schedule lin2db (s1 ++ s2) c
  = run_schedule lin2db s2 (run_schedule lin2db s1 c).
Proof. unfold run_schedule. apply fold_left_app. Qed.

(** A schedule with two steps of the main thread, written out. *)
Lemma run_two_mains (lin2db : float -> float) (p0 : float)
  (buf : list float) (n1 n2 : nat) (rest : list thread) :
  run_schedule lin2db
    (repeat JackThread n1 ++ MainThread :: repeat JackThread n2
       ++ MainThread :: rest)
    (mkThreads p0 RP_load buf)
  = mkThreads
      (fold_left process_sample
         (firstn (jack_steps rest) (skipn n2 (skipn n1 buf))) zero)
      (RP_return (lin2db (fold_left process_sample (firstn n1 buf) p0)))
      (skipn (jack_steps rest) (skipn n2 (skipn n1 buf))).
Proof.
  rewrite run_schedule_app, run_jack_steps.
  change (MainThread :: repeat JackThread n2 ++ MainThread :: rest)
    with ([MainThread] ++ repeat JackThread n2 ++ [MainThread] ++ rest).
  rewrite !run_schedule_app. simpl (run_schedule lin2db [MainThread] _).
  rewrite run_jack_steps. simpl (run_schedule lin2db [MainThread] _).
  apply run_after_return.
Qed.

(** A schedule has no step of the main thread, one, or at least two. *)
Lemma schedule_shape (sched : list thread) :
  sched = repeat JackThread (jack_prefix sched) \/
  sched = repeat JackThread (jack_prefix sched) ++ MainThread ::
          repeat JackThread (jack_prefix (after_main sched)) \/
  sched = repeat JackThread (jack_prefix sched) ++ MainThread ::
          repeat JackThread (jack_prefix (after_main sched)) ++ MainThread ::
          after_main (after_main sched).
Proof.
  assert (One : forall s, s = repeat JackThread (jack_prefix s) \/
                          s = repeat JackThread (jack_prefix s)
                              ++ MainThread :: after_main s).
  { induction s as [|t s IH]; [left; reflexivity|].
    destruct t; simpl; [right; reflexivity|].
    destruct IH as [IH|IH]; [left|right]; f_equal; exact IH. }
  destruct (One sched) as [H|H]; [left; exact H|].
  right.
  destruct (One (after_main sched)) as [H'|H']; [left|right];
    rewrite H at 1; rewrite H' at 1; reflexivity.
Qed.

(** X12.  What every schedule of the two threads does.  Take any schedule
    in which [read_peak] gets to its end, and let the callback scan its
    buffer one sample per step.  The steps of the callback before the
    first step of the main thread (the load) scan the samples [before];
    those between the load and the store scan [between]; those after the
    store scan [after].  Then [read_peak] returns the conversion of the
    greatest of the old peak and [before], and the cell ends with the
    greatest of zero and [after]: nothing scanned after the store is
    zeroed, and [between] is in neither. *)
Theorem every_schedule_accounts_for_samples
  (lin2db : float -> float) (p0 : float) (buf : list float)
  (sched : list thread) (v : float) :
  let n1 := jack_prefix sched in
  let n2 := jack_prefix (after_main sched) in
  let n3 := jack_steps (after_main (after_main sched)) in
  let before := firstn n1 buf in
  let between := firstn n2 (skipn n1 buf) in
  let after := firstn n3 (skipn n2 (skipn n1 buf)) in
  let final := run_schedule lin2db sched (mkThreads p0 RP_load buf) in
  t_main final = RP_return v ->
  buf = before ++ between ++ after ++ t_jack final /\
  v = lin2db (fold_left process_sample before p0) /\
  t_peak final = fold_left process_sample after zero /\
  is_maximum (t_peak final) (zero :: map fabs after) /\
  (is_nan p0 = false ->
   is_maximum (fold_left process_sample before p0) (p0 :: map fabs before)).
Proof.
  intros n1 n2 n3 before between after final Hret.
  assert (Hrun : final
                 = mkThreads (fold_left process_sample after zero)
                     (RP_return (lin2db (fold_left process_sample before p0)))
                     (skipn n3 (skipn n2 (skipn n1 buf)))).
  { destruct (schedule_shape sched) as [H|[H|H]].
    - exfalso. subst final. rewrite H, run_jack_steps in Hret. discriminate.
    - exfalso. subst final. rewrite H in Hret.
      rewrite run_schedule_app, run_jack_steps in Hret.
      change (MainThread :: repeat JackThread (jack_prefix (after_main sched)))
        with ([MainThread]
                ++ repeat JackThread (jack_prefix (after_main sched))) in Hret.
      rewrite run_schedule_app in Hret.
      simpl (run_schedule lin2db [MainThread] _) in Hret.
      rewrite run_jack_steps in Hret. discriminate.
    - subst final. rewrite H at 1. apply run_two_mains. }
  rewrite Hrun in *. simpl in *.
  inversion Hret as [Hv].
  split.
  { unfold before, between, after.
    rewrite !firstn_skipn. reflexivity. }
  split; [reflexivity|]. split; [reflexivity|].
  split; [apply (scan_maximum after zero eq_refl)|].
  intros Hn. apply (scan_maximum before p0 Hn).
Qed.

Lemma every_schedule_accounts_for_samples_witness :
  let buf := [of_scaled 1 (-1); of_scaled 1 (-3); of_scaled 3 (-2);
              of_scaled 1 (-4)] in
  let sched := [JackThread; MainThread; JackThread; MainThread; JackThread] in
  let final :=
    run_schedule lin2db_coarse sched (mkThreads zero RP_load buf) in
  t_main final = RP_return (of_Z (-6)) /\
  is_nan zero = false /\
  buf = [of_scaled 1 (-1)] ++ [of_scaled 1 (-3)] ++ [of_scaled 3 (-2)]
        ++ t_jack final /\
  of_Z (-6) = lin2db_coarse (fold_left process_sample [of_scaled 1 (-1)] zero) /\
  t_peak final = fold_left process_sample [of_scaled 3 (-2)] zero /\
  is_maximum (t_peak final) (zero :: map fabs [of_scaled 3 (-2)]) /\
  is_maximum (fold_left process_sample [of_scaled 1 (-1)] zero)
    (zero :: map fabs [of_scaled 1 (-1)]).
Proof.
  assert (Hret : t_main
                   (run_schedule lin2db_coarse
                      [JackThread; MainThread; JackThread; MainThread;
                       JackThread]
                      (mkThreads zero RP_load
                         [of_scaled 1 (-1); of_scaled 1 (-3);
                          of_scaled 3 (-2); of_scaled 1 (-4)]))
                 = RP_return (of_Z (-6))) by (vm_compute; reflexivity).
  destruct (every_schedule_accounts_for_samples lin2db_coarse zero
              [of_scaled 1 (-1); of_scaled 1 (-3); of_scaled 3 (-2);
               of_scaled 1 (-4)]
              [JackThread; MainThread; JackThread; MainThread; JackThread]
              (of_Z (-6)) Hret) as (A & B & C & D & E).
  split; [exact Hret|]. split; [reflexivity|].
  split; [exact A|]. split; [exact B|]. split; [exact C|].
  split; [exact D | exact (E eq_refl)].
Defined.

(** * The period given to [-P] *)



